(** * Monaco Collaborative Extensions: remote cursors, remote selections and
      the editor content manager.

    A shallow embedding of the TypeScript classes [Validation],
    [EditorContentManager], [RemoteCursorWidget], [RemoteCursor],
    [RemoteCursorManager], [RemoteSelection] and [RemoteSelectionManager].

    Methods are state-passing computations that return or throw.  A method
    that only touches its own object is written on that object; objects that
    are shared by reference (a widget held by its manager and by a handle, a
    content manager subscribed to the editor) live in a [World], and the
    methods that reach across objects are written on the world.  The host
    editor (the text buffer, the translation between offsets and positions,
    the delivery of content-changed events) is not part of the library and is
    written out from its specified interface.

    The first part holds the definitions, the second the properties: the
    offset re-anchoring of cursor widgets (C1, C2, C4), the suppression of a
    content manager's own callbacks during its edits (C3), the change
    classifier (C5), the ordering of a selection (C6), the registries (C7,
    C8), disposed markers (C9) and unpositioned cursors (C10). *)

From Stdlib Require Import ZArith Lia Bool List Ascii String.
From Stdlib Require Import DecimalString DecimalNat.
From stdpp Require Import base option list gmap strings.

#[local] Set Warnings "-register-all".

Local Open Scope Z_scope.

(** ** JavaScript values, errors and completions *)

Module Js.

(** The run-time values the validation helpers inspect. *)
Inductive Value :=
| Undefined
| Null
| Boolean (b : bool)
| Number (n : Z)
| Str (s : string)
| Object (props : list (string * Value))
| Function.

(** The [typeof] operator. *)
Definition typeof (v : Value) : string :=
  match v with
  | Undefined => "undefined"
  | Null => "object"
  | Boolean _ => "boolean"
  | Number _ => "number"
  | Str _ => "string"
  | Object _ => "object"
  | Function => "function"
  end.

(** What [if (v)] makes of a value. *)
Definition truthy (v : Value) : bool :=
  match v with
  | Undefined | Null => false
  | Boolean b => b
  | Number n => negb (n =? 0)
  | Str s => match s with EmptyString => false | String _ _ => true end
  | Object _ | Function => true
  end.

(** Reading a property of an object value; a missing property reads as
    [undefined]. *)
Fixpoint lookupProp (props : list (string * Value)) (name : string) : Value :=
  match props with
  | [] => Undefined
  | (k, v) :: rest => if String.eqb k name then v else lookupProp rest name
  end.

Definition getProp (v : Value) (name : string) : Value :=
  match v with
  | Object props => lookupProp props name
  | _ => Undefined
  end.

(** What a [throw] carries: [new Error(message)], or the [TypeError] the
    engine raises when a property of [undefined] or [null] is read.
    [OutOfFuel] is not a JavaScript error: it marks a run of the embedding
    that was given too little fuel for the re-entrant dispose/remove calls. *)
Inductive Error :=
| Err (message : string)
| TypeError (message : string)
| OutOfFuel.

(** How a call completes. *)
Inductive Completion (A : Type) :=
| Normal (a : A)
| Throw (e : Error).
Arguments Normal {A} a.
Arguments Throw {A} e.

Definition isThrow {A} (c : Completion A) : bool :=
  match c with Throw _ => true | Normal _ => false end.

(** A method body: it reads and updates a state [S] and either returns or
    throws; updates made before a throw persist, as they do in JavaScript. *)
Definition M (S A : Type) : Type := S -> Completion A * S.

Definition ret {S A} (a : A) : M S A := fun s => (Normal a, s).
Definition throw {S A} (e : Error) : M S A := fun s => (Throw e, s).
Definition bind {S A B} (m : M S A) (k : A -> M S B) : M S B :=
  fun s => match m s with
           | (Normal a, s') => k a s'
           | (Throw e, s') => (Throw e, s')
           end.
Definition get {S} : M S S := fun s => (Normal s, s).
Definition gets {S A} (f : S -> A) : M S A := fun s => (Normal (f s), s).
Definition modify {S} (f : S -> S) : M S unit := fun s => (Normal tt, f s).
(** [try { m } catch (e) { h e }] *)
Definition catch {S A} (m : M S A) (h : Error -> M S A) : M S A :=
  fun s => match m s with
           | (Normal a, s') => (Normal a, s')
           | (Throw e, s') => h e s'
           end.

(** [xs.forEach(f)]: the first throw ends the loop. *)
Fixpoint forEach {S A} (f : A -> M S unit) (xs : list A) : M S unit :=
  match xs with
  | [] => ret tt
  | x :: xs' => bind (f x) (fun _ => forEach f xs')
  end.

End Js.

Import Js.

Declare Scope js_scope.
Delimit Scope js_scope with js.
Notation "'let*' x ':=' m 'in' k" := (Js.bind m (fun x => k))
(at level 10, x name, m at level 100, k at level 200) : js_scope.
Notation "m '>>' k" := (Js.bind m (fun _ => k))
(at level 90, right associativity) : js_scope.
Local Open Scope js_scope.

(** ** Validation.ts *)

(** The messages of the source end with the offending value, which is left
    out here. *)
Module Validation.

Definition assertString {S} (val : Value) (name : string) : M S unit :=
  if negb (String.eqb (typeof val) "string")
  then throw (Err (name +:+ " must be a string but was: "))
  else ret tt.

Definition assertNumber {S} (val : Value) (name : string) : M S unit :=
  if negb (String.eqb (typeof val) "number")
  then throw (Err (name +:+ " must be a number but was: "))
  else ret tt.

Definition assertDefined {S} (val : Value) (name : string) : M S unit :=
  match val with
  | Undefined | Null => throw (Err (name +:+ " must be a defined but was: "))
  | _ => ret tt
  end.

Definition assertFunction {S} (val : Value) (name : string) : M S unit :=
  if negb (String.eqb (typeof val) "function")
  then throw (Err (name +:+ " must be a function but was: "))
  else ret tt.

Definition assertPosition {S} (val : Value) (name : string) : M S unit :=
  assertDefined val name >>
  if negb (String.eqb (typeof (getProp val "lineNumber")) "number") ||
     negb (String.eqb (typeof (getProp val "column")) "number")
  then throw (Err (name +:+
         " must be an Object like {lineNumber: number, column: number}: "))
  else ret tt.

End Validation.

(** ** Positions and the host editor's text model *)

(** [monaco.IPosition]: one-based line number and column. *)
Record IPosition := mkPosition { lineNumber : Z; column : Z }.

Definition positionValue (p : IPosition) : Value :=
Object [("lineNumber"%string, Number (lineNumber p));
        ("column"%string, Number (column p))].

(** Buffer order on positions: line number first, then column. *)
Definition pos_le (a b : IPosition) : Prop :=
lineNumber a < lineNumber b \/
(lineNumber a = lineNumber b /\ column a <= column b).

Definition pos_leb (a b : IPosition) : bool :=
(lineNumber a <? lineNumber b) ||
((lineNumber a =? lineNumber b) && (column a <=? column b)).

(** [editor.IModelContentChange], the fields the library reads. *)
Record IModelContentChange := mkChange {
rangeOffset : Z;
rangeLength : Z;
text : string
}.

Definition strlen (s : string) : Z := Z.of_nat (String.length s).

(** The host editor is not part of the library.  Its buffer is taken to be
    the document text, a string whose lines end with a line feed, and its
    offset translator is written out on that string. *)
Module TextModel.

Definition isLineFeed (c : ascii) : bool := Ascii.eqb c "010"%char.

(** The position reached from [(line, col)] after [n] characters of [s]. *)
Fixpoint positionFrom (s : string) (n : nat) (line col : Z) : IPosition :=
  match n, s with
  | O, _ => mkPosition line col
  | S _, EmptyString => mkPosition line col
  | S n', String c s' =>
      if isLineFeed c then positionFrom s' n' (line + 1) 1
      else positionFrom s' n' line (col + 1)
  end.

(** Modelled from the spec: [positionAt(offset)] of the collaborator
    surface, the editor's [getModel().getPositionAt].  An offset below zero
    or past the end of the buffer is clamped into the buffer. *)
Definition getPositionAt (m : string) (offset : Z) : IPosition :=
  positionFrom m (Z.to_nat offset) 1 1.

(** The number of characters from [(line, col)], the position of the head
    of [s], to the target [(tl, tc)]; a target before the first line or
    column, past the end of its line or past the last line is clamped. *)
Fixpoint offsetFrom (s : string) (line col tl tc : Z) : Z :=
  match s with
  | EmptyString => 0
  | String c s' =>
      if (tl <? line) || ((tl =? line) && (tc <=? col)) then 0
      else if isLineFeed c then
        if tl =? line then 0 else 1 + offsetFrom s' (line + 1) 1 tl tc
      else 1 + offsetFrom s' line (col + 1) tl tc
  end.

(** Modelled from the spec: [offsetAt(position)] of the collaborator
    surface, the editor's [getModel().getOffsetAt].  A position that is not
    in the buffer is first moved to the nearest one that is. *)
Definition getOffsetAt (m : string) (p : IPosition) : Z :=
  offsetFrom m 1 1 (lineNumber p) (column p).

(** Modelled from the spec: [currentLength()] of the collaborator surface. *)
Definition getValueLength (m : string) : Z := strlen m.

Fixpoint take (n : nat) (s : string) : string :=
  match n, s with
  | S n', String c s' => String c (take n' s')
  | _, _ => EmptyString
  end.

Fixpoint drop (n : nat) (s : string) : string :=
  match n, s with
  | S n', String _ s' => drop n' s'
  | _, _ => s
  end.

(** Modelled from the spec: the effect of [applyEdit] on the buffer.  The
    characters [offset .. offset + len) are replaced by [txt]. *)
Definition splice (m : string) (offset len : Z) (txt : string) : string :=
  take (Z.to_nat offset) m +:+ txt +:+
  drop (Z.to_nat offset + Z.to_nat len) m.

(** The buffer after one reported change. *)
Definition applyChange (m : string) (c : IModelContentChange) : string :=
  splice m (rangeOffset c) (rangeLength c) (text c).

End TextModel.

Import TextModel.

(** [new monaco.Range(...)]: the constructor orders its two end points. *)
Record Range := mkRange {
  startLineNumber : Z;
  startColumn : Z;
  endLineNumber : Z;
  endColumn : Z
}.

Definition newRange (sl sc el ec : Z) : Range :=
  if (el <? sl) || ((sl =? el) && (ec <? sc))
  then mkRange el ec sl sc
  else mkRange sl sc el ec.

Definition getStartPosition (r : Range) : IPosition :=
  mkPosition (startLineNumber r) (startColumn r).

Definition getEndPosition (r : Range) : IPosition :=
  mkPosition (endLineNumber r) (endColumn r).

(** OnDisposed.ts: the callback a marker runs when it is disposed.  The
    closures the two managers build are [() => this.removeCursor(id)] and
    [() => { this.removeSelection(id); }]; each is kept as the id it
    captured, and run by the manager of the marker's kind. *)
Record OnDisposed := removeOnDisposed { capturedId : string }.

(** A call binds its arguments to the parameters by position, and no
    declared type is checked when the program runs.  A parameter therefore
    holds whatever the caller wrote at its position: a plain value, or the
    closure a manager built; a parameter past the last argument holds
    [undefined]. *)
Inductive Argument :=
| Plain (v : Value)
| Closure (callback : OnDisposed).

Definition isTruthy (a : Argument) : bool :=
  match a with
  | Plain v => truthy v
  | Closure _ => true
  end.

(** [typeof a === "function"] *)
Definition isFunction (a : Argument) : bool :=
  match a with
  | Plain v => String.eqb (typeof v) "function"
  | Closure _ => true
  end.

(** ** EditorContentManager.ts *)

Module EditorContentManager.

Section Callbacks.
Context {S : Type}.

(** The three callbacks of [IEditorContentManagerOptions], acting on the
    state [S] of whoever supplied them. *)
Record Options := mkOptions {
  onInsert : Z -> string -> M S unit;
  onReplace : Z -> Z -> string -> M S unit;
  onDelete : Z -> Z -> M S unit
}.

Definition _DEFAULTS : Options :=
  {| onInsert := fun _ _ => ret tt;
     onReplace := fun _ _ _ => ret tt;
     onDelete := fun _ _ => ret tt |}.

(** [_processChange]; the message of the error ends with the JSON text of
    the change, which is left out here. *)
Definition _processChange (o : Options) (change : IModelContentChange)
  : M S unit :=
  Validation.assertDefined (Object []) "change" >>
  let '(mkChange rangeOffset rangeLength text) := change in
  if (0 <? strlen text) && (rangeLength =? 0) then
    onInsert o rangeOffset text
  else if (0 <? strlen text) && (0 <? rangeLength) then
    onReplace o rangeOffset rangeLength text
  else if (strlen text =? 0) && (0 <? rangeLength) then
    onDelete o rangeOffset rangeLength
  else
    throw (Err "Unexpected change: ").

(** [_onContentChanged], given the current value of [this._suppress] and the
    [changes] of the event. *)
Definition _onContentChanged (o : Options) (_suppress : bool)
  (changes : list IModelContentChange) : M S unit :=
  if negb _suppress then forEach (_processChange o) changes else ret tt.

End Callbacks.

Arguments Options : clear implicits.

(** The mutable part of a content manager: the suppress flag (never
    assigned by the constructor, so falsy at first) and whether the
    subscription held by [_disposer] is still live. *)
Record t := mk {
  _suppress : bool;
  _subscribed : bool
}.

(** The constructor subscribes [_onContentChanged] to the editor. *)
Definition new_ : t := {| _suppress := false; _subscribed := true |}.

Definition set_suppress (b : bool) (cm : t) : t :=
  {| _suppress := b; _subscribed := _subscribed cm |}.

Definition dispose (cm : t) : t :=
  {| _suppress := _suppress cm; _subscribed := false |}.

End EditorContentManager.

(** ** RemoteCursorWidget.ts *)

Module RemoteCursorWidget.

(** [editor.IContentWidgetPosition]; the preference is always [EXACT]. *)
Record IContentWidgetPosition := mkWidgetPosition { position : IPosition }.

(** The field [_position : IContentWidgetPosition | null].  The constructor
    never assigns it, so it reads [undefined] until the first
    [_updatePosition]. *)
Inductive PositionSlot :=
| PosUndefined
| PosNull
| PosObject (p : IContentWidgetPosition).

(** [this._position === null] *)
Definition isNull (p : PositionSlot) : bool :=
  match p with PosNull => true | _ => false end.

(** The widget's fields.  [_display] is [_domNode.style.display];
    [_tooltipNode] is the tooltip element when there is one, held as what
    the constructor assigned to its [innerText];
    [_scrollListener] is [Some live] when the scroll listener exists;
    [_attached] tells whether the editor currently holds the widget
    ([addContentWidget] / [removeContentWidget]).  Colours, class names, the
    tooltip's placement and its timers are presentation only and left out. *)
Record t := mk {
  _id : string;
  _display : string;
  _tooltipNode : option Argument;
  _tooltipDuration : Argument;
  _scrollListener : option bool;
  _onDisposed : Argument;
  _contentManager : EditorContentManager.t;
  _position : PositionSlot;
  _offset : Z;
  _disposed : bool;
  _attached : bool
}.

Definition set_display (d : string) (w : t) : t :=
  mk (_id w) d (_tooltipNode w) (_tooltipDuration w) (_scrollListener w)
     (_onDisposed w) (_contentManager w) (_position w) (_offset w)
     (_disposed w) (_attached w).

Definition set_position_offset (p : PositionSlot) (o : Z) (w : t) : t :=
  mk (_id w) (_display w) (_tooltipNode w) (_tooltipDuration w)
     (_scrollListener w) (_onDisposed w) (_contentManager w) p o
     (_disposed w) (_attached w).

(** The constructor, with its parameters in the order of the source; the
    first one, the editor, is the one editor of the world.  [className],
    [color], [showTooltipOnHover] and [tooltipClassName] only style the DOM
    nodes. *)
Definition new_ (widgetId : string)
  (className color label tooltipEnabled tooltipDuration
   showTooltipOnHover tooltipClassName onDisposed : Argument) : t :=
  {| _id := "monaco-remote-cursor-" +:+ widgetId;
     _display := EmptyString;
     _tooltipNode := if isTruthy tooltipEnabled then Some label else None;
     _tooltipDuration := tooltipDuration;
     _scrollListener := if isTruthy tooltipEnabled then Some true else None;
     _onDisposed := onDisposed;
     _contentManager := EditorContentManager.new_;
     _position := PosUndefined;
     _offset := -1;
     _disposed := false;
     _attached := true |}.

(** The methods below take the editor's model [m] as it is at the time of
    the call. *)

Definition hide : M t unit := modify (set_display "none").

Definition show : M t unit := modify (set_display "inherit").

Definition _updatePosition (m : string) (position : IPosition) : M t unit :=
  modify (set_position_offset
            (PosObject (mkWidgetPosition position))
            (getOffsetAt m position)).

Definition setPosition (m : string) (position : IPosition) : M t unit :=
  Validation.assertPosition (positionValue position) "position" >>
  _updatePosition m position.

Definition setOffset (m : string) (offset : Z) : M t unit :=
  Validation.assertNumber (Number offset) "offset" >>
  let position := getPositionAt m offset in
  setPosition m position.

Definition isDisposed : M t bool := gets _disposed.

Definition getId : M t string := gets _id.

Definition getPosition : M t PositionSlot := gets _position.

Definition _onInsert (m : string) (index : Z) (text : string) : M t unit :=
  let* this := get in
  if isNull (_position this) then ret tt
  else
    let offset := _offset this in
    if index <=? offset then
      let newOffset := offset + strlen text in
      let position := getPositionAt m newOffset in
      _updatePosition m position
    else ret tt.

Definition _onReplace (m : string) (index length : Z) (text : string)
  : M t unit :=
  let* this := get in
  if isNull (_position this) then ret tt
  else
    let offset := _offset this in
    if index <=? offset then
      let newOffset := (offset - Z.min (offset - index) length) + strlen text in
      let position := getPositionAt m newOffset in
      _updatePosition m position
    else ret tt.

Definition _onDelete (m : string) (index length : Z) : M t unit :=
  let* this := get in
  if isNull (_position this) then ret tt
  else
    let offset := _offset this in
    if index <=? offset then
      let newOffset := offset - Z.min (offset - index) length in
      let position := getPositionAt m newOffset in
      _updatePosition m position
    else ret tt.

(** The options the constructor hands to its own [EditorContentManager]. *)
Definition contentManagerOptions (m : string) : EditorContentManager.Options t :=
  {| EditorContentManager.onInsert := _onInsert m;
     EditorContentManager.onReplace := _onReplace m;
     EditorContentManager.onDelete := _onDelete m |}.

(** The widget's content manager hears a content-changed event of the
    editor, whose model is [m] by then. *)
Definition contentChanged (m : string) (changes : list IModelContentChange)
  : M t unit :=
  let* this := get in
  let cm := _contentManager this in
  if EditorContentManager._subscribed cm then
    EditorContentManager._onContentChanged (contentManagerOptions m)
      (EditorContentManager._suppress cm) changes
  else ret tt.

(** The part of [dispose] that changes the widget itself, up to and
    including [this._disposed = true]. *)
Definition markDisposed (w : t) : t :=
  mk (_id w) (_display w) (_tooltipNode w) (_tooltipDuration w)
     (match _scrollListener w with Some _ => Some false | None => None end)
     (_onDisposed w) (EditorContentManager.dispose (_contentManager w))
     (_position w) (_offset w) true false.

End RemoteCursorWidget.

(** ** RemoteCursor.ts *)

Module RemoteCursor.

(** [getPosition] reads [.position] of what the widget returns. *)
Definition getPosition : M RemoteCursorWidget.t IPosition :=
  let* p := RemoteCursorWidget.getPosition in
  match p with
  | RemoteCursorWidget.PosObject p => ret (RemoteCursorWidget.position p)
  | RemoteCursorWidget.PosUndefined =>
      throw (TypeError "Cannot read properties of undefined (reading 'position')")
  | RemoteCursorWidget.PosNull =>
      throw (TypeError "Cannot read properties of null (reading 'position')")
  end.

End RemoteCursor.

(** ** RemoteSelection.ts *)

Module RemoteSelection.

(** A decoration handed to [editor.deltaDecorations]. *)
Record Decoration := mkDecoration {
  range : Range;
  className : string;
  hoverMessage : option string
}.

(** The selection's fields.  [_startPosition], [_endPosition] and
    [_disposed] are not assigned by the constructor: the positions are
    [None] (undefined) until the first [setPositions], the flag is falsy.
    [_decorations] holds the decorations the editor currently renders for
    this selection, which the source reaches through the ids that
    [deltaDecorations] returned.  [_styleAttached] tells whether the style
    element is still in the document. *)
Record t := mk {
  _id : string;
  _className : string;
  _styleAttached : bool;
  _label : option string;
  _onDisposed : OnDisposed;
  _startPosition : option IPosition;
  _endPosition : option IPosition;
  _decorations : list Decoration;
  _disposed : bool
}.

Definition set_positions (s e : IPosition) (x : t) : t :=
  mk (_id x) (_className x) (_styleAttached x) (_label x) (_onDisposed x)
     (Some s) (Some e) (_decorations x) (_disposed x).

Definition set_decorations (d : list Decoration) (x : t) : t :=
  mk (_id x) (_className x) (_styleAttached x) (_label x) (_onDisposed x)
     (_startPosition x) (_endPosition x) d (_disposed x).

Definition _swapIfNeeded (start end_ : IPosition) : IPosition * IPosition :=
  if (lineNumber start <? lineNumber end_) ||
     ((lineNumber start =? lineNumber end_) && (column start <=? column end_))
  then (start, end_)
  else (end_, start).

(** The constructor. *)
Definition new_ (id : string) (classId : string) (label : option string)
  (onDisposed : OnDisposed) : t :=
  let uniqueClassId := "monaco-remote-selection-" +:+ classId in
  {| _id := id;
     _className := "monaco-remote-selection " +:+ uniqueClassId;
     _styleAttached := true;
     _label := label;
     _onDisposed := onDisposed;
     _startPosition := None;
     _endPosition := None;
     _decorations := [];
     _disposed := false |}.

Definition getId : M t string := gets _id.

(** [_render] reads [this._startPosition.lineNumber] and the three other
    coordinates before it calls the editor. *)
Definition _render : M t unit :=
  let* this := get in
  match _startPosition this, _endPosition this with
  | Some s, Some e =>
      modify (set_decorations
                [ {| range := newRange (lineNumber s) (column s)
                                       (lineNumber e) (column e);
                     className := _className this;
                     hoverMessage := _label this |} ])
  | _, _ =>
      throw (TypeError "Cannot read properties of undefined (reading 'lineNumber')")
  end.

Definition setPositions (start end_ : IPosition) : M t unit :=
  let ordered := _swapIfNeeded start end_ in
  modify (set_positions (fst ordered) (snd ordered)) >>
  _render.

Definition setOffsets (m : string) (start end_ : Z) : M t unit :=
  let startPosition := getPositionAt m start in
  let endPosition := getPositionAt m end_ in
  setPositions startPosition endPosition.

Definition show : M t unit := _render.

Definition hide : M t unit := modify (set_decorations []).

Definition isDisposed : M t bool := gets _disposed.

(** The part of [dispose] that changes the selection itself, up to and
    including [this._disposed = true]. *)
Definition markDisposed (x : t) : t :=
  mk (_id x) (_className x) false (_label x) (_onDisposed x)
     (_startPosition x) (_endPosition x) [] true.

End RemoteSelection.

(** ** The managers' own fields *)

Module RemoteCursorManager.

(** [IRemoteCursorManagerOptions] after the defaults
    [{tooltips: true, tooltipDuration: 1}] have been filled in. *)
Record Options := mkOptions {
  tooltips : bool;
  tooltipDuration : Z
}.

(** [_cursorWidgets] maps the userland id to the widget (a reference into
    the world's widgets). *)
Record t := mk {
  _options : Options;
  _nextWidgetId : nat;
  _cursorWidgets : gmap string nat
}.

(** The constructor, for an [options] object that has an [editor]. *)
Definition new_ (tooltips_ : option bool) (tooltipDuration_ : option Z) : t :=
  {| _options := {| tooltips := default true tooltips_;
                    tooltipDuration := default 1 tooltipDuration_ |};
     _nextWidgetId := 0;
     _cursorWidgets := ∅ |}.

End RemoteCursorManager.

Module RemoteSelectionManager.

Record t := mk {
  _nextClassId : nat;
  _remoteSelections : gmap string nat
}.

Definition new_ : t := {| _nextClassId := 0; _remoteSelections := ∅ |}.

End RemoteSelectionManager.

(** ** The editor and the objects that live around it *)

(** A call of one of the callbacks an integrator gave to its own
    [EditorContentManager]. *)
Inductive Call :=
| OnInsert (index : Z) (text : string)
| OnReplace (index length : Z) (text : string)
| OnDelete (index length : Z).

(** What can be observed from outside: the callback calls of the
    integrator's content managers, each with the manager it belongs to, and
    the errors that listeners threw into the editor's event emitter. *)
Inductive LogEntry :=
| Called (manager : nat) (c : Call)
| Unexpected (e : Error).

(** Objects are shared by reference; a reference is an index into the list
    of the objects of its class, in the order of their creation. *)
Record World := mkWorld {
  model : string;
  contentManagers : list EditorContentManager.t;
  cursorWidgets : list RemoteCursorWidget.t;
  selections : list RemoteSelection.t;
  cursorManager : RemoteCursorManager.t;
  selectionManager : RemoteSelectionManager.t;
  log : list LogEntry
}.

Definition set_model (m : string) (w : World) : World :=
  mkWorld m (contentManagers w) (cursorWidgets w) (selections w)
          (cursorManager w) (selectionManager w) (log w).

Definition set_contentManagers (x : list EditorContentManager.t) (w : World)
  : World :=
  mkWorld (model w) x (cursorWidgets w) (selections w)
          (cursorManager w) (selectionManager w) (log w).

Definition set_cursorWidgets (x : list RemoteCursorWidget.t) (w : World)
  : World :=
  mkWorld (model w) (contentManagers w) x (selections w)
          (cursorManager w) (selectionManager w) (log w).

Definition set_selections (x : list RemoteSelection.t) (w : World) : World :=
  mkWorld (model w) (contentManagers w) (cursorWidgets w) x
          (cursorManager w) (selectionManager w) (log w).

Definition set_cursorManager (x : RemoteCursorManager.t) (w : World) : World :=
  mkWorld (model w) (contentManagers w) (cursorWidgets w) (selections w)
          x (selectionManager w) (log w).

Definition set_selectionManager (x : RemoteSelectionManager.t) (w : World)
  : World :=
  mkWorld (model w) (contentManagers w) (cursorWidgets w) (selections w)
          (cursorManager w) x (log w).

Definition set_log (x : list LogEntry) (w : World) : World :=
  mkWorld (model w) (contentManagers w) (cursorWidgets w) (selections w)
          (cursorManager w) (selectionManager w) x.

(** An editor with the text [m] and the two marker managers, nothing else. *)
Definition newWorld (m : string) (cursors : RemoteCursorManager.t) : World :=
  mkWorld m [] [] [] cursors RemoteSelectionManager.new_ [].

(** A method of the cursor widget [ref] run on the world. *)
Definition onWidget {A} (ref : nat) (f : string -> M RemoteCursorWidget.t A)
  : M World A :=
  fun w =>
    match cursorWidgets w !! ref with
    | Some wd =>
        let '(r, wd') := f (model w) wd in
        (r, set_cursorWidgets (<[ref := wd']> (cursorWidgets w)) w)
    | None => (Throw (TypeError "dangling widget reference"), w)
    end.

(** A method of the selection [ref] run on the world. *)
Definition onSelection {A} (ref : nat) (f : string -> M RemoteSelection.t A)
  : M World A :=
  fun w =>
    match selections w !! ref with
    | Some x =>
        let '(r, x') := f (model w) x in
        (r, set_selections (<[ref := x']> (selections w)) w)
    | None => (Throw (TypeError "dangling selection reference"), w)
    end.

(** ** The editor's edits and events *)

Module Editor.

(** The callbacks of the integrator's content manager [ref]: each call is
    recorded in the log. *)
Definition callbacks (ref : nat) : EditorContentManager.Options (list LogEntry) :=
  {| EditorContentManager.onInsert := fun index text =>
       modify (fun l => l ++ [Called ref (OnInsert index text)]);
     EditorContentManager.onReplace := fun index length text =>
       modify (fun l => l ++ [Called ref (OnReplace index length text)]);
     EditorContentManager.onDelete := fun index length =>
       modify (fun l => l ++ [Called ref (OnDelete index length)]) |}.

(** Modelled from the spec: the editor's event emitter
    ([onContentChanged(handler)] of the collaborator surface).  It calls the
    live subscriptions one after the other; an error thrown by a listener is
    reported and does not reach the other listeners or the caller of the
    edit. *)
Definition notifyManager (changes : list IModelContentChange) (ref : nat)
  (cm : EditorContentManager.t) : M (list LogEntry) unit :=
  if EditorContentManager._subscribed cm then
    catch (EditorContentManager._onContentChanged (callbacks ref)
             (EditorContentManager._suppress cm) changes)
          (fun e => modify (fun l => l ++ [Unexpected e]))
  else ret tt.

Fixpoint notifyManagers (changes : list IModelContentChange) (ref : nat)
  (cms : list EditorContentManager.t) : M (list LogEntry) unit :=
  match cms with
  | [] => ret tt
  | cm :: cms' =>
      notifyManager changes ref cm >> notifyManagers changes (S ref) cms'
  end.

Definition notifyWidget (m : string) (changes : list IModelContentChange)
  (wd : RemoteCursorWidget.t) : RemoteCursorWidget.t * list LogEntry :=
  match RemoteCursorWidget.contentChanged m changes wd with
  | (Normal _, wd') => (wd', [])
  | (Throw e, wd') => (wd', [Unexpected e])
  end.

(** One content-changed event, delivered to the integrator's content
    managers and to the content manager of every cursor widget.  The
    listeners do not see each other's state, so the order in which the two
    groups are served does not matter. *)
Definition fire (changes : list IModelContentChange) (w : World) : World :=
  let log1 := snd (notifyManagers changes 0 (contentManagers w) (log w)) in
  let rs := map (notifyWidget (model w) changes) (cursorWidgets w) in
  set_log (log1 ++ concat (map snd rs)) (set_cursorWidgets (map fst rs) w).

(** Modelled from the spec: [applyEdit(range, text, originTag)] of the
    collaborator surface, for the single edit the library passes.  The buffer
    is changed first, then the change is reported as
    [(startOffset, affectedLength, insertedText)]. *)
Definition executeEdits (source : string) (range : Range) (txt : string)
  : M World unit :=
  modify (fun w =>
    let m := model w in
    let offset := getOffsetAt m (getStartPosition range) in
    let length := getOffsetAt m (getEndPosition range) - offset in
    let change := mkChange offset length txt in
    fire [change] (set_model (applyChange m change) w)).

End Editor.

(** ** EditorContentManager.ts: the public methods *)

Module EditorContentManagerMethods.

Definition remoteSourceId : string := "remote".

(** [this._suppress = b] of the content manager [ref]. *)
Definition setSuppress (ref : nat) (b : bool) : M World unit :=
  modify (fun w =>
    set_contentManagers
      (alter (EditorContentManager.set_suppress b) ref (contentManagers w)) w).

(** [new EditorContentManager({editor, onInsert, onReplace, onDelete})] by
    an integrator; the result is the reference of the new manager. *)
Definition create : M World nat :=
  fun w =>
    (Normal (List.length (contentManagers w)),
     set_contentManagers (contentManagers w ++ [EditorContentManager.new_]) w).

Definition insert (ref : nat) (index : Z) (text : string) : M World unit :=
  setSuppress ref true >>
  let* m := gets model in
  let position := getPositionAt m index in
  Editor.executeEdits remoteSourceId
    (newRange (lineNumber position) (column position)
              (lineNumber position) (column position)) text >>
  setSuppress ref false.

Definition replace (ref : nat) (index length : Z) (text : string)
  : M World unit :=
  setSuppress ref true >>
  let* m := gets model in
  let start := getPositionAt m index in
  let end_ := getPositionAt m (index + length) in
  Editor.executeEdits remoteSourceId
    (newRange (lineNumber start) (column start)
              (lineNumber end_) (column end_)) text >>
  setSuppress ref false.

Definition delete (ref : nat) (index length : Z) : M World unit :=
  setSuppress ref true >>
  let* m := gets model in
  let start := getPositionAt m index in
  let end_ := getPositionAt m (index + length) in
  Editor.executeEdits remoteSourceId
    (newRange (lineNumber start) (column start)
              (lineNumber end_) (column end_)) EmptyString >>
  setSuppress ref false.

Definition dispose (ref : nat) : M World unit :=
  modify (fun w =>
    set_contentManagers
      (alter EditorContentManager.dispose ref (contentManagers w)) w).

End EditorContentManagerMethods.

(** ** RemoteCursorManager.ts, RemoteCursor.ts and the widget's dispose *)

Module Cursors.

(** The decimal text of [n], as string concatenation with a number gives
    it. *)
Definition numberToString (n : nat) : string :=
  NilEmpty.string_of_uint (Nat.to_uint n).

Definition setRegistry (f : gmap string nat -> gmap string nat) : M World unit :=
  modify (fun w =>
    let mgr := cursorManager w in
    set_cursorManager
      (RemoteCursorManager.mk (RemoteCursorManager._options mgr)
         (RemoteCursorManager._nextWidgetId mgr)
         (f (RemoteCursorManager._cursorWidgets mgr))) w).

(** [this._nextWidgetId++] *)
Definition nextWidgetId : M World nat :=
  fun w =>
    let mgr := cursorManager w in
    (Normal (RemoteCursorManager._nextWidgetId mgr),
     set_cursorManager
       (RemoteCursorManager.mk (RemoteCursorManager._options mgr)
          (S (RemoteCursorManager._nextWidgetId mgr))
          (RemoteCursorManager._cursorWidgets mgr)) w).

(** [new RemoteCursorWidget(...)]: the reference of the new widget. *)
Definition allocWidget (wd : RemoteCursorWidget.t) : M World nat :=
  fun w =>
    (Normal (List.length (cursorWidgets w)),
     set_cursorWidgets (cursorWidgets w ++ [wd]) w).

Definition _getCursor (id : string) : M World nat :=
  let* mgr := gets cursorManager in
  match RemoteCursorManager._cursorWidgets mgr !! id with
  | None => throw (Err ("No such cursor: " +:+ id))
  | Some ref => ret ref
  end.

(** [this._onDisposed()].  Calling what is not a function is a
    [TypeError]; [onDisposed] runs a closure of a manager; a function that
    is not such a closure comes from outside the library and touches none of
    its objects. *)
Definition callOnDisposed (onDisposed : OnDisposed -> M World unit)
  (callee : Argument) : M World unit :=
  if isFunction callee then
    match callee with
    | Closure callback => onDisposed callback
    | Plain _ => ret tt
    end
  else throw (TypeError "this._onDisposed is not a function").

(** [RemoteCursorWidget.dispose] of the widget [ref]; [onDisposed] runs the
    closure of a manager. *)
Definition disposeWidget (onDisposed : OnDisposed -> M World unit) (ref : nat)
  : M World unit :=
  let* disposed := onWidget ref (fun _ => RemoteCursorWidget.isDisposed) in
  if disposed then ret tt
  else
    onWidget ref (fun _ => modify RemoteCursorWidget.markDisposed) >>
    let* callee := onWidget ref (fun _ => gets RemoteCursorWidget._onDisposed) in
    callOnDisposed onDisposed callee.

(** [removeCursor] and the [dispose] it calls can call each other through
    the widget's [_onDisposed]; every nested [dispose] disposes one more
    widget, so the number of widgets is enough fuel.  When [dispose] throws,
    the [delete] after it is not reached. *)
Fixpoint removeCursorFuel (fuel : nat) (id : string) : M World unit :=
  Validation.assertString (Str id) "id" >>
  let* remoteCursorWidget := _getCursor id in
  let* disposed := onWidget remoteCursorWidget
                     (fun _ => RemoteCursorWidget.isDisposed) in
  (if negb disposed then
     match fuel with
     | O => throw OutOfFuel
     | S fuel' =>
         disposeWidget (fun cb => removeCursorFuel fuel' (capturedId cb))
                       remoteCursorWidget
     end
   else ret tt) >>
  setRegistry (base.delete id).

Definition removeCursor (id : string) : M World unit :=
  fun w => removeCursorFuel (List.length (cursorWidgets w)) id w.

(** The optional parameter [label?: string]. *)
Definition labelValue (label : option string) : Value :=
  match label with
  | Some l => Str l
  | None => Undefined
  end.

(** [addCursor].  Its [new RemoteCursorWidget(...)] passes seven arguments:
    the editor, [widgetId], [color], [label], [this._options.tooltips],
    [tooltipDurationMs] and the closure [() => this.removeCursor(id)].  The
    constructor has ten parameters, bound by position: [className] gets the
    colour, [color] the label, [label] the tooltips flag, [tooltipEnabled]
    the duration, [tooltipDuration] the closure, and the last three,
    [onDisposed] among them, are [undefined]. *)
Definition addCursor (id color : string) (label : option string)
  : M World nat :=
  Validation.assertString (Str id) "id" >>
  Validation.assertString (Str color) "color" >>
  let* mgr := gets cursorManager in
  let options := RemoteCursorManager._options mgr in
  (if RemoteCursorManager.tooltips options &&
      negb (String.eqb (typeof (Str "label")) "string")
   then throw (Err "'label' is required when tooltips are enabled.")
   else ret tt) >>
  let* n := nextWidgetId in
  let widgetId := numberToString n in
  let tooltipDurationMs := RemoteCursorManager.tooltipDuration options * 1000 in
  let cursorWidget :=
    RemoteCursorWidget.new_
      widgetId
      (Plain (Str color))
      (Plain (labelValue label))
      (Plain (Boolean (RemoteCursorManager.tooltips options)))
      (Plain (Number tooltipDurationMs))
      (Closure (removeOnDisposed id))
      (Plain Undefined)
      (Plain Undefined)
      (Plain Undefined) in
  let* ref := allocWidget cursorWidget in
  setRegistry (<[id := ref]>) >>
  ret ref.

Definition setCursorPosition (id : string) (position : IPosition)
  : M World unit :=
  Validation.assertString (Str id) "id" >>
  let* remoteCursorWidget := _getCursor id in
  onWidget remoteCursorWidget
    (fun m => RemoteCursorWidget.setPosition m position).

Definition setCursorOffset (id : string) (offset : Z) : M World unit :=
  Validation.assertString (Str id) "id" >>
  let* remoteCursorWidget := _getCursor id in
  onWidget remoteCursorWidget
    (fun m => RemoteCursorWidget.setOffset m offset).

Definition showCursor (id : string) : M World unit :=
  Validation.assertString (Str id) "id" >>
  let* remoteCursorWidget := _getCursor id in
  onWidget remoteCursorWidget (fun _ => RemoteCursorWidget.show).

Definition hideCursor (id : string) : M World unit :=
  Validation.assertString (Str id) "id" >>
  let* remoteCursorWidget := _getCursor id in
  onWidget remoteCursorWidget (fun _ => RemoteCursorWidget.hide).

(** The methods of the [RemoteCursor] handle whose delegate is the widget
    [ref]. *)
Definition getId (ref : nat) : M World string :=
  onWidget ref (fun _ => RemoteCursorWidget.getId).

Definition getPosition (ref : nat) : M World IPosition :=
  onWidget ref (fun _ => RemoteCursor.getPosition).

Definition setPosition (ref : nat) (position : IPosition) : M World unit :=
  onWidget ref (fun m => RemoteCursorWidget.setPosition m position).

Definition setOffset (ref : nat) (offset : Z) : M World unit :=
  onWidget ref (fun m => RemoteCursorWidget.setOffset m offset).

Definition show (ref : nat) : M World unit :=
  onWidget ref (fun _ => RemoteCursorWidget.show).

Definition hide (ref : nat) : M World unit :=
  onWidget ref (fun _ => RemoteCursorWidget.hide).

Definition isDisposed (ref : nat) : M World bool :=
  onWidget ref (fun _ => RemoteCursorWidget.isDisposed).

Definition dispose (ref : nat) : M World unit :=
  fun w =>
    disposeWidget
      (fun cb => removeCursorFuel (List.length (cursorWidgets w)) (capturedId cb))
      ref w.

End Cursors.

(** ** RemoteSelectionManager.ts and the selection's dispose *)

Module Selections.

Definition setRegistry (f : gmap string nat -> gmap string nat) : M World unit :=
  modify (fun w =>
    let mgr := selectionManager w in
    set_selectionManager
      (RemoteSelectionManager.mk (RemoteSelectionManager._nextClassId mgr)
         (f (RemoteSelectionManager._remoteSelections mgr))) w).

(** [this._nextClassId++] *)
Definition nextClassId : M World nat :=
  fun w =>
    let mgr := selectionManager w in
    (Normal (RemoteSelectionManager._nextClassId mgr),
     set_selectionManager
       (RemoteSelectionManager.mk
          (S (RemoteSelectionManager._nextClassId mgr))
          (RemoteSelectionManager._remoteSelections mgr)) w).

(** [RemoteSelection._addDynamicStyleElement]: its two checks. *)
Definition _addDynamicStyleElement (className color : string) : M World unit :=
  Validation.assertString (Str className) "className" >>
  Validation.assertString (Str color) "color".

(** [new RemoteSelection(...)]: the reference of the new selection. *)
Definition allocSelection (x : RemoteSelection.t) : M World nat :=
  fun w =>
    (Normal (List.length (selections w)),
     set_selections (selections w ++ [x]) w).

Definition _getSelection (id : string) : M World nat :=
  let* mgr := gets selectionManager in
  match RemoteSelectionManager._remoteSelections mgr !! id with
  | None => throw (Err ("No such selection: " +:+ id))
  | Some ref => ret ref
  end.

(** [RemoteSelection.dispose] of the selection [ref]. *)
Definition disposeSelection (onDisposed : OnDisposed -> M World unit)
  (ref : nat) : M World unit :=
  let* disposed := onSelection ref (fun _ => RemoteSelection.isDisposed) in
  if negb disposed then
    onSelection ref (fun _ => modify RemoteSelection.markDisposed) >>
    let* callback := onSelection ref (fun _ => gets RemoteSelection._onDisposed) in
    onDisposed callback
  else ret tt.

(** [removeSelection], with fuel for the nested calls as for the cursors. *)
Fixpoint removeSelectionFuel (fuel : nat) (id : string) : M World unit :=
  let* remoteSelection := _getSelection id in
  let* disposed := onSelection remoteSelection
                     (fun _ => RemoteSelection.isDisposed) in
  if negb disposed then
    match fuel with
    | O => throw OutOfFuel
    | S fuel' =>
        disposeSelection
          (fun cb => removeSelectionFuel fuel' (capturedId cb)) remoteSelection
    end
  else ret tt.

Definition removeSelection (id : string) : M World unit :=
  fun w => removeSelectionFuel (List.length (selections w)) id w.

Definition addSelection (id color : string) (label : option string)
  : M World nat :=
  let onDisposed := removeOnDisposed id in
  let* n := nextClassId in
  let classId := Cursors.numberToString n in
  _addDynamicStyleElement ("monaco-remote-selection-" +:+ classId) color >>
  let* selection := allocSelection (RemoteSelection.new_ id classId label onDisposed) in
  setRegistry (<[id := selection]>) >>
  ret selection.

Definition setSelectionOffsets (id : string) (start end_ : Z) : M World unit :=
  let* remoteSelection := _getSelection id in
  onSelection remoteSelection
    (fun m => RemoteSelection.setOffsets m start end_).

Definition setSelectionPositions (id : string) (start end_ : IPosition)
  : M World unit :=
  let* remoteSelection := _getSelection id in
  onSelection remoteSelection
    (fun _ => RemoteSelection.setPositions start end_).

Definition showSelection (id : string) : M World unit :=
  let* remoteSelection := _getSelection id in
  onSelection remoteSelection (fun _ => RemoteSelection.show).

Definition hideSelection (id : string) : M World unit :=
  let* remoteSelection := _getSelection id in
  onSelection remoteSelection (fun _ => RemoteSelection.hide).

(** The methods of the selection [ref] itself, which [addSelection] hands
    out. *)
Definition setOffsets (ref : nat) (start end_ : Z) : M World unit :=
  onSelection ref (fun m => RemoteSelection.setOffsets m start end_).

Definition setPositions (ref : nat) (start end_ : IPosition) : M World unit :=
  onSelection ref (fun _ => RemoteSelection.setPositions start end_).

Definition show (ref : nat) : M World unit :=
  onSelection ref (fun _ => RemoteSelection.show).

Definition hide (ref : nat) : M World unit :=
  onSelection ref (fun _ => RemoteSelection.hide).

Definition isDisposed (ref : nat) : M World bool :=
  onSelection ref (fun _ => RemoteSelection.isDisposed).

Definition dispose (ref : nat) : M World unit :=
  fun w =>
    disposeSelection
      (fun cb => removeSelectionFuel (List.length (selections w)) (capturedId cb))
      ref w.

End Selections.

(** ** Notions used to state the properties *)

(** The re-anchoring rule for one stored offset [p], in the words of the
    specification: a replace at [i] that removes [len] characters and
    inserts [L]; an insert is the case [len = 0], a delete the case
    [L = 0]. *)
Definition reanchor (i len L p : Z) : Z :=
  if i <=? p then (p - Z.min (p - i) len) + L else p.

(** A cursor widget has been positioned: [_position] holds an object. *)
Definition positioned (w : RemoteCursorWidget.t) : Prop :=
  exists pos, RemoteCursorWidget._position w = RemoteCursorWidget.PosObject pos.

(** The state [_position] and [_offset] are in from the constructor until
    the first [_updatePosition]. *)
Definition unpositioned (w : RemoteCursorWidget.t) : Prop :=
  RemoteCursorWidget._position w = RemoteCursorWidget.PosUndefined /\
  RemoteCursorWidget._offset w = -1.

(** A cursor widget still listens to the editor: the subscription of its
    content manager is live and the manager does not suppress. *)
Definition listening (w : RemoteCursorWidget.t) : Prop :=
  EditorContentManager._subscribed (RemoteCursorWidget._contentManager w) = true /\
  EditorContentManager._suppress (RemoteCursorWidget._contentManager w) = false.

(** A change that lies inside the buffer [m]. *)
Definition validChange (m : string) (c : IModelContentChange) : Prop :=
  0 <= rangeOffset c /\ 0 <= rangeLength c /\
  rangeOffset c + rangeLength c <= strlen m.

(** A sequence of changes, each valid for the buffer left by the ones
    before it. *)
Fixpoint validChanges (m : string) (cs : list IModelContentChange) : Prop :=
  match cs with
  | [] => True
  | c :: cs' => validChange m c /\ validChanges (applyChange m c) cs'
  end.

(** The buffer and the widget after each change of a sequence; every change
    is applied to the buffer and then reported to the widget in an event of
    its own. *)
Fixpoint observe (m : string) (w : RemoteCursorWidget.t)
  (cs : list IModelContentChange) : list (string * RemoteCursorWidget.t) :=
  match cs with
  | [] => []
  | c :: cs' =>
      let m' := applyChange m c in
      let w' := fst (Editor.notifyWidget m' [c] w) in
      (m', w') :: observe m' w' cs'
  end.

(** The callback calls of the content manager [ref] recorded in a log. *)
Fixpoint callsOf (ref : nat) (l : list LogEntry) : list Call :=
  match l with
  | [] => []
  | Called k c :: l' => if Nat.eqb k ref then c :: callsOf ref l' else callsOf ref l'
  | Unexpected _ :: l' => callsOf ref l'
  end.

(** What can happen to a cursor widget other than [setPosition] and
    [setOffset]: [show], [hide], [dispose] (its effect on the widget), and a
    content-changed event of the editor (with the editor's model at that
    time). *)
Inductive OtherOp :=
| OpShow
| OpHide
| OpDispose
| OpContentChanged (m : string) (changes : list IModelContentChange).

Definition runOther (op : OtherOp) (w : RemoteCursorWidget.t)
  : RemoteCursorWidget.t :=
  match op with
  | OpShow => snd (RemoteCursorWidget.show w)
  | OpHide => snd (RemoteCursorWidget.hide w)
  | OpDispose =>
      if RemoteCursorWidget._disposed w then w
      else RemoteCursorWidget.markDisposed w
  | OpContentChanged m changes => fst (Editor.notifyWidget m changes w)
  end.

(** The offsets the editor reports are never negative. *)
Definition hostOp (op : OtherOp) : Prop :=
  match op with
  | OpContentChanged _ changes => Forall (fun c => 0 <= rangeOffset c) changes
  | _ => True
  end.

Definition runOthers (ops : list OtherOp) (w : RemoteCursorWidget.t)
  : RemoteCursorWidget.t :=
  fold_left (fun w op => runOther op w) ops w.

(** A text of [n] characters, for examples. *)
Fixpoint filler (n : nat) : string :=
  match n with
  | O => EmptyString
  | S n' => String "x"%char (filler n')
  end.

(** Calls that leave the selection manager's own fields alone. *)
Definition keepsSelectionManager {A} (c : M World A) : Prop :=
  forall w, selectionManager (snd (c w)) = selectionManager w.

(** The number of markers that are not disposed yet: the measure that the
    fuel of the remove functions has to cover. *)
Fixpoint liveWidgets (ws : list RemoteCursorWidget.t) : nat :=
  match ws with
  | [] => 0
  | wd :: ws' =>
      ((if RemoteCursorWidget._disposed wd then 0 else 1) + liveWidgets ws')%nat
  end.

Fixpoint liveSelections (xs : list RemoteSelection.t) : nat :=
  match xs with
  | [] => 0
  | x :: xs' =>
      ((if RemoteSelection._disposed x then 0 else 1) + liveSelections xs')%nat
  end.

(** A call that does not end for want of fuel. *)
Definition fuelled {A} (c : M World A) (w : World) : Prop :=
  fst (c w) <> Throw OutOfFuel.

(** *** Example objects *)

(** A buffer of twenty characters on one line. *)
Definition twentyChars : string := filler 20.

(** A cursor widget, as [addCursor("jDoe", "blue", "John Doe")] builds the
    first one of a manager with the default options. *)
Definition freshCursor : RemoteCursorWidget.t :=
  RemoteCursorWidget.new_ "0"
    (Plain (Str "blue")) (Plain (Str "John Doe")) (Plain (Boolean true))
    (Plain (Number 1000)) (Closure (removeOnDisposed "jDoe"))
    (Plain Undefined) (Plain Undefined) (Plain Undefined).

(** [freshCursor] placed at an offset of the buffer [m]. *)
Definition cursorAt (m : string) (offset : Z) : RemoteCursorWidget.t :=
  snd (RemoteCursorWidget.setOffset m offset freshCursor).

(** A buffer of sixty characters, and a selection as [addSelection] builds
    the first one of a manager. *)
Definition sixtyChars : string := filler 60.

Definition freshSelection : RemoteSelection.t :=
  RemoteSelection.new_ "jDoe" "0" None (removeOnDisposed "jDoe").

(** An editor holding [twentyChars] with a cursor manager built from
    [{editor, tooltips: true, tooltipDuration: 2}], as in the README. *)
Definition exampleWorld : World :=
  newWorld twentyChars (RemoteCursorManager.new_ (Some true) (Some 2)).

(** [addSelection("jDoe", "blue")] followed by [removeSelection("jDoe")]. *)
Definition afterRemoveSelection : World :=
  snd ((Selections.addSelection "jDoe" "blue" None >>
        Selections.removeSelection "jDoe") exampleWorld).

(** [addCursor("jDoe", "blue", "John Doe")] followed by
    [removeCursor("jDoe")]: the world the two calls leave, whether the second
    returns or throws. *)
Definition afterRemoveCursor : World :=
  snd ((Cursors.addCursor "jDoe" "blue" (Some "John Doe") >>
        Cursors.removeCursor "jDoe") exampleWorld).

(** A cursor and a selection, both positioned and then disposed through
    their handles, inside [try { ... } catch (e) { }]. *)
Definition disposedMarkers : World :=
  snd ((let* cursor := Cursors.addCursor "jDoe" "blue" (Some "John Doe") in
        let* selection := Selections.addSelection "jDoe" "blue" None in
        Cursors.setOffset cursor 4 >>
        Selections.setOffsets selection 5 9 >>
        catch (Cursors.dispose cursor) (fun _ => ret tt) >>
        catch (Selections.dispose selection) (fun _ => ret tt)) exampleWorld).

(** A call of one of the three editing methods of a content manager. *)
Inductive EditCall :=
| CallInsert (index : Z) (text : string)
| CallReplace (index length : Z) (text : string)
| CallDelete (index length : Z).

Definition runEdit (ref : nat) (c : EditCall) : M World unit :=
  match c with
  | CallInsert index text => EditorContentManagerMethods.insert ref index text
  | CallReplace index length text =>
      EditorContentManagerMethods.replace ref index length text
  | CallDelete index length => EditorContentManagerMethods.delete ref index length
  end.

(** The index, the removed length and the inserted text of an edit. *)
Definition editIndex (c : EditCall) : Z :=
  match c with
  | CallInsert index _ | CallReplace index _ _ | CallDelete index _ => index
  end.

Definition editLength (c : EditCall) : Z :=
  match c with
  | CallInsert _ _ => 0
  | CallReplace _ length _ | CallDelete _ length => length
  end.

Definition editText (c : EditCall) : string :=
  match c with
  | CallInsert _ text | CallReplace _ _ text => text
  | CallDelete _ _ => EmptyString
  end.

(** An integrator's content manager and two cursors, one placed at offset
    10, the other at offset 3, on [exampleWorld]. *)
Definition collaboration : World :=
  snd ((let* bridge := EditorContentManagerMethods.create in
        let* other := EditorContentManagerMethods.create in
        let* c1 := Cursors.addCursor "jDoe" "blue" (Some "John Doe") in
        let* c2 := Cursors.addCursor "static" "orange" (Some "Static User") in
        Cursors.setOffset c1 10 >>
        Cursors.setOffset c2 3) exampleWorld).

(** ** RemoteCursorWidget.ts: the helper [classNames] *)

(** [names.join(' ')] *)
Fixpoint join (sep : string) (names : list string) : string :=
  match names with
  | [] => EmptyString
  | [name] => name
  | name :: rest => name +:+ sep +:+ join sep rest
  end.

(** [className != null && className.length > 0]; [None] stands for
    [undefined] and [null]. *)
Definition keptClassName (className : option string) : bool :=
  match className with
  | Some name => (0 <? String.length name)%nat
  | None => false
  end.

(** The names that pass the filter. *)
Fixpoint keptClassNames (names : list (option string)) : list string :=
  match names with
  | [] => []
  | className :: rest =>
      if keptClassName className
      then match className with
           | Some name => name :: keptClassNames rest
           | None => keptClassNames rest
           end
      else keptClassNames rest
  end.

Definition classNames (names : list (option string)) : string :=
  join " " (keptClassNames names).

(** Two class lists put side by side. *)
Definition besides (a b : string) : string :=
  match a, b with
  | EmptyString, _ => b
  | _, EmptyString => a
  | _, _ => a +:+ " " +:+ b
  end.

(** ** More notions used to state properties *)

(** A change that is an insert, a replace or a delete. *)
Definition properChange (c : IModelContentChange) : Prop :=
  0 <= rangeLength c /\ (0 < strlen (text c) \/ 0 < rangeLength c).

(** The callback call that a proper change leads to. *)
Definition callOf (c : IModelContentChange) : Call :=
  if rangeLength c =? 0 then OnInsert (rangeOffset c) (text c)
  else if strlen (text c) =? 0 then OnDelete (rangeOffset c) (rangeLength c)
  else OnReplace (rangeOffset c) (rangeLength c) (text c).

(** The change an edit call asks for. *)
Definition editChange (c : EditCall) : IModelContentChange :=
  mkChange (editIndex c) (editLength c) (editText c).

(** The stored offset of a cursor widget is the offset of its stored
    position in the buffer [m]. *)
Definition consistent (m : string) (w : RemoteCursorWidget.t) : Prop :=
  forall p,
    RemoteCursorWidget._position w = RemoteCursorWidget.PosObject p ->
    RemoteCursorWidget._offset w = getOffsetAt m (RemoteCursorWidget.position p).

(** A widget whose [_onDisposed] is not a function, as it is in every
    widget that [addCursor] builds. *)
Definition uncallable (wd : RemoteCursorWidget.t) : Prop :=
  isFunction (RemoteCursorWidget._onDisposed wd) = false.

(** The error [dispose] ends in on such a widget. *)
Definition notAFunction : Error :=
  TypeError "this._onDisposed is not a function".

(** The world in which the widget [ref] has gone through [dispose] up to
    [this._disposed = true]. *)
Definition markedDisposed (ref : nat) (w : World) : World :=
  set_cursorWidgets
    (alter RemoteCursorWidget.markDisposed ref (cursorWidgets w)) w.


(** [addCursor] for each of a list of [(id, color, label)], in order. *)
Fixpoint addCursors (specs : list (string * string * option string))
  : M World unit :=
  match specs with
  | [] => ret tt
  | (id, color, label) :: rest =>
      let* _ := Cursors.addCursor id color label in addCursors rest
  end.

(** The id of the [n]-th widget of a manager. *)
Definition widgetIdOf (n : nat) : string :=
  "monaco-remote-cursor-" +:+ Cursors.numberToString n.

(** *** More example objects *)

(** Two cursors added under the same id. *)
Definition twiceAdded : World :=
  snd ((let* first := Cursors.addCursor "jDoe" "blue" (Some "John Doe") in
        Cursors.addCursor "jDoe" "red" (Some "Jane Doe")) exampleWorld).

(** One cursor registered as ["jDoe"]. *)
Definition oneCursor : World :=
  snd (Cursors.addCursor "jDoe" "blue" (Some "John Doe") exampleWorld).

(** One selection registered as ["jDoe"], placed on offsets 3 to 8. *)
Definition oneSelection : World :=
  snd ((Selections.addSelection "jDoe" "blue" None >>
        Selections.setSelectionOffsets "jDoe" 8 3) exampleWorld).




(** An integrator's content manager, a selection placed on offsets 5 to 9
    and a cursor placed at offset 10 and then disposed, on [exampleWorld]. *)
Definition bridgeAndMarkers : World :=
  snd ((let* bridge := EditorContentManagerMethods.create in
        let* selection := Selections.addSelection "jDoe" "blue" None in
        let* cursor := Cursors.addCursor "jDoe" "blue" (Some "John Doe") in
        Selections.setOffsets selection 5 9 >>
        Cursors.setOffset cursor 10 >>
        catch (Cursors.dispose cursor) (fun _ => ret tt)) exampleWorld).

(** * Properties *)

(** ** The text model *)


Lemma length_append (a b : string) :
  String.length (a +:+ b) = (String.length a + String.length b)%nat.
Proof. induction a as [|c a IH]; simpl; [reflexivity | now rewrite IH]. Qed.

Lemma length_take (n : nat) (s : string) :
  String.length (take n s) = Nat.min n (String.length s).
Proof.
  revert s; induction n as [|n IH]; intros [|c s]; simpl; try reflexivity.
  now rewrite IH.
Qed.

Lemma length_drop (n : nat) (s : string) :
  String.length (drop n s) = (String.length s - n)%nat.
Proof.
  revert s; induction n as [|n IH]; intros [|c s]; simpl; try reflexivity.
  apply IH.
Qed.

Lemma strlen_nonneg (s : string) : 0 <= strlen s.
Proof. unfold strlen; lia. Qed.

(** The length of the buffer after a change that lies inside it. *)
Lemma strlen_splice (m : string) (i len : Z) (txt : string) :
  0 <= i -> 0 <= len -> i + len <= strlen m ->
  strlen (splice m i len txt) = strlen m - len + strlen txt.
Proof.
  unfold splice, strlen; intros Hi Hl Hb.
  rewrite !length_append, length_take, length_drop. lia.
Qed.

(** [positionFrom] never moves backwards. *)
Lemma positionFrom_ge (s : string) : forall n line col,
  let p := positionFrom s n line col in
  line < lineNumber p \/ (line = lineNumber p /\ col <= column p).
Proof.
  induction s as [|c s IH]; intros [|n] line col; simpl; try lia.
  destruct (isLineFeed c).
  - specialize (IH n (line + 1) 1); simpl in IH; lia.
  - specialize (IH n line (col + 1)); simpl in IH; lia.
Qed.

Lemma offsetFrom_here (s : string) (line col : Z) :
  offsetFrom s line col line col = 0.
Proof.
  destruct s; simpl; [reflexivity|].
  now rewrite Z.eqb_refl, Z.leb_refl, orb_true_r.
Qed.

(** Translating an offset to a position and back gives the offset,
    clamped to the end of the buffer. *)
Lemma offsetFrom_positionFrom (s : string) : forall n line col,
  offsetFrom s line col
    (lineNumber (positionFrom s n line col))
    (column (positionFrom s n line col))
  = Z.of_nat (Nat.min n (String.length s)).
Proof.
  induction s as [|c s IH]; intros n line col.
  - destruct n; reflexivity.
  - destruct n as [|n].
    + cbn [positionFrom lineNumber column]. apply offsetFrom_here.
    + cbn [positionFrom offsetFrom String.length].
      destruct (isLineFeed c) eqn:Hc.
      * pose proof (positionFrom_ge s n (line + 1) 1) as Hge.
        cbv zeta in Hge.
        specialize (IH n (line + 1) 1).
        set (p := positionFrom s n (line + 1) 1) in *.
        replace ((lineNumber p <? line) ||
                 ((lineNumber p =? line) && (column p <=? col))) with false
          by (symmetry; apply orb_false_iff; split;
              [apply Z.ltb_ge; lia
              |apply andb_false_iff; left; apply Z.eqb_neq; lia]).
        replace (lineNumber p =? line) with false
          by (symmetry; apply Z.eqb_neq; lia).
        rewrite IH. lia.
      * pose proof (positionFrom_ge s n line (col + 1)) as Hge.
        cbv zeta in Hge.
        specialize (IH n line (col + 1)).
        set (p := positionFrom s n line (col + 1)) in *.
        replace ((lineNumber p <? line) ||
                 ((lineNumber p =? line) && (column p <=? col))) with false
          by (symmetry; apply orb_false_iff; split;
              [apply Z.ltb_ge; lia
              |apply andb_false_iff;
               destruct (Z.eq_dec (lineNumber p) line);
               [right; apply Z.leb_gt; lia | left; apply Z.eqb_neq; lia]]).
        rewrite IH. lia.
Qed.

Lemma getOffsetAt_getPositionAt (m : string) (o : Z) :
  getOffsetAt m (getPositionAt m o) = Z.min (Z.max 0 o) (strlen m).
Proof.
  unfold getOffsetAt, getPositionAt, strlen.
  rewrite offsetFrom_positionFrom. lia.
Qed.

(** The round trip of the spec: a valid offset is its own translation. *)
Lemma offset_roundtrip (m : string) (o : Z) :
  0 <= o <= strlen m -> getOffsetAt m (getPositionAt m o) = o.
Proof. intros H. rewrite getOffsetAt_getPositionAt. lia. Qed.

Lemma offsetFrom_bounds (s : string) : forall line col tl tc,
  0 <= offsetFrom s line col tl tc <= strlen s.
Proof.
  unfold strlen.
  induction s as [|c s IH]; intros line col tl tc; simpl String.length;
    cbn [offsetFrom]; [lia|].
  destruct ((tl <? line) || ((tl =? line) && (tc <=? col))); [lia|].
  destruct (isLineFeed c).
  - destruct (tl =? line); [lia|].
    specialize (IH (line + 1) 1 tl tc). lia.
  - specialize (IH line (col + 1) tl tc). lia.
Qed.

(** Every position translates to an offset inside the buffer. *)
Lemma getOffsetAt_bounds (m : string) (p : IPosition) :
  0 <= getOffsetAt m p <= strlen m.
Proof. apply offsetFrom_bounds. Qed.

(** [positionFrom] is monotone in the number of characters walked. *)
Lemma positionFrom_mono (s : string) : forall n k line col,
  pos_le (positionFrom s n line col) (positionFrom s (n + k) line col).
Proof.
  unfold pos_le.
  induction s as [|c s IH]; intros n k line col.
  - destruct n, k; simpl; lia.
  - destruct n as [|n].
    + pose proof (positionFrom_ge (String c s) k line col) as H.
      cbv zeta in H. cbn [positionFrom lineNumber column Nat.add] in *. lia.
    + cbn [Nat.add positionFrom].
      destruct (isLineFeed c); apply IH.
Qed.

Lemma getPositionAt_mono (m : string) (a b : Z) :
  a <= b -> pos_le (getPositionAt m a) (getPositionAt m b).
Proof.
  intros H. unfold getPositionAt.
  replace (Z.to_nat b) with (Z.to_nat a + (Z.to_nat b - Z.to_nat a))%nat
    by lia.
  apply positionFrom_mono.
Qed.


Lemma strlen_append (a b : string) : strlen (a +:+ b) = strlen a + strlen b.
Proof. unfold strlen. rewrite length_append. lia. Qed.

(** The length of the buffer after an insert at or before its end. *)
Lemma strlen_splice_insert (m : string) (i : Z) (txt : string) :
  i <= strlen m -> strlen (splice m i 0 txt) = strlen m + strlen txt.
Proof.
  unfold splice, strlen; intros Hi.
  rewrite !length_append, length_take, length_drop. lia.
Qed.

(** ** The three handlers of the cursor widget *)

Section Handlers.
Import RemoteCursorWidget.

Variable m : string.
Variable w : RemoteCursorWidget.t.
Hypothesis Hpos : isNull (_position w) = false.


Lemma onReplace_offset (i len : Z) (txt : string) :
  _offset (snd (_onReplace m i len txt w)) =
  if i <=? _offset w
  then Z.min (Z.max 0 (_offset w - Z.min (_offset w - i) len + strlen txt))
             (strlen m)
  else _offset w.
Proof.
  unfold _onReplace, bind, get. rewrite Hpos.
  destruct (i <=? _offset w); [|reflexivity].
  apply getOffsetAt_getPositionAt.
Qed.


End Handlers.

Lemma positioned_not_null (w : RemoteCursorWidget.t) :
  positioned w -> RemoteCursorWidget.isNull (RemoteCursorWidget._position w) = false.
Proof. intros [pos H]. now rewrite H. Qed.

(** A delete is a replace by the empty text. *)
Lemma onDelete_as_replace (m : string) (i len : Z) (w : RemoteCursorWidget.t) :
  RemoteCursorWidget._onDelete m i len w =
  RemoteCursorWidget._onReplace m i len EmptyString w.
Proof.
  unfold RemoteCursorWidget._onDelete, RemoteCursorWidget._onReplace, bind, get.
  destruct (RemoteCursorWidget.isNull _); [reflexivity|].
  destruct (i <=? _); [|reflexivity].
  change (strlen EmptyString) with 0. now rewrite Z.add_0_r.
Qed.



Lemma cursorAt_positioned (m : string) (o : Z) : positioned (cursorAt m o).
Proof. eexists. reflexivity. Qed.





(** ** The change classifier *)

(** [_processChange] as a chain of tests on the two lengths. *)
Lemma processChange_tests {S : Type} (o : EditorContentManager.Options S)
  (offset R : Z) (txt : string) (s : S) :
  EditorContentManager._processChange o (mkChange offset R txt) s =
  if (0 <? strlen txt) && (R =? 0) then
    EditorContentManager.onInsert o offset txt s
  else if (0 <? strlen txt) && (0 <? R) then
    EditorContentManager.onReplace o offset R txt s
  else if (strlen txt =? 0) && (0 <? R) then
    EditorContentManager.onDelete o offset R s
  else (Throw (Err "Unexpected change: "), s).
Proof.
  unfold EditorContentManager._processChange, Validation.assertDefined, bind, ret.
  destruct ((0 <? strlen txt) && (R =? 0)); [reflexivity|].
  destruct ((0 <? strlen txt) && (0 <? R)); [reflexivity|].
  destruct ((strlen txt =? 0) && (0 <? R)); reflexivity.
Qed.

(** C5. [_processChange] on a change with inserted text of length [T] and
    affected-range length [R] makes exactly one move: it calls [onInsert]
    when [T > 0] and [R = 0], [onReplace] when [T > 0] and [R > 0],
    [onDelete] when [T = 0] and [R > 0], and throws its own error, leaving
    the state as it was, when [T = 0] and [R = 0]. *)
Theorem C5_classifier {S : Type} (o : EditorContentManager.Options S)
  (offset R : Z) (txt : string) (s : S) :
  let T := strlen txt in
  let run := EditorContentManager._processChange o (mkChange offset R txt) s in
  (T > 0 /\ R = 0 -> run = EditorContentManager.onInsert o offset txt s) /\
  (T > 0 /\ R > 0 -> run = EditorContentManager.onReplace o offset R txt s) /\
  (T = 0 /\ R > 0 -> run = EditorContentManager.onDelete o offset R s) /\
  (T = 0 /\ R = 0 -> run = (Throw (Err "Unexpected change: "), s)).
Proof.
  intros T run. subst run. rewrite processChange_tests. fold T.
  repeat split; intros [HT HR].
  - replace (0 <? T) with true by (symmetry; apply Z.ltb_lt; lia).
    replace (R =? 0) with true by (symmetry; apply Z.eqb_eq; lia).
    reflexivity.
  - replace (0 <? T) with true by (symmetry; apply Z.ltb_lt; lia).
    replace (R =? 0) with false by (symmetry; apply Z.eqb_neq; lia).
    replace (0 <? R) with true by (symmetry; apply Z.ltb_lt; lia).
    reflexivity.
  - replace (0 <? T) with false by (symmetry; apply Z.ltb_ge; lia).
    replace (T =? 0) with true by (symmetry; apply Z.eqb_eq; lia).
    replace (0 <? R) with true by (symmetry; apply Z.ltb_lt; lia).
    reflexivity.
  - replace (0 <? T) with false by (symmetry; apply Z.ltb_ge; lia).
    replace (0 <? R) with false by (symmetry; apply Z.ltb_ge; lia).
    cbn [andb]. rewrite andb_false_r. reflexivity.
Qed.

(** The four cases of C5 on the callbacks of an integrator's content
    manager: one call is recorded in each of the first three, none and an
    error in the last. *)
Lemma C5_classifier_cases :
  EditorContentManager._processChange (Editor.callbacks 0) (mkChange 4 0 "ab") []
    = (Normal tt, [Called 0 (OnInsert 4 "ab")]) /\
  EditorContentManager._processChange (Editor.callbacks 0) (mkChange 4 3 "ab") []
    = (Normal tt, [Called 0 (OnReplace 4 3 "ab")]) /\
  EditorContentManager._processChange (Editor.callbacks 0)
    (mkChange 4 3 EmptyString) []
    = (Normal tt, [Called 0 (OnDelete 4 3)]) /\
  EditorContentManager._processChange (Editor.callbacks 0)
    (mkChange 4 0 EmptyString) []
    = (Throw (Err "Unexpected change: "), []).
Proof.
  pose proof (C5_classifier (Editor.callbacks 0) 4 0 "ab" []) as (H1 & _).
  pose proof (C5_classifier (Editor.callbacks 0) 4 3 "ab" []) as (_ & H2 & _).
  pose proof (C5_classifier (Editor.callbacks 0) 4 3 EmptyString [])
    as (_ & _ & H3 & _).
  pose proof (C5_classifier (Editor.callbacks 0) 4 0 EmptyString [])
    as (_ & _ & _ & H4).
  split; [|split; [|split]].
  - rewrite H1; [reflexivity | split; reflexivity].
  - rewrite H2; [reflexivity | split; reflexivity].
  - rewrite H3; [reflexivity | split; reflexivity].
  - rewrite H4; [reflexivity | split; reflexivity].
Defined.

(** ** The ordering of a selection *)

Lemma pos_leb_le (a b : IPosition) : pos_leb a b = true <-> pos_le a b.
Proof.
  unfold pos_leb, pos_le.
  rewrite orb_true_iff, andb_true_iff, Z.ltb_lt, Z.eqb_eq, Z.leb_le. tauto.
Qed.

Lemma pos_le_total (a b : IPosition) : pos_le a b \/ pos_le b a.
Proof. unfold pos_le. lia. Qed.

Lemma pos_le_antisym (a b : IPosition) : pos_le a b -> pos_le b a -> a = b.
Proof.
  destruct a as [la ca], b as [lb cb]; unfold pos_le; simpl; intros H1 H2.
  assert (la = lb) by lia. assert (ca = cb) by lia. now subst.
Qed.

Lemma swapIfNeeded_spec (a b : IPosition) :
  RemoteSelection._swapIfNeeded a b = if pos_leb a b then (a, b) else (b, a).
Proof. reflexivity. Qed.

(** What [setPositions] stores. *)
Lemma setPositions_stored (x : RemoteSelection.t) (a b : IPosition) :
  let x' := snd (RemoteSelection.setPositions a b x) in
  RemoteSelection._startPosition x' = Some (fst (RemoteSelection._swapIfNeeded a b)) /\
  RemoteSelection._endPosition x' = Some (snd (RemoteSelection._swapIfNeeded a b)) /\
  fst (RemoteSelection.setPositions a b x) = Normal tt.
Proof. repeat split. Qed.

(** C6. After [setPositions start end_] the stored pair is in buffer order:
    a reversed pair is swapped, any other pair is stored as given.  The same
    holds through [setOffsets], which stores the positions of the smaller
    and of the larger offset; offsets 50 and 40, in a buffer that has them,
    are stored as 40 and 50. *)
Theorem C6_selection_ordered (x : RemoteSelection.t) (start end_ : IPosition)
  (m : string) (a b : Z) :
  (exists s e,
     let x' := snd (RemoteSelection.setPositions start end_ x) in
     RemoteSelection._startPosition x' = Some s /\
     RemoteSelection._endPosition x' = Some e /\
     pos_le s e /\
     (pos_le start end_ -> s = start /\ e = end_) /\
     (~ pos_le start end_ -> s = end_ /\ e = start)) /\
  (let x' := snd (RemoteSelection.setOffsets m a b x) in
   RemoteSelection._startPosition x' = Some (getPositionAt m (Z.min a b)) /\
   RemoteSelection._endPosition x' = Some (getPositionAt m (Z.max a b)) /\
   pos_le (getPositionAt m (Z.min a b)) (getPositionAt m (Z.max a b))) /\
  (50 <= strlen m ->
   let x' := snd (RemoteSelection.setOffsets m 50 40 x) in
   (getOffsetAt m <$> RemoteSelection._startPosition x') = Some 40 /\
   (getOffsetAt m <$> RemoteSelection._endPosition x') = Some 50).
Proof.
  assert (Hoff : forall u v,
    let x' := snd (RemoteSelection.setOffsets m u v x) in
    RemoteSelection._startPosition x' = Some (getPositionAt m (Z.min u v)) /\
    RemoteSelection._endPosition x' = Some (getPositionAt m (Z.max u v))).
  { intros u v x'. subst x'. unfold RemoteSelection.setOffsets.
    destruct (setPositions_stored x (getPositionAt m u) (getPositionAt m v))
      as (Hs & He & _).
    cbv zeta in Hs, He. rewrite Hs, He, swapIfNeeded_spec.
    destruct (pos_leb (getPositionAt m u) (getPositionAt m v)) eqn:Hle;
      cbn [fst snd].
    - apply pos_leb_le in Hle.
      destruct (Z.le_ge_cases u v) as [Huv|Hvu].
      + rewrite Z.min_l, Z.max_r by lia. split; reflexivity.
      + rewrite Z.min_r, Z.max_l by lia.
        rewrite (pos_le_antisym _ _ Hle (getPositionAt_mono m v u Hvu)).
        split; reflexivity.
    - destruct (Z.le_ge_cases u v) as [Huv|Hvu].
      + apply (getPositionAt_mono m) in Huv. apply pos_leb_le in Huv.
        congruence.
      + rewrite Z.min_r, Z.max_l by lia. split; reflexivity. }
  split; [|split].
  - destruct (setPositions_stored x start end_) as (Hs & He & _).
    cbv zeta in Hs, He. rewrite swapIfNeeded_spec in Hs, He.
    destruct (pos_leb start end_) eqn:Hle; cbn [fst snd] in Hs, He.
    + apply pos_leb_le in Hle.
      exists start, end_. cbv zeta. repeat split; tauto.
    + assert (Hn : ~ pos_le start end_)
        by (intros H; apply pos_leb_le in H; congruence).
      exists end_, start. cbv zeta. repeat split; try tauto.
      destruct (pos_le_total start end_); tauto.
  - cbv zeta. destruct (Hoff a b) as [Hs He]. repeat split; try assumption.
    apply getPositionAt_mono. lia.
  - intros Hlen. cbv zeta. destruct (Hoff 50 40) as [Hs He].
    cbv zeta in Hs, He. rewrite Hs, He.
    change (Z.min 50 40) with 40. change (Z.max 50 40) with 50.
    cbn [fmap option_fmap option_map].
    rewrite !offset_roundtrip by lia. split; reflexivity.
Qed.

Lemma C6_offsets_50_40 :
  let x' := snd (RemoteSelection.setOffsets sixtyChars 50 40 freshSelection) in
  (getOffsetAt sixtyChars <$> RemoteSelection._startPosition x') = Some 40 /\
  (getOffsetAt sixtyChars <$> RemoteSelection._endPosition x') = Some 50.
Proof.
  apply (C6_selection_ordered freshSelection (mkPosition 1 1) (mkPosition 1 1)
           sixtyChars 0 0).
  vm_compute. discriminate.
Defined.

(** ** A cursor widget under a stream of changes *)

Lemma onInsert_as_replace (m : string) (i : Z) (txt : string)
  (w : RemoteCursorWidget.t) :
  RemoteCursorWidget._onInsert m i txt w =
  RemoteCursorWidget._onReplace m i 0 txt w.
Proof.
  unfold RemoteCursorWidget._onInsert, RemoteCursorWidget._onReplace, bind, get.
  destruct (RemoteCursorWidget.isNull _); [reflexivity|].
  destruct (Z.leb_spec i (RemoteCursorWidget._offset w)); [|reflexivity].
  rewrite Z.min_r by lia. now rewrite Z.sub_0_r.
Qed.

Lemma onReplace_positioned (m : string) (i len : Z) (txt : string)
  (w : RemoteCursorWidget.t) :
  positioned w ->
  positioned (snd (RemoteCursorWidget._onReplace m i len txt w)).
Proof.
  intros Hp.
  unfold RemoteCursorWidget._onReplace, bind, get.
  destruct (RemoteCursorWidget.isNull _); [exact Hp|].
  destruct (i <=? _); [|exact Hp].
  eexists; reflexivity.
Qed.

Lemma onReplace_contentManager (m : string) (i len : Z) (txt : string)
  (w : RemoteCursorWidget.t) :
  RemoteCursorWidget._contentManager
    (snd (RemoteCursorWidget._onReplace m i len txt w)) =
  RemoteCursorWidget._contentManager w.
Proof.
  unfold RemoteCursorWidget._onReplace, bind, get.
  destruct (RemoteCursorWidget.isNull _); [reflexivity|].
  destruct (i <=? _); reflexivity.
Qed.

Lemma notifyWidget_fst (m : string) (cs : list IModelContentChange)
  (w : RemoteCursorWidget.t) :
  fst (Editor.notifyWidget m cs w) =
  snd (RemoteCursorWidget.contentChanged m cs w).
Proof.
  unfold Editor.notifyWidget.
  destruct (RemoteCursorWidget.contentChanged m cs w) as [[u|e] w'];
    reflexivity.
Qed.

(** What a listening widget does with an event of one change: nothing when
    the change is empty (the classifier throws), the replace handler
    otherwise. *)
Lemma contentChanged_single (m : string) (i len : Z) (txt : string)
  (w : RemoteCursorWidget.t) :
  listening w -> 0 <= len ->
  snd (RemoteCursorWidget.contentChanged m [mkChange i len txt] w) =
  if (strlen txt =? 0) && (len =? 0) then w
  else snd (RemoteCursorWidget._onReplace m i len txt w).
Proof.
  intros [Hsub Hsup] Hlen.
  unfold RemoteCursorWidget.contentChanged, bind at 1, get.
  rewrite Hsub, Hsup.
  unfold EditorContentManager._onContentChanged; cbn [negb forEach].
  unfold bind at 1.
  rewrite processChange_tests.
  pose proof (strlen_nonneg txt) as HT.
  destruct (Z.eqb_spec (strlen txt) 0) as [HT0|HT0];
    destruct (Z.eqb_spec len 0) as [HL0|HL0]; cbn [andb].
  - replace (0 <? strlen txt) with false by (symmetry; apply Z.ltb_ge; lia).
    replace (0 <? len) with false by (symmetry; apply Z.ltb_ge; lia).
    reflexivity.
  - replace (0 <? strlen txt) with false by (symmetry; apply Z.ltb_ge; lia).
    replace (0 <? len) with true by (symmetry; apply Z.ltb_lt; lia).
    cbn [andb EditorContentManager.onDelete
         RemoteCursorWidget.contentManagerOptions].
    rewrite onDelete_as_replace.
    assert (txt = EmptyString) as ->
      by (destruct txt; [reflexivity | unfold strlen in HT0; simpl in HT0; lia]).
    destruct (RemoteCursorWidget._onReplace m i len EmptyString w) as [[u|e] w'];
      reflexivity.
  - replace (0 <? strlen txt) with true by (symmetry; apply Z.ltb_lt; lia).
    cbn [andb EditorContentManager.onInsert
         RemoteCursorWidget.contentManagerOptions].
    rewrite onInsert_as_replace. subst len.
    destruct (RemoteCursorWidget._onReplace m i 0 txt w) as [[u|e] w'];
      reflexivity.
  - replace (0 <? strlen txt) with true by (symmetry; apply Z.ltb_lt; lia).
    replace (0 <? len) with true by (symmetry; apply Z.ltb_lt; lia).
    cbn [andb EditorContentManager.onReplace
         RemoteCursorWidget.contentManagerOptions].
    destruct (RemoteCursorWidget._onReplace m i len txt w) as [[u|e] w'];
      reflexivity.
Qed.

(** One valid change, reported to a positioned, listening widget whose
    offset lies in the buffer: the widget stays positioned and listening,
    its offset is the one the re-anchoring rule gives, and that offset lies
    in the new buffer. *)
Lemma notifyWidget_step (m : string) (c : IModelContentChange)
  (w : RemoteCursorWidget.t) :
  positioned w -> listening w ->
  0 <= RemoteCursorWidget._offset w <= strlen m ->
  validChange m c ->
  let m' := applyChange m c in
  let w' := fst (Editor.notifyWidget m' [c] w) in
  positioned w' /\ listening w' /\
  RemoteCursorWidget._offset w' =
    reanchor (rangeOffset c) (rangeLength c) (strlen (text c))
             (RemoteCursorWidget._offset w) /\
  0 <= RemoteCursorWidget._offset w' <= strlen m'.
Proof.
  intros Hp Hl Hb (Hi & Hlen & Hin) m' w'. subst w'.
  destruct c as [i len txt]; cbn [rangeOffset rangeLength text] in *.
  rewrite notifyWidget_fst, contentChanged_single by assumption.
  assert (Hm' : strlen m' = strlen m - len + strlen txt)
    by (apply strlen_splice; assumption).
  pose proof (strlen_nonneg txt) as HT.
  unfold reanchor.
  destruct (Z.eqb_spec (strlen txt) 0) as [HT0|HT0];
    destruct (Z.eqb_spec len 0) as [HL0|HL0]; cbn [andb].
  1: { split; [exact Hp|]. split; [exact Hl|].
       destruct (Z.leb_spec i (RemoteCursorWidget._offset w)); lia. }
  all: split; [apply onReplace_positioned; assumption|].
  all: split; [unfold listening; rewrite onReplace_contentManager; exact Hl|].
  all: rewrite (onReplace_offset m' w (positioned_not_null w Hp)), Hm'.
  all: destruct (Z.leb_spec i (RemoteCursorWidget._offset w)); lia.
Qed.

(** C4, amended.  A cursor widget that is positioned at an offset of the
    buffer and still listens, and is then told of every change of a
    sequence of changes that each lie inside the buffer of their time,
    holds after each change an offset [p'] with
    [0 <= p' <= currentLength()] of the changed buffer. *)
Theorem C4_offset_stays_in_buffer (cs : list IModelContentChange) :
  forall (m : string) (w : RemoteCursorWidget.t),
  positioned w -> listening w ->
  0 <= RemoteCursorWidget._offset w <= strlen m ->
  validChanges m cs ->
  Forall (fun mw => 0 <= RemoteCursorWidget._offset (snd mw)
                    <= getValueLength (fst mw))
         (observe m w cs).
Proof.
  induction cs as [|c cs IH]; intros m w Hp Hl Hb Hv; cbn [observe].
  - constructor.
  - destruct Hv as [Hc Hv].
    destruct (notifyWidget_step m c w Hp Hl Hb Hc) as (Hp' & Hl' & _ & Hb').
    cbv zeta in Hp', Hl', Hb'.
    constructor.
    + exact Hb'.
    + apply IH; assumption.
Qed.

Lemma C4_three_changes :
  Forall (fun mw => 0 <= RemoteCursorWidget._offset (snd mw)
                    <= getValueLength (fst mw))
         (observe twentyChars (cursorAt twentyChars 12)
            [mkChange 5 0 "abc"; mkChange 10 13 EmptyString; mkChange 0 4 "zz"]).
Proof.
  apply (C4_offset_stays_in_buffer
           [mkChange 5 0 "abc"; mkChange 10 13 EmptyString; mkChange 0 4 "zz"]
           twentyChars (cursorAt twentyChars 12)).
  - apply cursorAt_positioned.
  - split; reflexivity.
  - vm_compute. split; discriminate.
  - vm_compute. repeat split; discriminate.
Defined.

(** ** A cursor that was never positioned *)

(** The classifier of an unpositioned widget leaves it as it is: the stored
    offset [-1] is below every offset the editor reports. *)
Lemma processChange_unpositioned (m : string) (c : IModelContentChange)
  (w : RemoteCursorWidget.t) :
  unpositioned w -> 0 <= rangeOffset c ->
  snd (EditorContentManager._processChange
         (RemoteCursorWidget.contentManagerOptions m) c w) = w.
Proof.
  intros [Hp Ho] Hi. destruct c as [i len txt]; cbn [rangeOffset] in Hi.
  unfold EditorContentManager._processChange, Validation.assertDefined,
    bind, ret.
  assert (Hlt : (i <=? RemoteCursorWidget._offset w) = false)
    by (apply Z.leb_gt; lia).
  destruct ((0 <? strlen txt) && (len =? 0)).
  { cbn. unfold RemoteCursorWidget._onInsert, bind, get.
    now rewrite Hp, Hlt. }
  destruct ((0 <? strlen txt) && (0 <? len)).
  { cbn. unfold RemoteCursorWidget._onReplace, bind, get.
    now rewrite Hp, Hlt. }
  destruct ((strlen txt =? 0) && (0 <? len)).
  { cbn. unfold RemoteCursorWidget._onDelete, bind, get.
    now rewrite Hp, Hlt. }
  reflexivity.
Qed.

Lemma forEach_unpositioned (m : string) (cs : list IModelContentChange) :
  forall w, unpositioned w -> Forall (fun c => 0 <= rangeOffset c) cs ->
  snd (forEach (EditorContentManager._processChange
                  (RemoteCursorWidget.contentManagerOptions m)) cs w) = w.
Proof.
  induction cs as [|c cs IH]; intros w Hu Hcs; [reflexivity|].
  inversion Hcs as [|? ? Hc Hcs']; subst.
  cbn [forEach]. unfold bind.
  pose proof (processChange_unpositioned m c w Hu Hc) as Hs.
  destruct (EditorContentManager._processChange _ c w) as [[u|e] w'];
    cbn [snd] in Hs; subst w'.
  - apply IH; assumption.
  - reflexivity.
Qed.

Lemma runOther_unpositioned (op : OtherOp) (w : RemoteCursorWidget.t) :
  hostOp op -> unpositioned w -> unpositioned (runOther op w).
Proof.
  intros Hop Hu. destruct op as [| | |m cs]; cbn [runOther].
  - exact Hu.
  - exact Hu.
  - destruct (RemoteCursorWidget._disposed w); exact Hu.
  - rewrite notifyWidget_fst.
    unfold RemoteCursorWidget.contentChanged, bind, get.
    destruct (EditorContentManager._subscribed _); [|exact Hu].
    unfold EditorContentManager._onContentChanged.
    destruct (negb _); [|exact Hu].
    rewrite forEach_unpositioned; assumption.
Qed.

Lemma runOthers_unpositioned (ops : list OtherOp) :
  forall w, Forall hostOp ops -> unpositioned w ->
  unpositioned (runOthers ops w).
Proof.
  unfold runOthers.
  induction ops as [|op ops IH]; intros w Hops Hu; [exact Hu|].
  inversion Hops; subst. cbn [fold_left].
  apply IH; [assumption|]. apply runOther_unpositioned; assumption.
Qed.

(** C10. On a cursor that has not been positioned since its construction,
    whatever else happened to it, [getPosition] of the handle throws a
    [TypeError]: it reads [.position] of the [undefined] the widget
    returns.  After a [setPosition] or a [setOffset] it returns the
    position. *)
Theorem C10_getPosition_needs_position (widgetId : string)
  (className color label tooltipEnabled tooltipDuration
   showTooltipOnHover tooltipClassName onDisposed : Argument)
  (ops : list OtherOp) :
  Forall hostOp ops ->
  let w := runOthers ops
             (RemoteCursorWidget.new_ widgetId className color label
                tooltipEnabled tooltipDuration showTooltipOnHover
                tooltipClassName onDisposed) in
  RemoteCursor.getPosition w =
    (Throw (TypeError "Cannot read properties of undefined (reading 'position')"),
     w) /\
  (forall m pos,
     fst (RemoteCursor.getPosition
            (snd (RemoteCursorWidget.setPosition m pos w))) = Normal pos) /\
  (forall m o,
     fst (RemoteCursor.getPosition
            (snd (RemoteCursorWidget.setOffset m o w)))
     = Normal (getPositionAt m o)).
Proof.
  intros Hops w.
  assert (Hu : unpositioned w).
  { apply runOthers_unpositioned; [assumption|]. split; reflexivity. }
  destruct Hu as [Hp _].
  split; [|split].
  - unfold RemoteCursor.getPosition, RemoteCursorWidget.getPosition, bind, gets.
    now rewrite Hp.
  - reflexivity.
  - reflexivity.
Qed.

Lemma C10_fresh_cursor :
  RemoteCursor.getPosition
    (runOthers [OpHide; OpContentChanged twentyChars [mkChange 0 0 "abc"]; OpShow]
               freshCursor)
  = (Throw (TypeError "Cannot read properties of undefined (reading 'position')"),
     runOthers [OpHide; OpContentChanged twentyChars [mkChange 0 0 "abc"]; OpShow]
               freshCursor).
Proof.
  apply (C10_getPosition_needs_position "0"
           (Plain (Str "blue")) (Plain (Str "John Doe")) (Plain (Boolean true))
           (Plain (Number 1000)) (Closure (removeOnDisposed "jDoe"))
           (Plain Undefined) (Plain Undefined) (Plain Undefined)
           [OpHide; OpContentChanged twentyChars [mkChange 0 0 "abc"]; OpShow]).
  repeat (constructor; try (cbn; lia)).
Defined.

(** ** The registries *)

(** C8, on the code as it is.  [addCursor] is meant to fail when tooltips
    are enabled and no label is given, but its guard tests [typeof "label"],
    the type of a string literal, and never fires: with tooltips enabled and
    no label, [addCursor] returns a handle on a new widget and registers it
    under the id.  The widget is the one the constructor builds from the
    seven arguments in their positions: it has a tooltip when the duration
    is not zero, and the text of the tooltip is set from the tooltips flag,
    not from a label. *)
Theorem C8_addCursor_without_label_succeeds (w : World) (id color : string) :
  RemoteCursorManager.tooltips
    (RemoteCursorManager._options (cursorManager w)) = true ->
  let ref := List.length (cursorWidgets w) in
  let w' := snd (Cursors.addCursor id color None w) in
  let duration :=
    RemoteCursorManager.tooltipDuration
      (RemoteCursorManager._options (cursorManager w)) in
  fst (Cursors.addCursor id color None w) = Normal ref /\
  RemoteCursorManager._cursorWidgets (cursorManager w') !! id = Some ref /\
  (RemoteCursorWidget._tooltipNode <$> cursorWidgets w' !! ref)
    = Some (if duration * 1000 =? 0 then None
            else Some (Plain (Boolean true))).
Proof.
  intros Ht ref w' duration. subst w' ref duration.
  unfold Cursors.addCursor, Validation.assertString, bind, gets, ret.
  cbn [typeof String.eqb Ascii.eqb Bool.eqb negb andb].
  rewrite andb_false_r.
  cbn -[Cursors.numberToString Z.mul Z.eqb].
  rewrite Ht.
  split; [reflexivity|]. split.
  - apply lookup_insert_eq.
  - rewrite list_lookup_middle by reflexivity.
    cbn -[Z.mul Z.eqb]. now destruct (_ =? 0).
Qed.

Lemma C8_no_label_on_example_world :
  fst (Cursors.addCursor "jDoe" "blue" None exampleWorld) = Normal 0%nat /\
  RemoteCursorManager._cursorWidgets
    (cursorManager (snd (Cursors.addCursor "jDoe" "blue" None exampleWorld)))
    !! "jDoe" = Some 0%nat.
Proof.
  pose proof (C8_addCursor_without_label_succeeds exampleWorld "jDoe" "blue"
                eq_refl) as (H1 & H2 & _).
  split; [exact H1 | exact H2].
Defined.

Lemma keeps_bind {A B} (c : M World A) (k : A -> M World B) :
  keepsSelectionManager c -> (forall a, keepsSelectionManager (k a)) ->
  keepsSelectionManager (bind c k).
Proof.
  intros Hc Hk w. unfold bind. specialize (Hc w).
  destruct (c w) as [[a|e] w1]; cbn [snd] in *.
  - rewrite Hk. exact Hc.
  - exact Hc.
Qed.

Lemma keeps_onSelection {A} (ref : nat) (f : string -> M RemoteSelection.t A) :
  keepsSelectionManager (onSelection ref f).
Proof.
  intros w. unfold onSelection.
  destruct (selections w !! ref) as [x|]; [|reflexivity].
  destruct (f (model w) x); reflexivity.
Qed.

Lemma keeps_getSelection (id : string) :
  keepsSelectionManager (Selections._getSelection id).
Proof.
  intros w. unfold Selections._getSelection, bind, gets.
  destruct (_ !! id); reflexivity.
Qed.

Lemma keeps_removeSelectionFuel (fuel : nat) :
  forall id, keepsSelectionManager (Selections.removeSelectionFuel fuel id).
Proof.
  induction fuel as [|fuel IH]; intros id; cbn [Selections.removeSelectionFuel].
  - apply keeps_bind; [apply keeps_getSelection|]. intros ref.
    apply keeps_bind; [apply keeps_onSelection|]. intros [|]; intros w; reflexivity.
  - apply keeps_bind; [apply keeps_getSelection|]. intros ref.
    apply keeps_bind; [apply keeps_onSelection|].
    intros [|]; cbn [negb]; [intros w; reflexivity|].
    unfold Selections.disposeSelection.
    apply keeps_bind; [apply keeps_onSelection|].
    intros [|]; cbn [negb]; [intros w; reflexivity|].
    apply keeps_bind; [apply keeps_onSelection|]. intros _.
    apply keeps_bind; [apply keeps_onSelection|]. intros cb.
    apply IH.
Qed.

(** C7, on the code as it is.  [remove(id)] is meant to dispose the marker
    and then delete its entry.  [removeSelection] disposes the selection but
    has no [delete]: it never changes the registry, so the entry of a
    removed selection stays.  [removeCursor] has the [delete], but does not
    reach it for a cursor that is not disposed yet: the widget's [dispose]
    marks the widget and then calls [_onDisposed], which the call in
    [addCursor] left [undefined], so [removeCursor] ends in a [TypeError]
    and the entry stays as well. *)
Theorem C7_removeSelection_keeps_entry :
  (forall id w,
     selectionManager (snd (Selections.removeSelection id w))
     = selectionManager w) /\
  (RemoteSelectionManager._remoteSelections
     (selectionManager afterRemoveSelection) !! "jDoe" = Some 0%nat /\
   (RemoteSelection._disposed <$> selections afterRemoveSelection !! 0%nat)
     = Some true) /\
  (fst ((Cursors.addCursor "jDoe" "blue" (Some "John Doe") >>
         Cursors.removeCursor "jDoe") exampleWorld)
     = Throw (TypeError "this._onDisposed is not a function") /\
   RemoteCursorManager._cursorWidgets
     (cursorManager afterRemoveCursor) !! "jDoe" = Some 0%nat /\
   (RemoteCursorWidget._disposed <$> cursorWidgets afterRemoveCursor !! 0%nat)
     = Some true).
Proof.
  split; [|split].
  - intros id w. unfold Selections.removeSelection.
    apply keeps_removeSelectionFuel.
  - split; vm_compute; reflexivity.
  - split; [|split]; vm_compute; reflexivity.
Qed.

(** ** Methods run on the world *)

Lemma onWidget_run {A} (ref : nat) (f : string -> M RemoteCursorWidget.t A)
  (w : World) (wd : RemoteCursorWidget.t) :
  cursorWidgets w !! ref = Some wd ->
  onWidget ref f w =
  (fst (f (model w) wd),
   set_cursorWidgets (<[ref := snd (f (model w) wd)]> (cursorWidgets w)) w).
Proof.
  intros H. unfold onWidget. rewrite H. destruct (f (model w) wd); reflexivity.
Qed.

Lemma onSelection_run {A} (ref : nat) (f : string -> M RemoteSelection.t A)
  (w : World) (x : RemoteSelection.t) :
  selections w !! ref = Some x ->
  onSelection ref f w =
  (fst (f (model w) x),
   set_selections (<[ref := snd (f (model w) x)]> (selections w)) w).
Proof.
  intros H. unfold onSelection. rewrite H. destruct (f (model w) x); reflexivity.
Qed.

Lemma set_cursorWidgets_same (w : World) (ref : nat) (wd : RemoteCursorWidget.t) :
  cursorWidgets w !! ref = Some wd ->
  set_cursorWidgets (<[ref := wd]> (cursorWidgets w)) w = w.
Proof. intros H. rewrite list_insert_id by exact H. now destruct w. Qed.

Lemma set_selections_same (w : World) (ref : nat) (x : RemoteSelection.t) :
  selections w !! ref = Some x ->
  set_selections (<[ref := x]> (selections w)) w = w.
Proof. intros H. rewrite list_insert_id by exact H. now destruct w. Qed.

(** ** Disposed markers *)

(** C9, amended.  A second [dispose] of a disposed marker changes
    nothing.  The other operations have no disposed check and are not
    rejected: on a disposed cursor [hide], [show], [setOffset] and
    [setPosition] complete without an error and update the widget as they
    do on a live one; on a disposed selection [hide], [setOffsets] and
    [setPositions] complete without an error, and so does [show] once the
    selection has been given positions. *)
Theorem C9_disposed_marker_operations (w : World) (ref : nat) :
  (forall wd,
     cursorWidgets w !! ref = Some wd ->
     RemoteCursorWidget._disposed wd = true ->
     Cursors.dispose ref w = (Normal tt, w) /\
     Cursors.hide ref w =
       (Normal tt,
        set_cursorWidgets
          (<[ref := RemoteCursorWidget.set_display "none" wd]> (cursorWidgets w)) w) /\
     Cursors.show ref w =
       (Normal tt,
        set_cursorWidgets
          (<[ref := RemoteCursorWidget.set_display "inherit" wd]> (cursorWidgets w)) w) /\
     (forall o,
        fst (Cursors.setOffset ref o w) = Normal tt /\
        (RemoteCursorWidget._offset <$>
           cursorWidgets (snd (Cursors.setOffset ref o w)) !! ref)
        = Some (Z.min (Z.max 0 o) (strlen (model w)))) /\
     (forall p,
        fst (Cursors.setPosition ref p w) = Normal tt /\
        (RemoteCursorWidget._position <$>
           cursorWidgets (snd (Cursors.setPosition ref p w)) !! ref)
        = Some (RemoteCursorWidget.PosObject
                  (RemoteCursorWidget.mkWidgetPosition p)))) /\
  (forall x,
     selections w !! ref = Some x ->
     RemoteSelection._disposed x = true ->
     Selections.dispose ref w = (Normal tt, w) /\
     fst (Selections.hide ref w) = Normal tt /\
     (forall a b, fst (Selections.setOffsets ref a b w) = Normal tt) /\
     (forall a b, fst (Selections.setPositions ref a b w) = Normal tt) /\
     (forall s e,
        RemoteSelection._startPosition x = Some s ->
        RemoteSelection._endPosition x = Some e ->
        fst (Selections.show ref w) = Normal tt)).
Proof.
  split.
  - intros wd Hw Hd.
    assert (Hlt : (ref < List.length (cursorWidgets w))%nat)
      by (eapply lookup_lt_Some; exact Hw).
    split; [|split; [|split; [|split]]].
    + unfold Cursors.dispose, Cursors.disposeWidget, bind.
      rewrite (onWidget_run _ _ _ _ Hw).
      cbn [fst snd RemoteCursorWidget.isDisposed gets]. rewrite Hd.
      now rewrite set_cursorWidgets_same.
    + unfold Cursors.hide. now rewrite (onWidget_run _ _ _ _ Hw).
    + unfold Cursors.show. now rewrite (onWidget_run _ _ _ _ Hw).
    + intros o. unfold Cursors.setOffset.
      rewrite (onWidget_run _ _ _ _ Hw). split; [reflexivity|].
      cbn [snd cursorWidgets set_cursorWidgets].
      rewrite list_lookup_insert_eq by exact Hlt.
      cbn. now rewrite getOffsetAt_getPositionAt.
    + intros p. unfold Cursors.setPosition.
      rewrite (onWidget_run _ _ _ _ Hw). split; [reflexivity|].
      cbn [snd cursorWidgets set_cursorWidgets].
      rewrite list_lookup_insert_eq by exact Hlt.
      reflexivity.
  - intros x Hx Hd.
    split; [|split; [|split; [|split]]].
    + unfold Selections.dispose, Selections.disposeSelection, bind.
      rewrite (onSelection_run _ _ _ _ Hx).
      cbn [fst snd RemoteSelection.isDisposed gets]. rewrite Hd.
      cbn [negb]. now rewrite set_selections_same.
    + unfold Selections.hide. now rewrite (onSelection_run _ _ _ _ Hx).
    + intros a b. unfold Selections.setOffsets.
      now rewrite (onSelection_run _ _ _ _ Hx).
    + intros a b. unfold Selections.setPositions.
      now rewrite (onSelection_run _ _ _ _ Hx).
    + intros s e Hs He. unfold Selections.show.
      rewrite (onSelection_run _ _ _ _ Hx).
      unfold RemoteSelection.show, RemoteSelection._render, bind, get.
      now rewrite Hs, He.
Qed.

(** The claim of C9 fails on [disposedMarkers]: its cursor and its selection
    are disposed, and [hide], [show], [setOffset], [setPosition],
    [setOffsets] and [setPositions] on them complete without an error. *)
Lemma C9_operations_on_disposed_do_not_fail :
  (RemoteCursorWidget._disposed <$> cursorWidgets disposedMarkers !! 0%nat)
    = Some true /\
  (RemoteSelection._disposed <$> selections disposedMarkers !! 0%nat)
    = Some true /\
  isThrow (fst (Cursors.hide 0 disposedMarkers)) = false /\
  isThrow (fst (Cursors.show 0 disposedMarkers)) = false /\
  isThrow (fst (Cursors.setOffset 0 7 disposedMarkers)) = false /\
  isThrow (fst (Cursors.setPosition 0 (mkPosition 1 3) disposedMarkers)) = false /\
  isThrow (fst (Selections.hide 0 disposedMarkers)) = false /\
  isThrow (fst (Selections.show 0 disposedMarkers)) = false /\
  isThrow (fst (Selections.setOffsets 0 2 6 disposedMarkers)) = false /\
  isThrow (fst (Selections.setPositions 0 (mkPosition 1 3) (mkPosition 1 5)
                  disposedMarkers)) = false.
Proof. vm_compute. repeat split. Qed.

Lemma C9_on_disposedMarkers :
  Cursors.dispose 0 disposedMarkers = (Normal tt, disposedMarkers) /\
  fst (Cursors.setOffset 0 7 disposedMarkers) = Normal tt /\
  Selections.dispose 0 disposedMarkers = (Normal tt, disposedMarkers) /\
  fst (Selections.show 0 disposedMarkers) = Normal tt.
Proof.
  destruct (C9_disposed_marker_operations disposedMarkers 0) as [Hc Hs].
  assert (Hw : exists wd, cursorWidgets disposedMarkers !! 0%nat = Some wd /\
                          RemoteCursorWidget._disposed wd = true)
    by (vm_compute; eexists; split; reflexivity).
  destruct Hw as (wd & Hw & Hwd).
  assert (Hx : exists x s e, selections disposedMarkers !! 0%nat = Some x /\
                             RemoteSelection._disposed x = true /\
                             RemoteSelection._startPosition x = Some s /\
                             RemoteSelection._endPosition x = Some e)
    by (vm_compute; do 3 eexists; repeat split; reflexivity).
  destruct Hx as (x & s & e & Hx & Hxd & Hxs & Hxe).
  destruct (Hc wd Hw Hwd) as (H1 & _ & _ & H4 & _).
  destruct (Hs x Hx Hxd) as (H5 & _ & _ & _ & H9).
  split; [exact H1|]. split; [exact (proj1 (H4 7))|].
  split; [exact H5|]. exact (H9 s e Hxs Hxe).
Defined.

(** ** Programmatic edits and their notifications *)

Lemma callsOf_app (ref : nat) (l1 l2 : list LogEntry) :
  callsOf ref (l1 ++ l2) = callsOf ref l1 ++ callsOf ref l2.
Proof.
  induction l1 as [|[k c|e] l1 IH]; cbn [callsOf app]; [reflexivity| |exact IH].
  destruct (Nat.eqb k ref); [cbn [app]; now rewrite IH | exact IH].
Qed.

Lemma callsOf_Called_other (ref k : nat) (c : Call) (l : list LogEntry) :
  k <> ref -> callsOf ref (l ++ [Called k c]) = callsOf ref l.
Proof.
  intros Hk. rewrite callsOf_app. cbn [callsOf].
  apply Nat.eqb_neq in Hk. rewrite Hk. apply app_nil_r.
Qed.

Lemma callsOf_Unexpected (ref : nat) (e : Error) (l : list LogEntry) :
  callsOf ref (l ++ [Unexpected e]) = callsOf ref l.
Proof. rewrite callsOf_app. apply app_nil_r. Qed.

(** The callbacks of another manager never count as calls of [ref]. *)
Lemma processChange_other (ref k : nat) (c : IModelContentChange)
  (l : list LogEntry) :
  k <> ref ->
  callsOf ref (snd (EditorContentManager._processChange (Editor.callbacks k) c l))
  = callsOf ref l.
Proof.
  intros Hk. destruct c as [i len txt].
  unfold EditorContentManager._processChange, Validation.assertDefined,
    bind, ret.
  destruct ((0 <? strlen txt) && (len =? 0));
    [apply callsOf_Called_other; exact Hk|].
  destruct ((0 <? strlen txt) && (0 <? len));
    [apply callsOf_Called_other; exact Hk|].
  destruct ((strlen txt =? 0) && (0 <? len));
    [apply callsOf_Called_other; exact Hk|].
  reflexivity.
Qed.

Lemma forEach_other (ref k : nat) (cs : list IModelContentChange) :
  k <> ref -> forall l,
  callsOf ref (snd (forEach (EditorContentManager._processChange
                               (Editor.callbacks k)) cs l))
  = callsOf ref l.
Proof.
  intros Hk. induction cs as [|c cs IH]; intros l; [reflexivity|].
  cbn [forEach]. unfold bind.
  pose proof (processChange_other ref k c l Hk) as Hc.
  destruct (EditorContentManager._processChange _ c l) as [[u|e] l'];
    cbn [snd] in *.
  - now rewrite IH.
  - exact Hc.
Qed.

(** A manager that suppresses, or any other manager than [ref], adds no
    call of [ref] to the log. *)
Lemma notifyManager_calls (ref k : nat) (cs : list IModelContentChange)
  (cm : EditorContentManager.t) (l : list LogEntry) :
  (k = ref -> EditorContentManager._suppress cm = true) ->
  callsOf ref (snd (Editor.notifyManager cs k cm l)) = callsOf ref l.
Proof.
  intros Hs. unfold Editor.notifyManager.
  destruct (EditorContentManager._subscribed cm); [|reflexivity].
  unfold catch, EditorContentManager._onContentChanged.
  destruct (Nat.eq_dec k ref) as [Heq|Hne].
  - rewrite (Hs Heq). reflexivity.
  - destruct (negb _); [|reflexivity].
    pose proof (forEach_other ref k cs Hne l) as Hc.
    destruct (forEach _ cs l) as [[u|e] l']; cbn [snd] in *.
    + exact Hc.
    + unfold modify; cbn [snd]. now rewrite callsOf_Unexpected.
Qed.

Lemma notifyManagers_calls (ref : nat) (cs : list IModelContentChange)
  (cms : list EditorContentManager.t) :
  forall (k : nat) (l : list LogEntry),
  (forall j cm, cms !! j = Some cm -> (k + j)%nat = ref ->
                EditorContentManager._suppress cm = true) ->
  callsOf ref (snd (Editor.notifyManagers cs k cms l)) = callsOf ref l.
Proof.
  induction cms as [|cm cms IH]; intros k l Hs; [reflexivity|].
  cbn [Editor.notifyManagers]. unfold bind.
  pose proof (notifyManager_calls ref k cs cm l) as H1.
  destruct (Editor.notifyManager cs k cm l) as [[u|e] l1]; cbn [snd] in *.
  - rewrite IH.
    + apply H1. intros Hk. apply (Hs 0%nat cm); [reflexivity | lia].
    + intros j cm' Hj Hkj. apply (Hs (S j) cm'); [exact Hj | lia].
  - apply H1. intros Hk. apply (Hs 0%nat cm); [reflexivity | lia].
Qed.

Lemma notifyWidgets_calls (ref : nat) (m : string)
  (cs : list IModelContentChange) (ws : list RemoteCursorWidget.t) :
  callsOf ref (concat (map snd (map (Editor.notifyWidget m cs) ws))) = [].
Proof.
  induction ws as [|wd ws IH]; [reflexivity|].
  cbn [map concat]. rewrite callsOf_app, IH, app_nil_r.
  unfold Editor.notifyWidget.
  destruct (RemoteCursorWidget.contentChanged m cs wd) as [[u|e] wd'];
    reflexivity.
Qed.

Lemma lookup_map {A B} (f : A -> B) (l : list A) (i : nat) :
  map f l !! i = f <$> (l !! i).
Proof.
  revert i; induction l as [|a l IH]; intros [|i]; cbn; try reflexivity.
  apply IH.
Qed.

Lemma position_eta (p : IPosition) :
  mkPosition (lineNumber p) (column p) = p.
Proof. now destruct p. Qed.

(** [new monaco.Range] keeps two end points that are in buffer order. *)
Lemma newRange_ordered (a b : IPosition) :
  pos_le a b ->
  newRange (lineNumber a) (column a) (lineNumber b) (column b)
  = mkRange (lineNumber a) (column a) (lineNumber b) (column b).
Proof.
  unfold pos_le, newRange. intros H.
  replace ((lineNumber b <? lineNumber a) ||
           ((lineNumber a =? lineNumber b) && (column b <? column a)))
    with false; [reflexivity|].
  symmetry. apply orb_false_iff. split; [apply Z.ltb_ge; lia|].
  apply andb_false_iff.
  destruct (Z.eq_dec (lineNumber a) (lineNumber b));
    [right; apply Z.ltb_ge; lia | left; apply Z.eqb_neq; lia].
Qed.

(** What [replace] does to the world: the manager suppresses, the buffer
    is edited, the change is reported, the manager stops suppressing.  When
    the replaced range lies in the buffer, the reported change is the
    requested one. *)
Lemma replace_run (w : World) (ref : nat) (i len : Z) (txt : string) :
  exists change,
    EditorContentManagerMethods.replace ref i len txt w =
    (Normal tt,
     set_contentManagers
       (alter (EditorContentManager.set_suppress false) ref
          (alter (EditorContentManager.set_suppress true) ref
             (contentManagers w)))
       (Editor.fire [change]
          (set_model (applyChange (model w) change)
             (set_contentManagers
                (alter (EditorContentManager.set_suppress true) ref
                   (contentManagers w)) w)))) /\
    (0 <= i -> 0 <= len -> i + len <= strlen (model w) ->
     change = mkChange i len txt).
Proof.
  eexists. split.
  - unfold EditorContentManagerMethods.replace,
      EditorContentManagerMethods.setSuppress, Editor.executeEdits,
      bind, modify, gets.
    cbn [model set_contentManagers]. reflexivity.
  - intros Hi Hlen Hin.
    rewrite newRange_ordered by (apply getPositionAt_mono; lia).
    unfold getStartPosition, getEndPosition.
    cbn [startLineNumber startColumn endLineNumber endColumn].
    rewrite !position_eta, !offset_roundtrip by lia.
    replace (i + len - i) with len by lia.
    reflexivity.
Qed.

Lemma runEdit_as_replace (ref : nat) (c : EditCall) (w : World) :
  runEdit ref c w =
  EditorContentManagerMethods.replace ref (editIndex c) (editLength c)
    (editText c) w.
Proof.
  destruct c as [i txt|i len txt|i len]; cbn [runEdit editIndex editLength editText].
  - unfold EditorContentManagerMethods.insert, EditorContentManagerMethods.replace.
    now rewrite Z.add_0_r.
  - reflexivity.
  - reflexivity.
Qed.

(** C3, amended.  A content manager [ref] runs one of its editing
    methods.  The call returns and none of the callbacks of [ref] is called:
    the calls of [ref] in the log are the ones from before.  When the edited
    range lies in the buffer, the buffer is edited as asked and every cursor
    widget that is positioned in the buffer and still listens through its
    own content manager is notified all the same: its stored offset
    afterwards is the re-anchored one.  A selection owns no content manager:
    every selection stores the same start and end position after the call
    as before. *)
Theorem C3_programmatic_edit_notifies_markers_only
  (w : World) (ref : nat) (c : EditCall) :
  let w' := snd (runEdit ref c w) in
  fst (runEdit ref c w) = Normal tt /\
  callsOf ref (log w') = callsOf ref (log w) /\
  (0 <= editIndex c -> 0 <= editLength c ->
   editIndex c + editLength c <= strlen (model w) ->
   model w' = splice (model w) (editIndex c) (editLength c) (editText c) /\
   forall r wd,
     cursorWidgets w !! r = Some wd ->
     positioned wd -> listening wd ->
     0 <= RemoteCursorWidget._offset wd <= strlen (model w) ->
     exists wd',
       cursorWidgets w' !! r = Some wd' /\
       RemoteCursorWidget._offset wd' =
         reanchor (editIndex c) (editLength c) (strlen (editText c))
                  (RemoteCursorWidget._offset wd) /\
       0 <= RemoteCursorWidget._offset wd' <= strlen (model w')) /\
  map RemoteSelection._startPosition (selections w')
    = map RemoteSelection._startPosition (selections w) /\
  map RemoteSelection._endPosition (selections w')
    = map RemoteSelection._endPosition (selections w).
Proof.
  intros w'. subst w'. rewrite runEdit_as_replace.
  set (i := editIndex c). set (len := editLength c). set (txt := editText c).
  destruct (replace_run w ref i len txt) as (change & -> & Hchange).
  cbn [fst snd]. unfold Editor.fire.
  cbn [model log cursorWidgets contentManagers set_contentManagers set_log
       set_cursorWidgets set_model].
  split; [reflexivity|]. split; [|split; [|split; reflexivity]].
  - rewrite callsOf_app, notifyWidgets_calls, app_nil_r.
    apply notifyManagers_calls.
    intros j cm Hj Hk. cbn [Nat.add] in Hk. subst j.
    rewrite list_lookup_alter in Hj.
    destruct (decide (ref = ref)) as [_|Hne]; [|congruence].
    destruct (contentManagers w !! ref) as [cm0|]; cbn in Hj; [|discriminate].
    injection Hj as <-. reflexivity.
  - intros Hi Hlen Hin. rewrite (Hchange Hi Hlen Hin).
    unfold applyChange; cbn [rangeOffset rangeLength text].
    split; [reflexivity|].
    intros r wd Hr Hp Hl Hb.
    exists (fst (Editor.notifyWidget (splice (model w) i len txt)
                   [mkChange i len txt] wd)).
    split.
    + rewrite !lookup_map, Hr. reflexivity.
    + pose proof (notifyWidget_step (model w) (mkChange i len txt) wd Hp Hl Hb)
        as Hstep.
      cbv zeta in Hstep. unfold applyChange in Hstep.
      cbn [rangeOffset rangeLength text] in Hstep.
      destruct Hstep as (_ & _ & Ho & Hb'); [repeat split; assumption|].
      split; assumption.
Qed.

Lemma C3_on_collaboration :
  let w' := snd (runEdit 0 (CallInsert 5 "abc") collaboration) in
  callsOf 0 (log w') = [] /\
  callsOf 1 (log w') = [OnInsert 5 "abc"] /\
  (RemoteCursorWidget._offset <$> cursorWidgets w' !! 0%nat) = Some 13 /\
  (RemoteCursorWidget._offset <$> cursorWidgets w' !! 1%nat) = Some 3.
Proof.
  destruct (C3_programmatic_edit_notifies_markers_only collaboration 0
              (CallInsert 5 "abc")) as (_ & Hcalls & Hvalid & _).
  destruct Hvalid as (_ & Hw).
  - vm_compute. discriminate.
  - vm_compute. discriminate.
  - vm_compute. discriminate.
  - assert (H0 : exists wd, cursorWidgets collaboration !! 0%nat = Some wd /\
                            positioned wd /\ listening wd /\
                            RemoteCursorWidget._offset wd = 10).
    { vm_compute. eexists. split; [reflexivity|].
      split; [eexists; reflexivity|]. split; [split; reflexivity|reflexivity]. }
    assert (H1 : exists wd, cursorWidgets collaboration !! 1%nat = Some wd /\
                            positioned wd /\ listening wd /\
                            RemoteCursorWidget._offset wd = 3).
    { vm_compute. eexists. split; [reflexivity|].
      split; [eexists; reflexivity|]. split; [split; reflexivity|reflexivity]. }
    destruct H0 as (wd0 & Hl0 & Hp0 & Hs0 & Ho0).
    destruct H1 as (wd1 & Hl1 & Hp1 & Hs1 & Ho1).
    cbv zeta. split; [exact Hcalls|]. split; [vm_compute; reflexivity|].
    split.
    + destruct (Hw 0%nat wd0 Hl0 Hp0 Hs0) as (wd' & Hl' & Ho' & _).
      { rewrite Ho0. vm_compute. split; discriminate. }
      rewrite Hl'. cbn [fmap option_fmap option_map]. rewrite Ho', Ho0.
      reflexivity.
    + destruct (Hw 1%nat wd1 Hl1 Hp1 Hs1) as (wd' & Hl' & Ho' & _).
      { rewrite Ho1. vm_compute. split; discriminate. }
      rewrite Hl'. cbn [fmap option_fmap option_map]. rewrite Ho', Ho1.
      reflexivity.
Defined.

(** The claim of C3 fails for the markers that have no live subscription.
    A selection owns no content manager: after the content manager 0 of
    [bridgeAndMarkers] has inserted three characters at offset 0, the
    selection, set on offsets 5 to 9, still stores the positions of 5 and
    9, where re-anchoring gives those of 8 and 12.  The cursor of that
    world was disposed at offset 10, which ended the subscription of its
    content manager: it stays at 10, where re-anchoring gives 13. *)
Lemma C3_markers_that_are_not_notified :
  let w := bridgeAndMarkers in
  let w' := snd (runEdit 0 (CallInsert 0 "abc") w) in
  (RemoteSelection._startPosition <$> selections w' !! 0%nat)
    = Some (Some (getPositionAt (model w) 5)) /\
  (RemoteSelection._endPosition <$> selections w' !! 0%nat)
    = Some (Some (getPositionAt (model w) 9)) /\
  getPositionAt (model w') (reanchor 0 0 (strlen "abc") 5)
    <> getPositionAt (model w) 5 /\
  getPositionAt (model w') (reanchor 0 0 (strlen "abc") 9)
    <> getPositionAt (model w) 9 /\
  (RemoteCursorWidget._disposed <$> cursorWidgets w !! 0%nat) = Some true /\
  (RemoteCursorWidget._offset <$> cursorWidgets w !! 0%nat) = Some 10 /\
  (RemoteCursorWidget._offset <$> cursorWidgets w' !! 0%nat) = Some 10 /\
  reanchor 0 0 (strlen "abc") 10 = 13.
Proof. vm_compute. repeat split; discriminate. Qed.

(** The claim of C4 fails for the same markers.  After the content manager
    0 of [bridgeAndMarkers] has deleted all twenty characters, a valid
    change, the buffer is empty and its only position is line 1, column 1.
    The selection still stores columns 6 and 10 of line 1, the positions of
    the offsets 5 and 9 it was set on, and the disposed cursor still stores
    the offset 10. *)
Lemma C4_markers_left_outside_the_buffer :
  let w := bridgeAndMarkers in
  let w' := snd (runEdit 0 (CallDelete 0 20) w) in
  validChange (model w) (mkChange 0 20 EmptyString) /\
  getValueLength (model w') = 0 /\
  (forall p', 0 <= p' <= getValueLength (model w') ->
              getPositionAt (model w') p' = mkPosition 1 1) /\
  (RemoteSelection._startPosition <$> selections w' !! 0%nat)
    = Some (Some (mkPosition 1 6)) /\
  (RemoteSelection._endPosition <$> selections w' !! 0%nat)
    = Some (Some (mkPosition 1 10)) /\
  (RemoteCursorWidget._offset <$> cursorWidgets w' !! 0%nat) = Some 10 /\
  ~ (0 <= 10 <= getValueLength (model w')).
Proof.
  cbv zeta.
  assert (Hlen : getValueLength
                   (model (snd (runEdit 0 (CallDelete 0 20) bridgeAndMarkers)))
                 = 0) by (vm_compute; reflexivity).
  split; [vm_compute; repeat split; discriminate|].
  split; [exact Hlen|]. split.
  - intros p' Hp'. rewrite Hlen in Hp'.
    assert (p' = 0) as -> by lia. vm_compute. reflexivity.
  - rewrite Hlen. split; [vm_compute; reflexivity|].
    split; [vm_compute; reflexivity|].
    split; [vm_compute; reflexivity|]. lia.
Qed.

(** ** Removing a cursor *)

Lemma removeCursorFuel_unfold (fuel : nat) (id : string) :
  Cursors.removeCursorFuel fuel id =
  (Validation.assertString (Str id) "id" >>
   let* remoteCursorWidget := Cursors._getCursor id in
   let* disposed := onWidget remoteCursorWidget
                      (fun _ => RemoteCursorWidget.isDisposed) in
   (if negb disposed then
      match fuel with
      | O => throw OutOfFuel
      | S fuel' =>
          Cursors.disposeWidget
            (fun cb => Cursors.removeCursorFuel fuel' (capturedId cb))
            remoteCursorWidget
      end
    else ret tt) >>
   Cursors.setRegistry (base.delete id))%js.
Proof. destruct fuel; reflexivity. Qed.

Lemma bind_normal {S A B} (c : M S A) (k : A -> M S B) (s s1 : S) (a : A) :
  c s = (Normal a, s1) -> bind c k s = k a s1.
Proof. intros H. unfold bind. now rewrite H. Qed.

Lemma assertString_ok {S} (v name : string) (s : S) :
  Validation.assertString (Str v) name s = (Normal tt, s).
Proof. reflexivity. Qed.

Lemma getCursor_ok (w : World) (id : string) (ref : nat) :
  RemoteCursorManager._cursorWidgets (cursorManager w) !! id = Some ref ->
  Cursors._getCursor id w = (Normal ref, w).
Proof.
  intros H. unfold Cursors._getCursor, bind, gets. now rewrite H.
Qed.

Lemma widget_isDisposed_run (w : World) (ref : nat) (wd : RemoteCursorWidget.t) :
  cursorWidgets w !! ref = Some wd ->
  onWidget ref (fun _ => RemoteCursorWidget.isDisposed) w
  = (Normal (RemoteCursorWidget._disposed wd), w).
Proof.
  intros H. rewrite (onWidget_run _ _ _ _ H).
  cbn [fst snd RemoteCursorWidget.isDisposed gets].
  now rewrite set_cursorWidgets_same.
Qed.

Lemma widget_onDisposed_run (w : World) (ref : nat) (wd : RemoteCursorWidget.t) :
  cursorWidgets w !! ref = Some wd ->
  onWidget ref (fun _ => gets RemoteCursorWidget._onDisposed) w
  = (Normal (RemoteCursorWidget._onDisposed wd), w).
Proof.
  intros H. rewrite (onWidget_run _ _ _ _ H). cbn [fst snd gets].
  now rewrite set_cursorWidgets_same.
Qed.

Lemma widget_markDisposed_run (w : World) (ref : nat) (wd : RemoteCursorWidget.t) :
  cursorWidgets w !! ref = Some wd ->
  onWidget ref (fun _ => modify RemoteCursorWidget.markDisposed) w
  = (Normal tt,
     set_cursorWidgets
       (<[ref := RemoteCursorWidget.markDisposed wd]> (cursorWidgets w)) w).
Proof. intros H. now rewrite (onWidget_run _ _ _ _ H). Qed.

(** [removeCursor] of an id whose widget is already disposed: nothing is
    disposed again, the entry is deleted. *)
Lemma removeCursorFuel_disposed (fuel : nat) (w : World) (id : string)
  (ref : nat) (wd : RemoteCursorWidget.t) :
  RemoteCursorManager._cursorWidgets (cursorManager w) !! id = Some ref ->
  cursorWidgets w !! ref = Some wd ->
  RemoteCursorWidget._disposed wd = true ->
  Cursors.removeCursorFuel fuel id w =
  (Normal tt, snd (Cursors.setRegistry (base.delete id) w)).
Proof.
  intros Hid Hw Hd. rewrite removeCursorFuel_unfold.
  rewrite (bind_normal _ _ _ _ _ (assertString_ok _ _ _)).
  rewrite (bind_normal _ _ _ _ _ (getCursor_ok _ _ _ Hid)).
  rewrite (bind_normal _ _ _ _ _ (widget_isDisposed_run _ _ _ Hw)).
  rewrite Hd. reflexivity.
Qed.

Lemma bind_throw {S A B} (c : M S A) (k : A -> M S B) (s s1 : S) (e : Error) :
  c s = (Throw e, s1) -> bind c k s = (Throw e, s1).
Proof. intros H. unfold bind. now rewrite H. Qed.

Lemma insert_as_alter {A} (f : A -> A) (l : list A) :
  forall i x, l !! i = Some x -> <[i := f x]> l = alter f i l.
Proof.
  induction l as [|a l IH]; intros [|i] x H; try discriminate.
  - injection H as ->. reflexivity.
  - cbn in H.
    change (a :: <[i := f x]> l = a :: alter f i l).
    now rewrite (IH i x H).
Qed.

Lemma markedDisposed_insert (w : World) (ref : nat) (wd : RemoteCursorWidget.t) :
  cursorWidgets w !! ref = Some wd ->
  set_cursorWidgets
    (<[ref := RemoteCursorWidget.markDisposed wd]> (cursorWidgets w)) w
  = markedDisposed ref w.
Proof.
  intros H. unfold markedDisposed. now rewrite (insert_as_alter _ _ _ _ H).
Qed.

Lemma markedDisposed_lookup (w : World) (ref : nat) (wd : RemoteCursorWidget.t) :
  cursorWidgets w !! ref = Some wd ->
  cursorWidgets (markedDisposed ref w) !! ref
  = Some (RemoteCursorWidget.markDisposed wd).
Proof.
  intros H. unfold markedDisposed. cbn [cursorWidgets set_cursorWidgets].
  rewrite list_lookup_alter_eq, H. reflexivity.
Qed.

Lemma markedDisposed_lookup_ne (w : World) (ref r : nat) :
  ref <> r ->
  cursorWidgets (markedDisposed ref w) !! r = cursorWidgets w !! r.
Proof.
  intros H. unfold markedDisposed. cbn [cursorWidgets set_cursorWidgets].
  now rewrite list_lookup_alter_ne.
Qed.

(** [dispose] of a widget that is not disposed and whose [_onDisposed] is
    not a function: the widget is detached, unsubscribed and marked, then
    the call of [_onDisposed] throws. *)
Lemma disposeWidget_uncallable (k : OnDisposed -> M World unit) (w : World)
  (ref : nat) (wd : RemoteCursorWidget.t) :
  cursorWidgets w !! ref = Some wd ->
  RemoteCursorWidget._disposed wd = false ->
  uncallable wd ->
  Cursors.disposeWidget k ref w = (Throw notAFunction, markedDisposed ref w).
Proof.
  intros Hw Hd Hu.
  unfold Cursors.disposeWidget.
  rewrite (bind_normal _ _ _ _ _ (widget_isDisposed_run _ _ _ Hw)).
  rewrite Hd.
  rewrite (bind_normal _ _ _ _ _ (widget_markDisposed_run _ _ _ Hw)).
  rewrite (markedDisposed_insert _ _ _ Hw).
  rewrite (bind_normal _ _ _ _ _
             (widget_onDisposed_run _ _ _ (markedDisposed_lookup _ _ _ Hw))).
  cbn [RemoteCursorWidget.markDisposed RemoteCursorWidget._onDisposed].
  unfold Cursors.callOnDisposed. unfold uncallable in Hu. rewrite Hu.
  reflexivity.
Qed.

(** [removeCursor] of an id whose widget is such a widget: the error of
    [dispose] ends the call before the [delete]. *)
Lemma removeCursorFuel_uncallable (fuel : nat) (w : World) (id : string)
  (ref : nat) (wd : RemoteCursorWidget.t) :
  RemoteCursorManager._cursorWidgets (cursorManager w) !! id = Some ref ->
  cursorWidgets w !! ref = Some wd ->
  RemoteCursorWidget._disposed wd = false ->
  uncallable wd ->
  Cursors.removeCursorFuel (S fuel) id w
  = (Throw notAFunction, markedDisposed ref w).
Proof.
  intros Hid Hw Hd Hu. rewrite removeCursorFuel_unfold.
  rewrite (bind_normal _ _ _ _ _ (assertString_ok _ _ _)).
  rewrite (bind_normal _ _ _ _ _ (getCursor_ok _ _ _ Hid)).
  rewrite (bind_normal _ _ _ _ _ (widget_isDisposed_run _ _ _ Hw)).
  rewrite Hd. cbn [negb].
  apply bind_throw. now apply (disposeWidget_uncallable _ w ref wd).
Qed.

Lemma removeCursor_uncallable (w : World) (id : string)
  (ref : nat) (wd : RemoteCursorWidget.t) :
  RemoteCursorManager._cursorWidgets (cursorManager w) !! id = Some ref ->
  cursorWidgets w !! ref = Some wd ->
  RemoteCursorWidget._disposed wd = false ->
  uncallable wd ->
  Cursors.removeCursor id w = (Throw notAFunction, markedDisposed ref w).
Proof.
  intros Hid Hw Hd Hu.
  assert (Hlt : (ref < List.length (cursorWidgets w))%nat)
    by (eapply lookup_lt_Some; exact Hw).
  unfold Cursors.removeCursor.
  destruct (List.length (cursorWidgets w)) as [|fuel] eqn:Hlen; [lia|].
  now apply (removeCursorFuel_uncallable fuel w id ref wd).
Qed.

(** A widget that is disposed is never touched again by [removeCursor] and
    the [dispose] calls nested in it, whatever the callbacks are. *)
Lemma removeCursorFuel_keeps_disposed (fuel : nat) :
  forall (id : string) (w : World) (r : nat) (wd : RemoteCursorWidget.t),
  cursorWidgets w !! r = Some wd ->
  RemoteCursorWidget._disposed wd = true ->
  cursorWidgets (snd (Cursors.removeCursorFuel fuel id w)) !! r = Some wd.
Proof.
  induction fuel as [|fuel IH]; intros id w r wd Hr Hdr;
    rewrite removeCursorFuel_unfold;
    rewrite (bind_normal _ _ _ _ _ (assertString_ok _ _ _)).
  all: destruct (RemoteCursorManager._cursorWidgets (cursorManager w) !! id)
         as [ref|] eqn:Hid;
    [rewrite (bind_normal _ _ _ _ _ (getCursor_ok _ _ _ Hid))
    |unfold Cursors._getCursor, bind, gets; rewrite Hid; exact Hr].
  all: destruct (cursorWidgets w !! ref) as [wd'|] eqn:Hw;
    [rewrite (bind_normal _ _ _ _ _ (widget_isDisposed_run _ _ _ Hw))
    |unfold bind, onWidget; rewrite Hw; exact Hr].
  all: destruct (RemoteCursorWidget._disposed wd') eqn:Hd; cbn [negb];
    [exact Hr|].
  - exact Hr.
  - assert (Hne : ref <> r) by (intros ->; congruence).
    unfold bind at 1. unfold Cursors.disposeWidget.
    rewrite (bind_normal _ _ _ _ _ (widget_isDisposed_run _ _ _ Hw)).
    rewrite Hd.
    rewrite (bind_normal _ _ _ _ _ (widget_markDisposed_run _ _ _ Hw)).
    rewrite (markedDisposed_insert _ _ _ Hw).
    rewrite (bind_normal _ _ _ _ _
               (widget_onDisposed_run _ _ _ (markedDisposed_lookup _ _ _ Hw))).
    cbn [RemoteCursorWidget.markDisposed RemoteCursorWidget._onDisposed].
    assert (Hr1 : cursorWidgets (markedDisposed ref w) !! r = Some wd)
      by (rewrite markedDisposed_lookup_ne by exact Hne; exact Hr).
    unfold Cursors.callOnDisposed.
    destruct (RemoteCursorWidget._onDisposed wd') as [v|cb];
      cbn [isFunction].
    + destruct (String.eqb _ _); exact Hr1.
    + pose proof (IH (capturedId cb) (markedDisposed ref w) r wd Hr1 Hdr) as H.
      destruct (Cursors.removeCursorFuel fuel (capturedId cb)
                  (markedDisposed ref w)) as [[u|e] w2]; exact H.
Qed.

(** ** The fuel of the remove functions is enough *)

Lemma fuelled_bind {A B} (c : M World A) (k : A -> M World B) (w : World) :
  fuelled c w ->
  (forall a w1, c w = (Normal a, w1) -> fuelled (k a) w1) ->
  fuelled (bind c k) w.
Proof.
  unfold fuelled, bind. intros Hc Hk.
  destruct (c w) as [[a|e] w1]; cbn [fst] in *.
  - apply Hk. reflexivity.
  - intros [= ->]. now apply Hc.
Qed.

Lemma fuelled_onWidget {A} (ref : nat) (f : M RemoteCursorWidget.t A) (w : World) :
  (forall wd, fst (f wd) <> Throw OutOfFuel) ->
  fuelled (onWidget ref (fun _ => f)) w.
Proof.
  intros Hf. unfold fuelled, onWidget.
  destruct (cursorWidgets w !! ref) as [wd|]; [|discriminate].
  specialize (Hf wd). destruct (f wd); exact Hf.
Qed.

Lemma fuelled_onSelection {A} (ref : nat) (f : M RemoteSelection.t A) (w : World) :
  (forall x, fst (f x) <> Throw OutOfFuel) ->
  fuelled (onSelection ref (fun _ => f)) w.
Proof.
  intros Hf. unfold fuelled, onSelection.
  destruct (selections w !! ref) as [x|]; [|discriminate].
  specialize (Hf x). destruct (f x); exact Hf.
Qed.

Lemma liveWidgets_dispose (ws : list RemoteCursorWidget.t) :
  forall ref wd,
  ws !! ref = Some wd -> RemoteCursorWidget._disposed wd = false ->
  S (liveWidgets (<[ref := RemoteCursorWidget.markDisposed wd]> ws))
  = liveWidgets ws.
Proof.
  induction ws as [|w0 ws IH]; intros [|ref] wd Hl Hd; try discriminate.
  - injection Hl as ->. cbn. now rewrite Hd.
  - cbn in Hl. pose proof (IH ref wd Hl Hd) as H.
    change (<[S ref := RemoteCursorWidget.markDisposed wd]> (w0 :: ws))
      with (w0 :: <[ref := RemoteCursorWidget.markDisposed wd]> ws).
    cbn [liveWidgets].
    destruct (RemoteCursorWidget._disposed w0); lia.
Qed.

Lemma liveSelections_dispose (xs : list RemoteSelection.t) :
  forall ref x,
  xs !! ref = Some x -> RemoteSelection._disposed x = false ->
  S (liveSelections (<[ref := RemoteSelection.markDisposed x]> xs))
  = liveSelections xs.
Proof.
  induction xs as [|x0 xs IH]; intros [|ref] x Hl Hd; try discriminate.
  - injection Hl as ->. cbn. now rewrite Hd.
  - cbn in Hl. pose proof (IH ref x Hl Hd) as H.
    change (<[S ref := RemoteSelection.markDisposed x]> (x0 :: xs))
      with (x0 :: <[ref := RemoteSelection.markDisposed x]> xs).
    cbn [liveSelections].
    destruct (RemoteSelection._disposed x0); lia.
Qed.

Lemma liveWidgets_le_length (ws : list RemoteCursorWidget.t) :
  (liveWidgets ws <= List.length ws)%nat.
Proof.
  induction ws as [|wd ws IH]; cbn; [lia|].
  destruct (RemoteCursorWidget._disposed wd); lia.
Qed.

Lemma liveSelections_le_length (xs : list RemoteSelection.t) :
  (liveSelections xs <= List.length xs)%nat.
Proof.
  induction xs as [|x xs IH]; cbn; [lia|].
  destruct (RemoteSelection._disposed x); lia.
Qed.

(** With one unit of fuel per live widget, [removeCursor] and the
    [dispose] calls nested in it never stop for want of fuel. *)
Lemma removeCursorFuel_fuelled (fuel : nat) :
  forall id w,
  (liveWidgets (cursorWidgets w) <= fuel)%nat ->
  fuelled (Cursors.removeCursorFuel fuel id) w.
Proof.
  induction fuel as [|fuel IH]; intros id w Hfuel;
    rewrite removeCursorFuel_unfold.
  all: apply fuelled_bind; [discriminate|]; intros u wa [= _ <-].
  all: apply fuelled_bind;
    [unfold fuelled, Cursors._getCursor, bind, gets;
     destruct (_ !! id); discriminate|].
  all: intros ref wb Hg;
    assert (wb = w) as ->
      by (unfold Cursors._getCursor, bind, gets in Hg;
          destruct (_ !! id); inversion Hg; reflexivity); clear Hg.
  all: apply fuelled_bind; [apply fuelled_onWidget; discriminate|].
  all: intros d wc Hd; unfold onWidget in Hd;
    destruct (cursorWidgets w !! ref) as [wd|] eqn:Hw; [|discriminate];
    cbn in Hd; injection Hd as <- <-;
    rewrite (set_cursorWidgets_same _ _ _ Hw).
  all: destruct (RemoteCursorWidget._disposed wd) eqn:Hdis; cbn [negb];
    [apply fuelled_bind; [discriminate | intros; discriminate]|].
  - pose proof (liveWidgets_dispose _ _ _ Hw Hdis). lia.
  - apply fuelled_bind; [|intros; discriminate].
    unfold Cursors.disposeWidget.
    apply fuelled_bind; [apply fuelled_onWidget; discriminate|].
    intros d0 w0. rewrite (widget_isDisposed_run _ _ _ Hw). intros [= <- <-].
    rewrite Hdis.
    apply fuelled_bind; [apply fuelled_onWidget; discriminate|].
    intros u1 w1. rewrite (widget_markDisposed_run _ _ _ Hw). intros [= _ <-].
    apply fuelled_bind; [apply fuelled_onWidget; discriminate|].
    intros cb w2 Hcb.
    assert (Hw1 : cursorWidgets
                    (set_cursorWidgets
                       (<[ref := RemoteCursorWidget.markDisposed wd]> (cursorWidgets w)) w)
                    !! ref = Some (RemoteCursorWidget.markDisposed wd))
      by (apply list_lookup_insert_eq; eapply lookup_lt_Some; exact Hw).
    rewrite (widget_onDisposed_run _ _ _ Hw1) in Hcb.
    injection Hcb as <- <-.
    cbn [RemoteCursorWidget.markDisposed RemoteCursorWidget._onDisposed].
    unfold Cursors.callOnDisposed.
    destruct (RemoteCursorWidget._onDisposed wd) as [v|callback];
      cbn [isFunction]; [destruct (String.eqb _ _); discriminate|].
    apply IH. cbn [cursorWidgets set_cursorWidgets].
    pose proof (liveWidgets_dispose _ _ _ Hw Hdis). lia.
Qed.

Lemma removeCursor_fuelled (id : string) (w : World) :
  fuelled (Cursors.removeCursor id) w.
Proof.
  unfold fuelled, Cursors.removeCursor.
  apply removeCursorFuel_fuelled, liveWidgets_le_length.
Qed.

Lemma removeSelectionFuel_unfold (fuel : nat) (id : string) :
  Selections.removeSelectionFuel fuel id =
  (let* remoteSelection := Selections._getSelection id in
   let* disposed := onSelection remoteSelection
                      (fun _ => RemoteSelection.isDisposed) in
   if negb disposed then
     match fuel with
     | O => throw OutOfFuel
     | S fuel' =>
         Selections.disposeSelection
           (fun cb => Selections.removeSelectionFuel fuel' (capturedId cb))
           remoteSelection
     end
   else ret tt)%js.
Proof. destruct fuel; reflexivity. Qed.

Lemma selection_isDisposed_run (w : World) (ref : nat) (x : RemoteSelection.t) :
  selections w !! ref = Some x ->
  onSelection ref (fun _ => RemoteSelection.isDisposed) w
  = (Normal (RemoteSelection._disposed x), w).
Proof.
  intros H. rewrite (onSelection_run _ _ _ _ H).
  cbn [fst snd RemoteSelection.isDisposed gets].
  now rewrite set_selections_same.
Qed.

Lemma selection_markDisposed_run (w : World) (ref : nat) (x : RemoteSelection.t) :
  selections w !! ref = Some x ->
  onSelection ref (fun _ => modify RemoteSelection.markDisposed) w
  = (Normal tt,
     set_selections
       (<[ref := RemoteSelection.markDisposed x]> (selections w)) w).
Proof. intros H. now rewrite (onSelection_run _ _ _ _ H). Qed.

Lemma selection_onDisposed_run (w : World) (ref : nat) (x : RemoteSelection.t) :
  selections w !! ref = Some x ->
  onSelection ref (fun _ => gets RemoteSelection._onDisposed) w
  = (Normal (RemoteSelection._onDisposed x), w).
Proof.
  intros H. rewrite (onSelection_run _ _ _ _ H). cbn [fst snd gets].
  now rewrite set_selections_same.
Qed.

(** The same for [removeSelection]. *)
Lemma removeSelectionFuel_fuelled (fuel : nat) :
  forall id w,
  (liveSelections (selections w) <= fuel)%nat ->
  fuelled (Selections.removeSelectionFuel fuel id) w.
Proof.
  induction fuel as [|fuel IH]; intros id w Hfuel;
    rewrite removeSelectionFuel_unfold.
  all: apply fuelled_bind;
    [unfold fuelled, Selections._getSelection, bind, gets;
     destruct (_ !! id); discriminate|].
  all: intros ref wb Hg;
    assert (wb = w) as ->
      by (unfold Selections._getSelection, bind, gets in Hg;
          destruct (_ !! id); inversion Hg; reflexivity); clear Hg.
  all: apply fuelled_bind; [apply fuelled_onSelection; discriminate|].
  all: intros d wc Hd; unfold onSelection in Hd;
    destruct (selections w !! ref) as [x|] eqn:Hx; [|discriminate];
    cbn in Hd; injection Hd as <- <-;
    rewrite (set_selections_same _ _ _ Hx).
  all: destruct (RemoteSelection._disposed x) eqn:Hdis; cbn [negb];
    [discriminate|].
  - pose proof (liveSelections_dispose _ _ _ Hx Hdis). lia.
  - unfold Selections.disposeSelection.
    apply fuelled_bind; [apply fuelled_onSelection; discriminate|].
    intros d0 w0. rewrite (selection_isDisposed_run _ _ _ Hx). intros [= <- <-].
    rewrite Hdis. cbn [negb].
    apply fuelled_bind; [apply fuelled_onSelection; discriminate|].
    intros u1 w1. rewrite (selection_markDisposed_run _ _ _ Hx). intros [= _ <-].
    apply fuelled_bind; [apply fuelled_onSelection; discriminate|].
    intros cb w2 Hcb.
    assert (Hx1 : selections
                    (set_selections
                       (<[ref := RemoteSelection.markDisposed x]> (selections w)) w)
                    !! ref = Some (RemoteSelection.markDisposed x))
      by (apply list_lookup_insert_eq; eapply lookup_lt_Some; exact Hx).
    rewrite (selection_onDisposed_run _ _ _ Hx1) in Hcb.
    injection Hcb as <- <-.
    apply IH. cbn [selections set_selections].
    pose proof (liveSelections_dispose _ _ _ Hx Hdis). lia.
Qed.

Lemma removeSelection_fuelled (id : string) (w : World) :
  fuelled (Selections.removeSelection id) w.
Proof.
  unfold fuelled, Selections.removeSelection.
  apply removeSelectionFuel_fuelled, liveSelections_le_length.
Qed.

(** The handles' [dispose] has fuel enough as well. *)
Lemma cursor_dispose_fuelled (ref : nat) (w : World) :
  fuelled (Cursors.dispose ref) w.
Proof.
  unfold fuelled, Cursors.dispose.
  change (fuelled (Cursors.disposeWidget
                     (fun cb => Cursors.removeCursorFuel
                                  (List.length (cursorWidgets w)) (capturedId cb))
                     ref) w).
  unfold Cursors.disposeWidget.
  apply fuelled_bind; [apply fuelled_onWidget; discriminate|].
  intros d wc Hd. unfold onWidget in Hd.
  destruct (cursorWidgets w !! ref) as [wd|] eqn:Hw; [|discriminate].
  cbn in Hd. injection Hd as <- <-.
  rewrite (set_cursorWidgets_same _ _ _ Hw).
  destruct (RemoteCursorWidget._disposed wd) eqn:Hdis; [discriminate|].
  apply fuelled_bind; [apply fuelled_onWidget; discriminate|].
  intros u1 w1. rewrite (widget_markDisposed_run _ _ _ Hw). intros [= _ <-].
  apply fuelled_bind; [apply fuelled_onWidget; discriminate|].
  intros cb w2 Hcb.
  assert (Hw1 : cursorWidgets
                  (set_cursorWidgets
                     (<[ref := RemoteCursorWidget.markDisposed wd]> (cursorWidgets w)) w)
                  !! ref = Some (RemoteCursorWidget.markDisposed wd))
    by (apply list_lookup_insert_eq; eapply lookup_lt_Some; exact Hw).
  rewrite (widget_onDisposed_run _ _ _ Hw1) in Hcb.
  injection Hcb as <- <-.
  cbn [RemoteCursorWidget.markDisposed RemoteCursorWidget._onDisposed].
  unfold Cursors.callOnDisposed.
  destruct (RemoteCursorWidget._onDisposed wd) as [v|callback];
    cbn [isFunction]; [destruct (String.eqb _ _); discriminate|].
  apply removeCursorFuel_fuelled. cbn [cursorWidgets set_cursorWidgets].
  pose proof (liveWidgets_le_length
                (<[ref := RemoteCursorWidget.markDisposed wd]> (cursorWidgets w))) as H.
  rewrite length_insert in H. exact H.
Qed.

Lemma selection_dispose_fuelled (ref : nat) (w : World) :
  fuelled (Selections.dispose ref) w.
Proof.
  unfold fuelled, Selections.dispose.
  change (fuelled (Selections.disposeSelection
                     (fun cb => Selections.removeSelectionFuel
                                  (List.length (selections w)) (capturedId cb))
                     ref) w).
  unfold Selections.disposeSelection.
  apply fuelled_bind; [apply fuelled_onSelection; discriminate|].
  intros d wc Hd. unfold onSelection in Hd.
  destruct (selections w !! ref) as [x|] eqn:Hx; [|discriminate].
  cbn in Hd. injection Hd as <- <-.
  rewrite (set_selections_same _ _ _ Hx).
  destruct (RemoteSelection._disposed x) eqn:Hdis; cbn [negb]; [discriminate|].
  apply fuelled_bind; [apply fuelled_onSelection; discriminate|].
  intros u1 w1. rewrite (selection_markDisposed_run _ _ _ Hx). intros [= _ <-].
  apply fuelled_bind; [apply fuelled_onSelection; discriminate|].
  intros cb w2 Hcb.
  assert (Hx1 : selections
                  (set_selections
                     (<[ref := RemoteSelection.markDisposed x]> (selections w)) w)
                  !! ref = Some (RemoteSelection.markDisposed x))
    by (apply list_lookup_insert_eq; eapply lookup_lt_Some; exact Hx).
  rewrite (selection_onDisposed_run _ _ _ Hx1) in Hcb.
  injection Hcb as <- <-.
  apply removeSelectionFuel_fuelled. cbn [selections set_selections].
  pose proof (liveSelections_le_length
                (<[ref := RemoteSelection.markDisposed x]> (selections w))) as H.
  rewrite length_insert in H. exact H.
Qed.

(** * Further properties of the code *)

(** ** Unknown ids *)

Lemma getCursor_unknown (w : World) (id : string) :
  RemoteCursorManager._cursorWidgets (cursorManager w) !! id = None ->
  Cursors._getCursor id w = (Throw (Err ("No such cursor: " +:+ id)), w).
Proof.
  intros H. unfold Cursors._getCursor, bind, gets. now rewrite H.
Qed.

(** X1. Every method of the cursor manager that takes the id of a cursor
    fails on an id that is not registered, with the error "No such cursor: "
    followed by the id, and changes nothing. *)
Theorem X1_unknown_cursor_id_fails (w : World) (id : string) :
  RemoteCursorManager._cursorWidgets (cursorManager w) !! id = None ->
  let failure := (Throw (Err ("No such cursor: " +:+ id)), w) in
  Cursors.removeCursor id w = failure /\
  (forall position, Cursors.setCursorPosition id position w = failure) /\
  (forall offset, Cursors.setCursorOffset id offset w = failure) /\
  Cursors.showCursor id w = failure /\
  Cursors.hideCursor id w = failure.
Proof.
  intros H failure. subst failure.
  pose proof (getCursor_unknown w id H) as Hg.
  split; [|split; [|split; [|split]]].
  - unfold Cursors.removeCursor. rewrite removeCursorFuel_unfold.
    rewrite (bind_normal _ _ _ _ _ (assertString_ok _ _ _)).
    apply bind_throw. exact Hg.
  - intros position. unfold Cursors.setCursorPosition.
    rewrite (bind_normal _ _ _ _ _ (assertString_ok _ _ _)).
    apply bind_throw. exact Hg.
  - intros offset. unfold Cursors.setCursorOffset.
    rewrite (bind_normal _ _ _ _ _ (assertString_ok _ _ _)).
    apply bind_throw. exact Hg.
  - unfold Cursors.showCursor.
    rewrite (bind_normal _ _ _ _ _ (assertString_ok _ _ _)).
    apply bind_throw. exact Hg.
  - unfold Cursors.hideCursor.
    rewrite (bind_normal _ _ _ _ _ (assertString_ok _ _ _)).
    apply bind_throw. exact Hg.
Qed.

Lemma X1_nobody_on_oneCursor :
  Cursors.removeCursor "nobody" oneCursor
    = (Throw (Err "No such cursor: nobody"), oneCursor) /\
  Cursors.setCursorOffset "nobody" 3 oneCursor
    = (Throw (Err "No such cursor: nobody"), oneCursor).
Proof.
  destruct (X1_unknown_cursor_id_fails oneCursor "nobody") as (H1 & _ & H3 & _).
  - vm_compute. reflexivity.
  - split; [exact H1 | exact (H3 3)].
Defined.

Lemma getSelection_unknown (w : World) (id : string) :
  RemoteSelectionManager._remoteSelections (selectionManager w) !! id = None ->
  Selections._getSelection id w
  = (Throw (Err ("No such selection: " +:+ id)), w).
Proof.
  intros H. unfold Selections._getSelection, bind, gets. now rewrite H.
Qed.

(** X2. Every method of the selection manager that takes the id of a
    selection fails on an id that is not registered, with the error
    "No such selection: " followed by the id, and changes nothing. *)
Theorem X2_unknown_selection_id_fails (w : World) (id : string) :
  RemoteSelectionManager._remoteSelections (selectionManager w) !! id = None ->
  let failure := (Throw (Err ("No such selection: " +:+ id)), w) in
  Selections.removeSelection id w = failure /\
  (forall a b, Selections.setSelectionOffsets id a b w = failure) /\
  (forall a b, Selections.setSelectionPositions id a b w = failure) /\
  Selections.showSelection id w = failure /\
  Selections.hideSelection id w = failure.
Proof.
  intros H failure. subst failure.
  pose proof (getSelection_unknown w id H) as Hg.
  split; [|split; [|split; [|split]]].
  - unfold Selections.removeSelection. rewrite removeSelectionFuel_unfold.
    apply bind_throw. exact Hg.
  - intros a b. apply bind_throw. exact Hg.
  - intros a b. apply bind_throw. exact Hg.
  - apply bind_throw. exact Hg.
  - apply bind_throw. exact Hg.
Qed.

Lemma X2_nobody_on_oneSelection :
  Selections.removeSelection "nobody" oneSelection
    = (Throw (Err "No such selection: nobody"), oneSelection) /\
  Selections.showSelection "nobody" oneSelection
    = (Throw (Err "No such selection: nobody"), oneSelection).
Proof.
  destruct (X2_unknown_selection_id_fails oneSelection "nobody")
    as (H1 & _ & _ & H4 & _).
  - vm_compute. reflexivity.
  - split; [exact H1 | exact H4].
Defined.

(** ** Adding, removing and disposing cursors *)

(** [addCursor] always returns: the new widget is appended, the counter
    moves on, the id is mapped to the new widget. *)
Lemma addCursor_run (w : World) (id color : string) (label : option string) :
  Cursors.addCursor id color label w =
  (Normal (List.length (cursorWidgets w)),
   let mgr := cursorManager w in
   let options := RemoteCursorManager._options mgr in
   mkWorld (model w) (contentManagers w)
     (cursorWidgets w ++
      [RemoteCursorWidget.new_
         (Cursors.numberToString (RemoteCursorManager._nextWidgetId mgr))
         (Plain (Str color))
         (Plain (Cursors.labelValue label))
         (Plain (Boolean (RemoteCursorManager.tooltips options)))
         (Plain (Number (RemoteCursorManager.tooltipDuration options * 1000)))
         (Closure (removeOnDisposed id))
         (Plain Undefined) (Plain Undefined) (Plain Undefined)])
     (selections w)
     (RemoteCursorManager.mk options
        (S (RemoteCursorManager._nextWidgetId mgr))
        (<[id := List.length (cursorWidgets w)]>
           (RemoteCursorManager._cursorWidgets mgr)))
     (selectionManager w) (log w)).
Proof.
  unfold Cursors.addCursor, Validation.assertString, bind, gets, ret.
  cbn [typeof String.eqb Ascii.eqb Bool.eqb negb andb].
  rewrite andb_false_r. reflexivity.
Qed.

(** [removeCursor] of an id whose widget is already disposed, as one
    step. *)
Lemma removeCursor_disposed (w : World) (id : string) (ref : nat)
  (wd : RemoteCursorWidget.t) :
  RemoteCursorManager._cursorWidgets (cursorManager w) !! id = Some ref ->
  cursorWidgets w !! ref = Some wd ->
  RemoteCursorWidget._disposed wd = true ->
  Cursors.removeCursor id w
  = (Normal tt, snd (Cursors.setRegistry (base.delete id) w)).
Proof.
  intros Hid Hw Hd. unfold Cursors.removeCursor.
  now apply (removeCursorFuel_disposed _ w id ref wd).
Qed.

(** After its [dispose], whatever [_onDisposed] was and did, the widget is
    the one that [dispose] marked. *)
Lemma dispose_marks (w : World) (ref : nat) (wd : RemoteCursorWidget.t) :
  cursorWidgets w !! ref = Some wd ->
  RemoteCursorWidget._disposed wd = false ->
  cursorWidgets (snd (Cursors.dispose ref w)) !! ref
  = Some (RemoteCursorWidget.markDisposed wd).
Proof.
  intros Hw Hd. unfold Cursors.dispose, Cursors.disposeWidget.
  rewrite (bind_normal _ _ _ _ _ (widget_isDisposed_run _ _ _ Hw)).
  rewrite Hd.
  rewrite (bind_normal _ _ _ _ _ (widget_markDisposed_run _ _ _ Hw)).
  rewrite (markedDisposed_insert _ _ _ Hw).
  pose proof (markedDisposed_lookup _ _ _ Hw) as Hw1.
  rewrite (bind_normal _ _ _ _ _ (widget_onDisposed_run _ _ _ Hw1)).
  cbn [RemoteCursorWidget.markDisposed RemoteCursorWidget._onDisposed].
  unfold Cursors.callOnDisposed.
  destruct (RemoteCursorWidget._onDisposed wd) as [v|callback];
    cbn [isFunction].
  - destruct (String.eqb _ _); exact Hw1.
  - now apply removeCursorFuel_keeps_disposed.
Qed.

(** X3. [removeCursor] of a cursor that [addCursor] has just added ends in
    a [TypeError].  The widget is disposed: detached from the editor,
    unsubscribed and marked.  Its [_onDisposed] is [undefined], so the call
    of it throws and the [delete] after [dispose] is not reached: the id
    stays registered, with the disposed widget.  The widgets from before
    are left alone. *)
Theorem X3_removeCursor_after_addCursor_throws (w : World) (id color : string)
  (label : option string) :
  let n := List.length (cursorWidgets w) in
  let run := (Cursors.addCursor id color label >> Cursors.removeCursor id)%js w in
  fst run = Throw notAFunction /\
  RemoteCursorManager._cursorWidgets (cursorManager (snd run)) !! id = Some n /\
  (exists wd,
     cursorWidgets (snd run) !! n = Some wd /\
     RemoteCursorWidget._disposed wd = true /\
     RemoteCursorWidget._attached wd = false /\
     EditorContentManager._subscribed (RemoteCursorWidget._contentManager wd)
       = false) /\
  (forall r, (r < n)%nat ->
             cursorWidgets (snd run) !! r = cursorWidgets w !! r).
Proof.
  intros n run. subst run.
  rewrite (bind_normal _ _ _ _ _ (addCursor_run w id color label)).
  cbv zeta. fold n.
  set (new := RemoteCursorWidget.new_ _ _ _ _ _ _ _ _ _).
  set (w1 := mkWorld _ _ _ _ _ _ _).
  assert (Hid1 : RemoteCursorManager._cursorWidgets (cursorManager w1) !! id
                 = Some n) by apply lookup_insert_eq.
  assert (Hw1 : cursorWidgets w1 !! n = Some new)
    by (apply list_lookup_middle; reflexivity).
  rewrite (removeCursor_uncallable w1 id n new Hid1 Hw1 eq_refl eq_refl).
  cbn [fst snd].
  split; [reflexivity|]. split; [exact Hid1|]. split.
  - exists (RemoteCursorWidget.markDisposed new).
    split; [apply markedDisposed_lookup; exact Hw1|].
    repeat split.
  - intros r Hr.
    rewrite markedDisposed_lookup_ne by lia.
    apply lookup_app_l. exact Hr.
Qed.

(** X4. [removeCursor] of a registered cursor that is not disposed yet
    (built by [addCursor], so that its [_onDisposed] is not a function)
    throws the [TypeError] of [dispose] and keeps the entry; the widget is
    disposed all the same.  A second [removeCursor] of the id finds the
    widget disposed, returns and deletes the entry.  A third one fails with
    "No such cursor: " and the id. *)
Theorem X4_removeCursor_throws_then_deletes (w : World) (id : string)
  (ref : nat) (wd : RemoteCursorWidget.t) :
  RemoteCursorManager._cursorWidgets (cursorManager w) !! id = Some ref ->
  cursorWidgets w !! ref = Some wd ->
  RemoteCursorWidget._disposed wd = false ->
  uncallable wd ->
  let w1 := snd (Cursors.removeCursor id w) in
  let w2 := snd (Cursors.removeCursor id w1) in
  fst (Cursors.removeCursor id w) = Throw notAFunction /\
  cursorManager w1 = cursorManager w /\
  cursorWidgets w1 !! ref = Some (RemoteCursorWidget.markDisposed wd) /\
  fst (Cursors.removeCursor id w1) = Normal tt /\
  RemoteCursorManager._cursorWidgets (cursorManager w2)
    = base.delete id (RemoteCursorManager._cursorWidgets (cursorManager w)) /\
  cursorWidgets w2 = cursorWidgets w1 /\
  Cursors.removeCursor id w2 = (Throw (Err ("No such cursor: " +:+ id)), w2).
Proof.
  intros Hid Hw Hd Hu w1 w2. subst w2 w1.
  rewrite (removeCursor_uncallable w id ref wd Hid Hw Hd Hu).
  cbn [fst snd].
  pose proof (markedDisposed_lookup _ _ _ Hw) as Hw1.
  assert (Hid1 : RemoteCursorManager._cursorWidgets
                   (cursorManager (markedDisposed ref w)) !! id = Some ref)
    by exact Hid.
  rewrite (removeCursor_disposed _ id ref _ Hid1 Hw1 eq_refl).
  cbn [fst snd Cursors.setRegistry modify].
  split; [reflexivity|]. split; [reflexivity|]. split; [exact Hw1|].
  split; [reflexivity|]. split; [reflexivity|]. split; [reflexivity|].
  set (w2 := set_cursorManager _ _).
  assert (Hnone : RemoteCursorManager._cursorWidgets (cursorManager w2) !! id
                  = None) by apply lookup_delete_eq.
  unfold Cursors.removeCursor. rewrite removeCursorFuel_unfold.
  rewrite (bind_normal _ _ _ _ _ (assertString_ok _ _ _)).
  apply bind_throw, getCursor_unknown, Hnone.
Qed.

Lemma oneCursor_widget :
  exists wd, cursorWidgets oneCursor !! 0%nat = Some wd /\
             RemoteCursorWidget._disposed wd = false /\ uncallable wd.
Proof.
  vm_compute. eexists. split; [reflexivity|]. split; reflexivity.
Qed.

Lemma X4_on_oneCursor :
  fst (Cursors.removeCursor "jDoe" oneCursor) = Throw notAFunction /\
  fst (Cursors.removeCursor "jDoe" (snd (Cursors.removeCursor "jDoe" oneCursor)))
    = Normal tt.
Proof.
  destruct oneCursor_widget as (wd & Hw & Hd & Hu).
  destruct (X4_removeCursor_throws_then_deletes oneCursor "jDoe" 0 wd)
    as (H1 & _ & _ & H4 & _);
    [vm_compute; reflexivity | exact Hw | exact Hd | exact Hu |].
  split; [exact H1 | exact H4].
Defined.

(** X5. [dispose] of the handle of a cursor that is not disposed yet (built
    by [addCursor]) disposes the widget and then throws a [TypeError]: the
    widget is detached, unsubscribed and marked, the manager is left as it
    was, and [removeCursor] of an id registered for the widget ends in the
    same way.  A second [dispose] returns and changes nothing. *)
Theorem X5_dispose_throws_after_disposing (w : World) (ref : nat)
  (wd : RemoteCursorWidget.t) :
  cursorWidgets w !! ref = Some wd ->
  RemoteCursorWidget._disposed wd = false ->
  uncallable wd ->
  let w1 := snd (Cursors.dispose ref w) in
  fst (Cursors.dispose ref w) = Throw notAFunction /\
  cursorWidgets w1 !! ref = Some (RemoteCursorWidget.markDisposed wd) /\
  (forall r, r <> ref -> cursorWidgets w1 !! r = cursorWidgets w !! r) /\
  cursorManager w1 = cursorManager w /\
  Cursors.dispose ref w1 = (Normal tt, w1) /\
  (forall id,
     RemoteCursorManager._cursorWidgets (cursorManager w) !! id = Some ref ->
     Cursors.removeCursor id w = Cursors.dispose ref w).
Proof.
  intros Hw Hd Hu w1. subst w1.
  assert (Hrun : Cursors.dispose ref w = (Throw notAFunction, markedDisposed ref w))
    by (unfold Cursors.dispose;
        apply (disposeWidget_uncallable _ w ref wd Hw Hd Hu)).
  rewrite Hrun. cbn [fst snd].
  pose proof (markedDisposed_lookup _ _ _ Hw) as Hw1.
  split; [reflexivity|]. split; [exact Hw1|]. split.
  { intros r Hr. apply markedDisposed_lookup_ne. congruence. }
  split; [reflexivity|]. split.
  - unfold Cursors.dispose, Cursors.disposeWidget.
    rewrite (bind_normal _ _ _ _ _ (widget_isDisposed_run _ _ _ Hw1)).
    reflexivity.
  - intros id Hid.
    apply (removeCursor_uncallable w id ref wd Hid Hw Hd Hu).
Qed.

Lemma X5_on_oneCursor :
  fst (Cursors.dispose 0 oneCursor) = Throw notAFunction /\
  Cursors.removeCursor "jDoe" oneCursor = Cursors.dispose 0 oneCursor.
Proof.
  destruct oneCursor_widget as (wd & Hw & Hd & Hu).
  destruct (X5_dispose_throws_after_disposing oneCursor 0 wd Hw Hd Hu)
    as (H1 & _ & _ & _ & _ & H6).
  split; [exact H1|]. apply H6. vm_compute. reflexivity.
Defined.

(** X6. [addCursor] of an id that is already registered overwrites the
    entry and does not dispose the earlier widget.  From then on the
    manager reaches only the later widget: the two [removeCursor] calls
    that it takes to dispose that one and to delete the entry leave the
    earlier widget in the editor, attached, subscribed and not disposed,
    with no id that would lead to it. *)
Theorem X6_overwritten_cursor_stays_live (w : World)
  (id color1 color2 : string) (label1 label2 : option string) :
  let n := List.length (cursorWidgets w) in
  let w2 := snd ((Cursors.addCursor id color1 label1 >>
                  Cursors.addCursor id color2 label2)%js w) in
  let w3 := snd (Cursors.removeCursor id w2) in
  let w4 := snd (Cursors.removeCursor id w3) in
  RemoteCursorManager._cursorWidgets (cursorManager w2) !! id = Some (S n) /\
  fst (Cursors.removeCursor id w2) = Throw notAFunction /\
  fst (Cursors.removeCursor id w3) = Normal tt /\
  RemoteCursorManager._cursorWidgets (cursorManager w4) !! id = None /\
  (RemoteCursorWidget._disposed <$> cursorWidgets w4 !! S n) = Some true /\
  (exists wd,
     cursorWidgets w4 !! n = Some wd /\
     RemoteCursorWidget._disposed wd = false /\
     RemoteCursorWidget._attached wd = true /\
     listening wd).
Proof.
  intros n w2 w3 w4. subst w4 w3 w2.
  rewrite (bind_normal _ _ _ _ _ (addCursor_run w id color1 label1)).
  cbv zeta. fold n.
  set (first := RemoteCursorWidget.new_ _ _ _ _ _ _ _ _ _).
  set (w1 := mkWorld _ _ _ _ _ _ _).
  rewrite (addCursor_run w1 id color2 label2).
  cbv zeta. cbn [snd].
  set (second := RemoteCursorWidget.new_ _ _ _ _ _ _ _ _ _).
  set (w2 := mkWorld _ _ _ _ _ _ _).
  assert (Hlen1 : List.length (cursorWidgets w1) = S n)
    by (subst w1; cbn [cursorWidgets]; rewrite length_app; cbn; lia).
  assert (Hid2 : RemoteCursorManager._cursorWidgets (cursorManager w2) !! id
                 = Some (S n))
    by (subst w2; cbn [cursorManager RemoteCursorManager._cursorWidgets];
        rewrite Hlen1; apply lookup_insert_eq).
  assert (Hsecond : cursorWidgets w2 !! S n = Some second)
    by (subst w2; cbn [cursorWidgets];
        apply list_lookup_middle; symmetry; exact Hlen1).
  assert (Hfirst : cursorWidgets w2 !! n = Some first).
  { subst w2. cbn [cursorWidgets].
    rewrite lookup_app_l by (rewrite Hlen1; lia).
    subst w1. cbn [cursorWidgets]. apply list_lookup_middle. reflexivity. }
  rewrite (removeCursor_uncallable w2 id (S n) second Hid2 Hsecond eq_refl
             eq_refl).
  cbn [fst snd].
  pose proof (markedDisposed_lookup _ _ _ Hsecond) as Hsecond3.
  assert (Hid3 : RemoteCursorManager._cursorWidgets
                   (cursorManager (markedDisposed (S n) w2)) !! id = Some (S n))
    by exact Hid2.
  rewrite (removeCursor_disposed _ id (S n) _ Hid3 Hsecond3 eq_refl).
  cbn [fst snd Cursors.setRegistry modify].
  split; [exact Hid2|]. split; [reflexivity|]. split; [reflexivity|].
  split; [apply lookup_delete_eq|].
  cbn [cursorWidgets set_cursorManager].
  split; [now rewrite Hsecond3|].
  exists first. split.
  - rewrite markedDisposed_lookup_ne by lia. exact Hfirst.
  - repeat split.
Qed.

(** ** Edits and the objects that do not listen *)

Lemma notifyWidget_unsubscribed (m : string) (cs : list IModelContentChange)
  (wd : RemoteCursorWidget.t) :
  EditorContentManager._subscribed (RemoteCursorWidget._contentManager wd) = false ->
  Editor.notifyWidget m cs wd = (wd, []).
Proof.
  intros H. unfold Editor.notifyWidget, RemoteCursorWidget.contentChanged,
    bind, get. now rewrite H.
Qed.

(** An edit call changes the buffer, the suppress flag of the caller, the
    cursor widgets (each through its own listener) and the log, nothing
    else. *)
Lemma runEdit_frame (w : World) (ref : nat) (c : EditCall) :
  exists change,
    let w' := snd (runEdit ref c w) in
    model w' = applyChange (model w) change /\
    cursorWidgets w' =
      map (fun wd => fst (Editor.notifyWidget (model w') [change] wd))
          (cursorWidgets w) /\
    contentManagers w' =
      alter (EditorContentManager.set_suppress false) ref
        (alter (EditorContentManager.set_suppress true) ref (contentManagers w)) /\
    selections w' = selections w /\
    cursorManager w' = cursorManager w /\
    selectionManager w' = selectionManager w.
Proof.
  rewrite runEdit_as_replace.
  destruct (replace_run w ref (editIndex c) (editLength c) (editText c))
    as (change & -> & _).
  exists change. cbn. rewrite map_map. repeat split.
Qed.

(** X7. A cursor that has been disposed no longer follows the buffer: its
    content manager is unsubscribed, so whatever edit is made afterwards,
    the widget with its stored position and offset stays as [dispose] left
    it.  This holds whether [dispose] returned or threw. *)
Theorem X7_disposed_cursor_ignores_edits (w : World) (ref : nat)
  (wd : RemoteCursorWidget.t) (manager : nat) (c : EditCall) :
  cursorWidgets w !! ref = Some wd ->
  RemoteCursorWidget._disposed wd = false ->
  let w1 := snd (Cursors.dispose ref w) in
  cursorWidgets (snd (runEdit manager c w1)) !! ref
  = Some (RemoteCursorWidget.markDisposed wd).
Proof.
  intros Hw Hd w1.
  assert (Hw1 : cursorWidgets w1 !! ref = Some (RemoteCursorWidget.markDisposed wd))
    by (apply dispose_marks; assumption).
  destruct (runEdit_frame w1 manager c) as (change & _ & Hws & _).
  cbv zeta in Hws. rewrite Hws, lookup_map, Hw1.
  cbn [fmap option_fmap option_map].
  now rewrite notifyWidget_unsubscribed.
Qed.

Lemma X7_on_oneCursor :
  cursorWidgets
    (snd (runEdit 0 (CallInsert 0 "abc") (snd (Cursors.dispose 0 oneCursor))))
    !! 0%nat
  = cursorWidgets (snd (Cursors.dispose 0 oneCursor)) !! 0%nat.
Proof.
  destruct oneCursor_widget as (wd & Hw & Hd & _).
  rewrite (X7_disposed_cursor_ignores_edits oneCursor 0 wd 0
             (CallInsert 0 "abc") Hw Hd).
  assert (Hm : cursorWidgets (snd (Cursors.dispose 0 oneCursor)) !! 0%nat
               = (RemoteCursorWidget.markDisposed <$> cursorWidgets oneCursor !! 0%nat))
    by (vm_compute; reflexivity).
  rewrite Hm, Hw. reflexivity.
Defined.

(** X15. No edit call touches what a selection stores: the start and end
    position and the disposed flag of every [RemoteSelection], and the two
    registries, are the same before and after.  (Unlike a cursor widget, a
    selection has no content manager that would re-anchor it.) *)
Theorem X15_edits_leave_selections_alone (w : World) (ref : nat) (c : EditCall) :
  let w' := snd (runEdit ref c w) in
  map RemoteSelection._startPosition (selections w')
    = map RemoteSelection._startPosition (selections w) /\
  map RemoteSelection._endPosition (selections w')
    = map RemoteSelection._endPosition (selections w) /\
  map RemoteSelection._disposed (selections w')
    = map RemoteSelection._disposed (selections w) /\
  selectionManager w' = selectionManager w /\
  cursorManager w' = cursorManager w.
Proof.
  destruct (runEdit_frame w ref c) as (change & _ & _ & _ & Hs & Hc & Hm).
  cbv zeta in *. rewrite Hs. repeat split; assumption.
Qed.

(** X8. A cursor that has not been positioned is left exactly as it is by
    every content-changed event whose offsets are not negative: its stored
    offset [-1] is below every index, so no handler moves it. *)
Theorem X8_unpositioned_cursor_ignores_changes (m : string)
  (changes : list IModelContentChange) (w : RemoteCursorWidget.t) :
  unpositioned w ->
  Forall (fun c => 0 <= rangeOffset c) changes ->
  fst (Editor.notifyWidget m changes w) = w.
Proof.
  intros Hu Hcs. rewrite notifyWidget_fst.
  unfold RemoteCursorWidget.contentChanged, bind, get.
  destruct (EditorContentManager._subscribed _); [|reflexivity].
  unfold EditorContentManager._onContentChanged.
  destruct (negb _); [|reflexivity].
  apply forEach_unpositioned; assumption.
Qed.

Lemma X8_on_freshCursor :
  fst (Editor.notifyWidget twentyChars
         [mkChange 0 0 "abc"; mkChange 4 2 EmptyString] freshCursor)
  = freshCursor.
Proof.
  apply X8_unpositioned_cursor_ignores_changes.
  - split; reflexivity.
  - repeat (constructor; try (cbn; lia)).
Defined.

(** ** Batches of changes *)

Lemma processChange_proper (k : nat) (c : IModelContentChange)
  (l : list LogEntry) :
  properChange c ->
  EditorContentManager._processChange (Editor.callbacks k) c l
  = (Normal tt, l ++ [Called k (callOf c)]).
Proof.
  destruct c as [i R txt]. unfold properChange, callOf.
  cbn [rangeOffset rangeLength text]. intros [HR HT].
  rewrite processChange_tests.
  pose proof (strlen_nonneg txt) as Hn.
  destruct (Z.eqb_spec R 0) as [HR0|HR0].
  - replace (0 <? strlen txt) with true by (symmetry; apply Z.ltb_lt; lia).
    reflexivity.
  - replace (0 <? R) with true by (symmetry; apply Z.ltb_lt; lia).
    rewrite andb_false_r, !andb_true_r.
    destruct (Z.eqb_spec (strlen txt) 0) as [HT0|HT0].
    + replace (0 <? strlen txt) with false by (symmetry; apply Z.ltb_ge; lia).
      reflexivity.
    + replace (0 <? strlen txt) with true by (symmetry; apply Z.ltb_lt; lia).
      reflexivity.
Qed.

Lemma processChange_improper {S : Type} (o : EditorContentManager.Options S)
  (c : IModelContentChange) (s : S) :
  ~ properChange c ->
  EditorContentManager._processChange o c s
  = (Throw (Err "Unexpected change: "), s).
Proof.
  destruct c as [i R txt]. unfold properChange.
  cbn [rangeLength text]. intros Hn.
  rewrite processChange_tests.
  pose proof (strlen_nonneg txt) as HT.
  replace (0 <? R) with false by (symmetry; apply Z.ltb_ge; lia).
  rewrite !andb_false_r.
  destruct (Z.eqb_spec R 0) as [HR0|HR0]; [|now rewrite andb_false_r].
  replace (0 <? strlen txt) with false by (symmetry; apply Z.ltb_ge; lia).
  reflexivity.
Qed.

Lemma forEach_proper (k : nat) (cs : list IModelContentChange) :
  forall l, Forall properChange cs ->
  forEach (EditorContentManager._processChange (Editor.callbacks k)) cs l
  = (Normal tt, l ++ map (fun c => Called k (callOf c)) cs).
Proof.
  induction cs as [|c cs IH]; intros l Hcs.
  - cbn. now rewrite app_nil_r.
  - inversion Hcs as [|? ? Hc Hcs']; subst. cbn [forEach map].
    rewrite (bind_normal _ _ _ _ _ (processChange_proper k c l Hc)).
    rewrite IH by assumption. now rewrite <- app_assoc.
Qed.

(** X10. A batch of changes that are all inserts, replaces or deletes is
    dispatched change by change, in the order of the batch: the content
    manager makes exactly one callback call for each change. *)
Theorem X10_batch_dispatched_in_order (k : nat)
  (changes : list IModelContentChange) (l : list LogEntry) :
  Forall properChange changes ->
  EditorContentManager._onContentChanged (Editor.callbacks k) false changes l
  = (Normal tt, l ++ map (fun c => Called k (callOf c)) changes).
Proof.
  intros H. unfold EditorContentManager._onContentChanged. cbn [negb].
  apply forEach_proper. exact H.
Qed.

Lemma X10_batch_of_three :
  EditorContentManager._onContentChanged (Editor.callbacks 0) false
    [mkChange 9 0 "ab"; mkChange 4 3 EmptyString; mkChange 0 2 "xyz"] []
  = (Normal tt,
     [Called 0 (OnInsert 9 "ab"); Called 0 (OnDelete 4 3);
      Called 0 (OnReplace 0 2 "xyz")]).
Proof.
  apply (X10_batch_dispatched_in_order 0
           [mkChange 9 0 "ab"; mkChange 4 3 EmptyString; mkChange 0 2 "xyz"] []).
  repeat (constructor; [unfold properChange, strlen; cbn; lia|]).
  constructor.
Defined.

(** X11. The first change of a batch that is neither an insert, a replace
    nor a delete ends the batch with the error "Unexpected change: ": the
    changes before it have been dispatched, the changes after it are never
    looked at. *)
Theorem X11_batch_stops_at_unexpected_change (k : nat)
  (before after : list IModelContentChange) (c : IModelContentChange)
  (l : list LogEntry) :
  Forall properChange before ->
  ~ properChange c ->
  EditorContentManager._onContentChanged (Editor.callbacks k) false
    (before ++ c :: after) l
  = (Throw (Err "Unexpected change: "),
     l ++ map (fun c => Called k (callOf c)) before).
Proof.
  intros Hb Hc. unfold EditorContentManager._onContentChanged. cbn [negb].
  revert l. induction before as [|b before IH]; intros l.
  - cbn [app forEach map]. rewrite app_nil_r.
    apply bind_throw. apply processChange_improper. exact Hc.
  - inversion Hb as [|? ? Hb1 Hb']; subst. cbn [app forEach map].
    rewrite (bind_normal _ _ _ _ _ (processChange_proper k b l Hb1)).
    rewrite IH by assumption. now rewrite <- app_assoc.
Qed.

Lemma X11_batch_with_empty_change :
  EditorContentManager._onContentChanged (Editor.callbacks 0) false
    [mkChange 9 0 "ab"; mkChange 4 0 EmptyString; mkChange 0 2 "xyz"] []
  = (Throw (Err "Unexpected change: "), [Called 0 (OnInsert 9 "ab")]).
Proof.
  apply (X11_batch_stops_at_unexpected_change 0 [mkChange 9 0 "ab"]
           [mkChange 0 2 "xyz"] (mkChange 4 0 EmptyString) []).
  - repeat (constructor; [unfold properChange, strlen; cbn; lia|]).
    constructor.
  - unfold properChange, strlen. cbn. lia.
Defined.

(** ** Who hears an edit *)

Lemma callsOf_own (b : nat) (cs : list IModelContentChange) (l : list LogEntry) :
  callsOf b (l ++ map (fun c => Called b (callOf c)) cs)
  = callsOf b l ++ map callOf cs.
Proof.
  rewrite callsOf_app. f_equal.
  induction cs as [|c cs IH]; [reflexivity|].
  cbn [map callsOf]. rewrite Nat.eqb_refl. now rewrite IH.
Qed.

Lemma notifyManager_returns (cs : list IModelContentChange) (k : nat)
  (cm : EditorContentManager.t) (l : list LogEntry) :
  fst (Editor.notifyManager cs k cm l) = Normal tt.
Proof.
  unfold Editor.notifyManager, catch.
  destruct (EditorContentManager._subscribed cm); [|reflexivity].
  destruct (EditorContentManager._onContentChanged _ _ cs l) as [[[]|e] l'];
    reflexivity.
Qed.

Lemma notifyManager_heard (cs : list IModelContentChange) (k : nat)
  (cm : EditorContentManager.t) (l : list LogEntry) :
  EditorContentManager._subscribed cm = true ->
  EditorContentManager._suppress cm = false ->
  Forall properChange cs ->
  Editor.notifyManager cs k cm l
  = (Normal tt, l ++ map (fun c => Called k (callOf c)) cs).
Proof.
  intros Hsub Hsup Hcs. unfold Editor.notifyManager, catch.
  rewrite Hsub, Hsup.
  unfold EditorContentManager._onContentChanged. cbn [negb].
  now rewrite forEach_proper.
Qed.

(** A manager that is unsubscribed or suppresses adds no call of its own. *)
Lemma notifyManager_deaf (ref k : nat) (cs : list IModelContentChange)
  (cm : EditorContentManager.t) (l : list LogEntry) :
  (k = ref -> EditorContentManager._subscribed cm = false \/
              EditorContentManager._suppress cm = true) ->
  callsOf ref (snd (Editor.notifyManager cs k cm l)) = callsOf ref l.
Proof.
  intros Hs.
  destruct (Nat.eq_dec k ref) as [Heq|Hne].
  - destruct (Hs Heq) as [Hsub|Hsup].
    + unfold Editor.notifyManager. now rewrite Hsub.
    + apply notifyManager_calls. intros _. exact Hsup.
  - apply notifyManager_calls. intros E. contradiction.
Qed.

Lemma notifyManagers_deaf (ref : nat) (cs : list IModelContentChange)
  (cms : list EditorContentManager.t) :
  forall (k : nat) (l : list LogEntry),
  (forall j cm, cms !! j = Some cm -> (k + j)%nat = ref ->
                EditorContentManager._subscribed cm = false \/
                EditorContentManager._suppress cm = true) ->
  callsOf ref (snd (Editor.notifyManagers cs k cms l)) = callsOf ref l.
Proof.
  induction cms as [|cm cms IH]; intros k l Hs; [reflexivity|].
  cbn [Editor.notifyManagers]. unfold bind.
  pose proof (notifyManager_deaf ref k cs cm l) as H1.
  pose proof (notifyManager_returns cs k cm l) as Hr.
  destruct (Editor.notifyManager cs k cm l) as [[u|e] l1]; cbn [fst snd] in *;
    [|discriminate].
  rewrite IH.
  - apply H1. intros Hk. apply (Hs 0%nat cm); [reflexivity | lia].
  - intros j cm' Hj Hkj. apply (Hs (S j) cm'); [exact Hj | lia].
Qed.

(** The manager at index [b] of the listeners, live and not suppressing,
    hears every change of the event. *)
Lemma notifyManagers_heard (b : nat) (cs : list IModelContentChange)
  (cms : list EditorContentManager.t) :
  forall (k j : nat) (cm : EditorContentManager.t) (l : list LogEntry),
  cms !! j = Some cm -> (k + j)%nat = b ->
  EditorContentManager._subscribed cm = true ->
  EditorContentManager._suppress cm = false ->
  Forall properChange cs ->
  callsOf b (snd (Editor.notifyManagers cs k cms l))
  = callsOf b l ++ map callOf cs.
Proof.
  induction cms as [|cm0 cms IH]; intros k j cm l Hj Hk Hsub Hsup Hcs;
    [destruct j; discriminate|].
  cbn [Editor.notifyManagers]. unfold bind.
  destruct j as [|j].
  - injection Hj as ->. assert (k = b) as -> by lia.
    rewrite (notifyManager_heard cs b cm l Hsub Hsup Hcs).
    rewrite notifyManagers_deaf by (intros; lia).
    apply callsOf_own.
  - pose proof (notifyManager_deaf b k cs cm0 l) as H1.
    pose proof (notifyManager_returns cs k cm0 l) as Hr.
    destruct (Editor.notifyManager cs k cm0 l) as [[u|e] l1];
      cbn [fst snd] in *; [|discriminate].
    rewrite (IH (S k) j cm l1 Hj) by (assumption || lia).
    rewrite H1 by (intros; lia). reflexivity.
Qed.

(** The calls an edit adds to the log are those of the managers' listeners;
    the widgets' listeners add none. *)
Lemma runEdit_calls (w : World) (a b : nat) (c : EditCall) :
  exists change,
    callsOf b (log (snd (runEdit a c w)))
    = callsOf b (snd (Editor.notifyManagers [change] 0
                        (alter (EditorContentManager.set_suppress true) a
                           (contentManagers w))
                        (log w))) /\
    (0 <= editIndex c -> 0 <= editLength c ->
     editIndex c + editLength c <= strlen (model w) ->
     change = editChange c).
Proof.
  rewrite runEdit_as_replace.
  destruct (replace_run w a (editIndex c) (editLength c) (editText c))
    as (change & -> & Hchange).
  exists change. split; [|exact Hchange].
  cbn [snd]. unfold Editor.fire.
  cbn [model log cursorWidgets contentManagers set_contentManagers set_log
       set_cursorWidgets set_model].
  now rewrite callsOf_app, notifyWidgets_calls, app_nil_r.
Qed.

(** X12. An edit that one content manager makes is reported to every
    other content manager that is subscribed and does not suppress:
    exactly one callback call, the one that fits the edit, is added to its
    calls. *)
Theorem X12_edit_is_reported_to_other_managers (w : World) (a b : nat)
  (cm : EditorContentManager.t) (c : EditCall) :
  a <> b ->
  contentManagers w !! b = Some cm ->
  EditorContentManager._subscribed cm = true ->
  EditorContentManager._suppress cm = false ->
  0 <= editIndex c -> 0 <= editLength c ->
  editIndex c + editLength c <= strlen (model w) ->
  properChange (editChange c) ->
  callsOf b (log (snd (runEdit a c w)))
  = callsOf b (log w) ++ [callOf (editChange c)].
Proof.
  intros Hab Hb Hsub Hsup Hi Hlen Hin Hproper.
  destruct (runEdit_calls w a b c) as (change & -> & Hchange).
  rewrite (Hchange Hi Hlen Hin).
  apply (notifyManagers_heard b [editChange c] _ 0 b cm);
    [|reflexivity|assumption|assumption|constructor; [assumption|constructor]].
  rewrite list_lookup_alter_ne by exact Hab. exact Hb.
Qed.

Lemma X12_on_collaboration :
  callsOf 1 (log (snd (runEdit 0 (CallDelete 2 4) collaboration)))
  = [OnDelete 2 4].
Proof.
  apply (X12_edit_is_reported_to_other_managers collaboration 0 1
           EditorContentManager.new_ (CallDelete 2 4)).
  - discriminate.
  - vm_compute. reflexivity.
  - reflexivity.
  - reflexivity.
  - cbn. lia.
  - cbn. lia.
  - vm_compute. discriminate.
  - unfold properChange. cbn. lia.
Defined.

(** X13. A content manager that has been disposed hears nothing any more:
    whatever edit is made after its [dispose], by whichever manager, none
    of its callbacks is called. *)
Theorem X13_disposed_manager_hears_nothing (w : World) (a b : nat)
  (c : EditCall) :
  let w1 := snd (EditorContentManagerMethods.dispose b w) in
  callsOf b (log (snd (runEdit a c w1))) = callsOf b (log w1).
Proof.
  intros w1.
  destruct (runEdit_calls w1 a b c) as (change & -> & _).
  apply notifyManagers_deaf.
  intros j cm Hj Hk. cbn [Nat.add] in Hk. subst j. left.
  subst w1. cbn in Hj.
  rewrite list_lookup_alter in Hj.
  destruct (decide (a = b)) as [->|Hne].
  - rewrite list_lookup_alter_eq in Hj.
    destruct (contentManagers w !! b); cbn in Hj; [|discriminate].
    injection Hj as <-. reflexivity.
  - rewrite list_lookup_alter_eq in Hj.
    destruct (contentManagers w !! b); cbn in Hj; [|discriminate].
    injection Hj as <-. reflexivity.
Qed.

(** X14. The suppression of a content manager ends with its own call:
    whatever its flag was before, after it has made an edit it hears the
    next edit that another manager makes. *)
Theorem X14_suppression_ends_with_the_call (w : World) (a b : nat)
  (cm : EditorContentManager.t) (first second : EditCall) :
  a <> b ->
  contentManagers w !! a = Some cm ->
  EditorContentManager._subscribed cm = true ->
  let w1 := snd (runEdit a first w) in
  0 <= editIndex second -> 0 <= editLength second ->
  editIndex second + editLength second <= strlen (model w1) ->
  properChange (editChange second) ->
  callsOf a (log (snd (runEdit b second w1)))
  = callsOf a (log w1) ++ [callOf (editChange second)].
Proof.
  intros Hab Ha Hsub w1 Hi Hlen Hin Hproper.
  destruct (runEdit_frame w a first) as (ch1 & _ & _ & Hcms & _).
  cbv zeta in Hcms. fold w1 in Hcms.
  destruct (runEdit_calls w1 b a second) as (change & -> & Hchange).
  rewrite (Hchange Hi Hlen Hin).
  apply (notifyManagers_heard a [editChange second] _ 0 a
           (EditorContentManager.set_suppress false
              (EditorContentManager.set_suppress true cm)));
    [|reflexivity|exact Hsub|reflexivity|constructor; [assumption|constructor]].
  rewrite list_lookup_alter_ne by (intros E; apply Hab; now symmetry).
  rewrite Hcms, !list_lookup_alter_eq, Ha. reflexivity.
Qed.

Lemma X14_on_collaboration :
  callsOf 0 (log (snd (runEdit 1 (CallInsert 0 "xy")
                         (snd (runEdit 0 (CallInsert 5 "abc") collaboration)))))
  = [OnInsert 0 "xy"].
Proof.
  apply (X14_suppression_ends_with_the_call collaboration 0 1
           EditorContentManager.new_ (CallInsert 5 "abc") (CallInsert 0 "xy")).
  - discriminate.
  - vm_compute. reflexivity.
  - reflexivity.
  - cbn. lia.
  - cbn. lia.
  - vm_compute. discriminate.
  - unfold properChange, strlen. cbn. lia.
Defined.

(** ** Stored position and stored offset *)

Lemma take_drop (n : nat) (s : string) : take n s +:+ drop n s = s.
Proof.
  revert s; induction n as [|n IH]; intros [|ch s]; try reflexivity.
  change (String ch (take n s +:+ drop n s) = String ch s).
  f_equal. apply IH.
Qed.

Lemma append_empty_l (s : string) : EmptyString +:+ s = s.
Proof. reflexivity. Qed.

(** An edit that removes and inserts nothing leaves the buffer alone. *)
Lemma splice_nothing (m : string) (i : Z) : splice m i 0 EmptyString = m.
Proof.
  unfold splice. change (Z.to_nat 0) with 0%nat.
  rewrite Nat.add_0_r, append_empty_l.
  apply take_drop.
Qed.

(** The offset of a position that lies before the end of a prefix does not
    depend on what follows the prefix. *)
Lemma offsetFrom_prefix (a : string) : forall b b' line col tl tc,
  offsetFrom (a +:+ b) line col tl tc < strlen a ->
  offsetFrom (a +:+ b') line col tl tc = offsetFrom (a +:+ b) line col tl tc.
Proof.
  induction a as [|ch a IH]; intros b b' line col tl tc H.
  - pose proof (offsetFrom_bounds (EmptyString +:+ b) line col tl tc) as Hb.
    unfold strlen in H; cbn in H. lia.
  - change (String ch a +:+ b) with (String ch (a +:+ b)) in *.
    change (String ch a +:+ b') with (String ch (a +:+ b')).
    cbn [offsetFrom] in *.
    assert (Hlen : strlen (String ch a) = 1 + strlen a)
      by (unfold strlen; cbn [String.length]; lia).
    rewrite Hlen in H.
    destruct ((tl <? line) || ((tl =? line) && (tc <=? col))); [reflexivity|].
    destruct (isLineFeed ch).
    + destruct (tl =? line); [reflexivity|].
      rewrite (IH b b' (line + 1) 1 tl tc) by lia. reflexivity.
    + rewrite (IH b b' line (col + 1) tl tc) by lia. reflexivity.
Qed.

(** A change that starts after the offset of a position does not move the
    position. *)
Lemma getOffsetAt_before_change (m : string) (c : IModelContentChange)
  (p : IPosition) :
  validChange m c ->
  getOffsetAt m p < rangeOffset c ->
  getOffsetAt (applyChange m c) p = getOffsetAt m p.
Proof.
  intros (Hi & Hlen & Hin) Hp.
  destruct c as [i len txt]; cbn [rangeOffset rangeLength text] in *.
  unfold applyChange, splice; cbn [rangeOffset rangeLength text].
  set (n := Z.to_nat i).
  assert (Hn : strlen (take n m) = i).
  { unfold strlen. rewrite length_take. unfold strlen in Hin. lia. }
  unfold getOffsetAt in *.
  transitivity (offsetFrom (take n m +:+ drop n m) 1 1 (lineNumber p) (column p)).
  - apply offsetFrom_prefix. rewrite Hn, take_drop. exact Hp.
  - now rewrite take_drop.
Qed.

(** One valid change keeps the stored offset equal to the offset of the
    stored position. *)
Lemma consistent_step (m : string) (c : IModelContentChange)
  (w : RemoteCursorWidget.t) :
  positioned w -> listening w -> consistent m w -> validChange m c ->
  consistent (applyChange m c) (fst (Editor.notifyWidget (applyChange m c) [c] w)).
Proof.
  intros Hp Hl Hc Hv.
  pose proof Hv as (Hi & Hlen & Hin).
  destruct c as [i len txt]; cbn [rangeOffset rangeLength text] in *.
  rewrite notifyWidget_fst, contentChanged_single by assumption.
  destruct ((strlen txt =? 0) && (len =? 0)) eqn:Hempty.
  - apply andb_true_iff in Hempty as [HT HL].
    apply Z.eqb_eq in HT, HL. subst len.
    assert (txt = EmptyString) as ->
      by (destruct txt; [reflexivity | unfold strlen in HT; simpl in HT; lia]).
    unfold applyChange; cbn [rangeOffset rangeLength text].
    rewrite splice_nothing. exact Hc.
  - unfold RemoteCursorWidget._onReplace, bind, get.
    rewrite (positioned_not_null w Hp).
    destruct (Z.leb_spec i (RemoteCursorWidget._offset w)) as [Hle|Hgt].
    + intros p Hpos. cbn in Hpos. injection Hpos as <-. reflexivity.
    + cbn [snd ret]. intros p Hpos.
      rewrite (Hc p Hpos).
      symmetry. apply getOffsetAt_before_change; [exact Hv|].
      cbn [rangeOffset]. rewrite <- (Hc p Hpos). exact Hgt.
Qed.

(** X9. Through every sequence of valid changes that a positioned cursor
    widget is told of, the stored offset stays the offset of the stored
    position in the buffer of the time: the line and column the widget is
    drawn at and the offset it re-anchors agree. *)
Theorem X9_position_and_offset_agree (cs : list IModelContentChange) :
  forall (m : string) (w : RemoteCursorWidget.t),
  positioned w -> listening w -> consistent m w ->
  validChanges m cs ->
  Forall (fun mw => consistent (fst mw) (snd mw)) (observe m w cs).
Proof.
  induction cs as [|c cs IH]; intros m w Hp Hl Hc Hv; cbn [observe].
  - constructor.
  - destruct Hv as [Hv1 Hv].
    pose proof (consistent_step m c w Hp Hl Hc Hv1) as Hc'.
    assert (Hb : 0 <= RemoteCursorWidget._offset w <= strlen m).
    { destruct Hp as [p Hpos]. rewrite (Hc p Hpos). apply getOffsetAt_bounds. }
    destruct (notifyWidget_step m c w Hp Hl Hb Hv1) as (Hp' & Hl' & _).
    cbv zeta in Hp', Hl'.
    constructor; [exact Hc'|]. apply IH; assumption.
Qed.

Lemma X9_three_changes :
  Forall (fun mw => consistent (fst mw) (snd mw))
         (observe twentyChars (cursorAt twentyChars 12)
            [mkChange 5 0 "abc"; mkChange 10 13 EmptyString; mkChange 0 4 "zz"]).
Proof.
  apply (X9_position_and_offset_agree
           [mkChange 5 0 "abc"; mkChange 10 13 EmptyString; mkChange 0 4 "zz"]
           twentyChars (cursorAt twentyChars 12)).
  - apply cursorAt_positioned.
  - split; reflexivity.
  - intros p Hp. injection Hp as <-. reflexivity.
  - vm_compute. repeat split; discriminate.
Defined.

(** ** Two cursors, and an insert that is taken back *)




Lemma take_append_len (a b : string) (n : nat) :
  n = String.length a -> take n (a +:+ b) = a.
Proof.
  intros ->. induction a as [|ch a IH]; cbn [String.length].
  - destruct b; reflexivity.
  - change (String ch (take (String.length a) (a +:+ b)) = String ch a).
    now rewrite IH.
Qed.

Lemma drop_append_len (a b : string) (n k : nat) :
  n = String.length a -> drop (n + k) (a +:+ b) = drop k b.
Proof.
  intros ->. induction a as [|ch a IH]; [reflexivity|].
  exact IH.
Qed.

(** Deleting an inserted text gives back the buffer. *)
Lemma splice_insert_delete (m : string) (i : Z) (txt : string) :
  0 <= i <= strlen m ->
  splice (splice m i 0 txt) i (strlen txt) EmptyString = m.
Proof.
  intros Hi. unfold splice. change (Z.to_nat 0) with 0%nat.
  rewrite Nat.add_0_r.
  set (n := Z.to_nat i).
  assert (Hn : n = String.length (take n m)).
  { rewrite length_take. unfold strlen in Hi. lia. }
  assert (HL : Z.to_nat (strlen txt) = String.length txt)
    by (unfold strlen; lia).
  rewrite HL.
  rewrite (take_append_len (take n m) _ n Hn).
  rewrite (drop_append_len (take n m) _ n _ Hn).
  rewrite <- (Nat.add_0_r (String.length txt)).
  rewrite (drop_append_len txt _ _ 0 eq_refl).
  cbn [drop]. rewrite append_empty_l. apply take_drop.
Qed.

(** X23. An insert followed by the deletion of the inserted text brings
    back the buffer and, with it, the stored offset of every positioned
    cursor widget that was told of both changes. *)
Theorem X23_insert_then_delete_restores_offset (m : string)
  (w : RemoteCursorWidget.t) (i : Z) (txt : string) :
  positioned w -> listening w ->
  0 <= RemoteCursorWidget._offset w <= strlen m ->
  0 <= i <= strlen m ->
  let inserted := mkChange i 0 txt in
  let deleted := mkChange i (strlen txt) EmptyString in
  let m1 := applyChange m inserted in
  let w1 := fst (Editor.notifyWidget m1 [inserted] w) in
  let m2 := applyChange m1 deleted in
  let w2 := fst (Editor.notifyWidget m2 [deleted] w1) in
  m2 = m /\ RemoteCursorWidget._offset w2 = RemoteCursorWidget._offset w.
Proof.
  intros Hp Hl Hb Hi inserted deleted m1 w1 m2 w2.
  pose proof (strlen_nonneg txt) as HL.
  assert (Hv1 : validChange m inserted)
    by (unfold validChange, inserted; cbn; lia).
  destruct (notifyWidget_step m inserted w Hp Hl Hb Hv1)
    as (Hp1 & Hl1 & Ho1 & Hb1).
  cbv zeta in Hp1, Hl1, Ho1, Hb1. fold m1 in Hp1, Hl1, Ho1, Hb1.
  fold w1 in Hp1, Hl1, Ho1, Hb1.
  assert (Hm1 : strlen m1 = strlen m + strlen txt).
  { subst m1. unfold applyChange, inserted; cbn [rangeOffset rangeLength text].
    apply strlen_splice_insert. lia. }
  assert (Hv2 : validChange m1 deleted)
    by (unfold validChange, deleted; cbn [rangeOffset rangeLength text]; lia).
  destruct (notifyWidget_step m1 deleted w1 Hp1 Hl1 Hb1 Hv2)
    as (_ & _ & Ho2 & _).
  cbv zeta in Ho2. fold m2 in Ho2. fold w2 in Ho2.
  split.
  - subst m2 m1. unfold applyChange, inserted, deleted.
    cbn [rangeOffset rangeLength text].
    apply splice_insert_delete. exact Hi.
  - rewrite Ho2, Ho1. unfold inserted, deleted, reanchor.
    cbn [rangeOffset rangeLength text]. change (strlen EmptyString) with 0.
    destruct (Z.leb_spec i (RemoteCursorWidget._offset w)) as [Hle|Hgt].
    + replace (i <=? RemoteCursorWidget._offset w -
                     Z.min (RemoteCursorWidget._offset w - i) 0 + strlen txt)
        with true by (symmetry; apply Z.leb_le; lia).
      lia.
    + replace (i <=? RemoteCursorWidget._offset w) with false
        by (symmetry; apply Z.leb_gt; lia).
      reflexivity.
Qed.

Lemma X23_on_cursor_at_12 :
  RemoteCursorWidget._offset
    (fst (Editor.notifyWidget
            (applyChange (applyChange twentyChars (mkChange 5 0 "abc"))
                         (mkChange 5 (strlen "abc") EmptyString))
            [mkChange 5 (strlen "abc") EmptyString]
            (fst (Editor.notifyWidget
                    (applyChange twentyChars (mkChange 5 0 "abc"))
                    [mkChange 5 0 "abc"] (cursorAt twentyChars 12)))))
  = 12.
Proof.
  apply (X23_insert_then_delete_restores_offset twentyChars
           (cursorAt twentyChars 12) 5 "abc").
  - apply cursorAt_positioned.
  - split; reflexivity.
  - vm_compute. split; discriminate.
  - vm_compute. split; discriminate.
Defined.

(** ** Selections *)

Lemma getSelection_ok (w : World) (id : string) (ref : nat) :
  RemoteSelectionManager._remoteSelections (selectionManager w) !! id = Some ref ->
  Selections._getSelection id w = (Normal ref, w).
Proof.
  intros H. unfold Selections._getSelection, bind, gets. now rewrite H.
Qed.

(** [removeSelection] of a registered id whose selection is disposed does
    nothing. *)
Lemma removeSelectionFuel_disposed (fuel : nat) (w : World) (id : string)
  (ref : nat) (x : RemoteSelection.t) :
  RemoteSelectionManager._remoteSelections (selectionManager w) !! id = Some ref ->
  selections w !! ref = Some x ->
  RemoteSelection._disposed x = true ->
  Selections.removeSelectionFuel fuel id w = (Normal tt, w).
Proof.
  intros Hid Hx Hd. rewrite removeSelectionFuel_unfold.
  rewrite (bind_normal _ _ _ _ _ (getSelection_ok _ _ _ Hid)).
  rewrite (bind_normal _ _ _ _ _ (selection_isDisposed_run _ _ _ Hx)).
  now rewrite Hd.
Qed.

(** [removeSelection] of a registered id whose selection is live disposes
    the selection and leaves the registry as it is. *)
Lemma removeSelectionFuel_live (fuel : nat) (w : World) (id : string)
  (ref : nat) (x : RemoteSelection.t) :
  RemoteSelectionManager._remoteSelections (selectionManager w) !! id = Some ref ->
  selections w !! ref = Some x ->
  capturedId (RemoteSelection._onDisposed x) = id ->
  RemoteSelection._disposed x = false ->
  Selections.removeSelectionFuel (S fuel) id w =
  (Normal tt,
   set_selections (<[ref := RemoteSelection.markDisposed x]> (selections w)) w).
Proof.
  intros Hid Hx Hcb Hd.
  assert (Hlt : (ref < List.length (selections w))%nat)
    by (eapply lookup_lt_Some; exact Hx).
  set (w1 := set_selections
               (<[ref := RemoteSelection.markDisposed x]> (selections w)) w).
  assert (Hx1 : selections w1 !! ref = Some (RemoteSelection.markDisposed x))
    by (apply list_lookup_insert_eq; exact Hlt).
  assert (Hid1 : RemoteSelectionManager._remoteSelections (selectionManager w1)
                 !! id = Some ref) by exact Hid.
  rewrite removeSelectionFuel_unfold.
  rewrite (bind_normal _ _ _ _ _ (getSelection_ok _ _ _ Hid)).
  rewrite (bind_normal _ _ _ _ _ (selection_isDisposed_run _ _ _ Hx)).
  rewrite Hd. cbn [negb]. unfold Selections.disposeSelection.
  rewrite (bind_normal _ _ _ _ _ (selection_isDisposed_run _ _ _ Hx)).
  rewrite Hd. cbn [negb].
  rewrite (bind_normal _ _ _ _ _ (selection_markDisposed_run _ _ _ Hx)).
  fold w1.
  rewrite (bind_normal _ _ _ _ _ (selection_onDisposed_run _ _ _ Hx1)).
  cbn [RemoteSelection.markDisposed RemoteSelection._onDisposed].
  rewrite Hcb.
  apply (removeSelectionFuel_disposed fuel w1 id ref _ Hid1 Hx1 eq_refl).
Qed.

(** X16. [removeSelection] of a registered id disposes the selection and
    keeps the id registered.  So a second [removeSelection] of the id
    returns and changes nothing, and [setSelectionOffsets] of the id still
    reaches the disposed selection and renders it again. *)
Theorem X16_removed_selection_stays_reachable (w : World) (id : string)
  (ref : nat) (x : RemoteSelection.t) :
  RemoteSelectionManager._remoteSelections (selectionManager w) !! id = Some ref ->
  selections w !! ref = Some x ->
  capturedId (RemoteSelection._onDisposed x) = id ->
  let w1 := snd (Selections.removeSelection id w) in
  fst (Selections.removeSelection id w) = Normal tt /\
  (RemoteSelection._disposed <$> selections w1 !! ref) = Some true /\
  Selections.removeSelection id w1 = (Normal tt, w1) /\
  (forall a b,
     fst (Selections.setSelectionOffsets id a b w1) = Normal tt /\
     (List.length ∘ RemoteSelection._decorations <$>
        selections (snd (Selections.setSelectionOffsets id a b w1)) !! ref)
     = Some 1%nat).
Proof.
  intros Hid Hx Hcb w1.
  assert (Hlt : (ref < List.length (selections w))%nat)
    by (eapply lookup_lt_Some; exact Hx).
  assert (Hrun : exists x1,
            Selections.removeSelection id w = (Normal tt, w1) /\
            selections w1 !! ref = Some x1 /\
            RemoteSelection._disposed x1 = true /\
            RemoteSelectionManager._remoteSelections (selectionManager w1) !! id
              = Some ref).
  { subst w1. unfold Selections.removeSelection.
    destruct (RemoteSelection._disposed x) eqn:Hd.
    - rewrite (removeSelectionFuel_disposed _ w id ref x Hid Hx Hd).
      exists x. repeat split; assumption.
    - destruct (List.length (selections w)) as [|fuel] eqn:Hlen; [lia|].
      rewrite (removeSelectionFuel_live fuel w id ref x Hid Hx Hcb Hd).
      exists (RemoteSelection.markDisposed x).
      split; [reflexivity|]. split; [|split; [reflexivity | exact Hid]].
      cbn. apply list_lookup_insert_eq. rewrite Hlen. exact Hlt. }
  destruct Hrun as (x1 & Hrun & Hx1 & Hd1 & Hid1).
  assert (Hlt1 : (ref < List.length (selections w1))%nat)
    by (eapply lookup_lt_Some; exact Hx1).
  split; [now rewrite Hrun|]. split; [now rewrite Hx1; cbn; rewrite Hd1|].
  split.
  - unfold Selections.removeSelection.
    apply (removeSelectionFuel_disposed _ w1 id ref x1 Hid1 Hx1 Hd1).
  - intros a b. unfold Selections.setSelectionOffsets.
    rewrite (bind_normal _ _ _ _ _ (getSelection_ok _ _ _ Hid1)).
    rewrite (onSelection_run _ _ _ _ Hx1).
    split; [reflexivity|].
    cbn [snd selections set_selections].
    rewrite list_lookup_insert_eq by exact Hlt1. reflexivity.
Qed.

Lemma X16_on_oneSelection :
  Selections.removeSelection "jDoe"
    (snd (Selections.removeSelection "jDoe" oneSelection))
  = (Normal tt, snd (Selections.removeSelection "jDoe" oneSelection)).
Proof.
  assert (H : exists x, selections oneSelection !! 0%nat = Some x /\
                        capturedId (RemoteSelection._onDisposed x) = "jDoe")
    by (vm_compute; eexists; split; reflexivity).
  destruct H as (x & Hx & Hcb).
  apply (X16_removed_selection_stays_reachable oneSelection "jDoe" 0 x);
    [vm_compute; reflexivity | exact Hx | exact Hcb].
Defined.

(** X17. [setPositions] renders exactly one decoration; its range runs from
    the stored start to the stored end, in this order.  [hide] removes the
    decoration and keeps the positions, and a [show] after the [hide] puts
    the same decoration back. *)
Theorem X17_render_hide_show (x : RemoteSelection.t) (a b : IPosition) :
  let x1 := snd (RemoteSelection.setPositions a b x) in
  let s := fst (RemoteSelection._swapIfNeeded a b) in
  let e := snd (RemoteSelection._swapIfNeeded a b) in
  RemoteSelection._decorations x1 =
    [ RemoteSelection.mkDecoration
        (mkRange (lineNumber s) (column s) (lineNumber e) (column e))
        (RemoteSelection._className x) (RemoteSelection._label x) ] /\
  RemoteSelection._decorations (snd (RemoteSelection.hide x1)) = [] /\
  RemoteSelection._startPosition (snd (RemoteSelection.hide x1)) = Some s /\
  RemoteSelection._endPosition (snd (RemoteSelection.hide x1)) = Some e /\
  RemoteSelection.show (snd (RemoteSelection.hide x1)) = (Normal tt, x1).
Proof.
  intros x1 s e.
  assert (Hse : pos_le s e).
  { subst s e. rewrite swapIfNeeded_spec.
    destruct (pos_leb a b) eqn:Hle; cbn [fst snd].
    - now apply pos_leb_le.
    - destruct (pos_le_total a b) as [H|H]; [|exact H].
      apply pos_leb_le in H. congruence. }
  pose proof (newRange_ordered s e Hse) as Hr.
  subst x1. unfold RemoteSelection.setPositions, RemoteSelection.show,
    RemoteSelection.hide, RemoteSelection._render, bind, get, modify.
  cbn [fst snd RemoteSelection._startPosition RemoteSelection._endPosition
       RemoteSelection.set_positions RemoteSelection.set_decorations
       RemoteSelection._decorations RemoteSelection._className
       RemoteSelection._label].
  fold s e. rewrite Hr. repeat split.
Qed.

(** X18. A selection that has never been given positions cannot be shown:
    [showSelection] of its id ends in a [TypeError], raised when [_render]
    reads the line number of the start position, and nothing is rendered. *)
Theorem X18_show_before_positions_fails (w : World) (id : string) (ref : nat)
  (x : RemoteSelection.t) :
  RemoteSelectionManager._remoteSelections (selectionManager w) !! id = Some ref ->
  selections w !! ref = Some x ->
  RemoteSelection._startPosition x = None ->
  Selections.showSelection id w =
  (Throw (TypeError "Cannot read properties of undefined (reading 'lineNumber')"),
   w).
Proof.
  intros Hid Hx Hs. unfold Selections.showSelection.
  rewrite (bind_normal _ _ _ _ _ (getSelection_ok _ _ _ Hid)).
  rewrite (onSelection_run _ _ _ _ Hx).
  unfold RemoteSelection.show, RemoteSelection._render, bind, get.
  rewrite Hs. cbn [fst snd throw].
  now rewrite set_selections_same.
Qed.

Lemma X18_right_after_addSelection :
  fst ((Selections.addSelection "jDoe" "blue" None >>
        Selections.showSelection "jDoe")%js exampleWorld)
  = Throw (TypeError "Cannot read properties of undefined (reading 'lineNumber')").
Proof.
  rewrite (bind_normal _ _ _ _ _
             (eq_refl : Selections.addSelection "jDoe" "blue" None exampleWorld
                        = (Normal 0%nat,
                           snd (Selections.addSelection "jDoe" "blue" None
                                  exampleWorld)))).
  rewrite (X18_show_before_positions_fails _ "jDoe" 0
             (RemoteSelection.new_ "jDoe" "0" None (removeOnDisposed "jDoe")));
    reflexivity.
Defined.

(** ** The ids of the widgets *)

Lemma numberToString_inj (a b : nat) :
  Cursors.numberToString a = Cursors.numberToString b -> a = b.
Proof.
  unfold Cursors.numberToString. intros H.
  assert (Hu : Nat.to_uint a = Nat.to_uint b).
  { pose proof (NilEmpty.usu (Nat.to_uint a)) as Ha.
    pose proof (NilEmpty.usu (Nat.to_uint b)) as Hb.
    rewrite H in Ha. congruence. }
  rewrite <- (Unsigned.of_to a), <- (Unsigned.of_to b). now rewrite Hu.
Qed.

Lemma append_inj_l (a x y : string) : a +:+ x = a +:+ y -> x = y.
Proof.
  induction a as [|ch a IH]; intros H; [exact H|].
  apply IH. now injection H.
Qed.

Lemma widgetIdOf_inj (a b : nat) : widgetIdOf a = widgetIdOf b -> a = b.
Proof.
  unfold widgetIdOf. intros H.
  apply numberToString_inj. apply (append_inj_l _ _ _ H).
Qed.

(** The widgets of a manager that has only ever added cursors carry the
    ids of the numbers below its counter, in order. *)
Lemma addCursors_ids (specs : list (string * string * option string)) :
  forall w,
  map RemoteCursorWidget._id (cursorWidgets w)
    = map widgetIdOf (seq 0 (RemoteCursorManager._nextWidgetId (cursorManager w))) ->
  let run := addCursors specs w in
  fst run = Normal tt /\
  map RemoteCursorWidget._id (cursorWidgets (snd run))
    = map widgetIdOf
        (seq 0 (RemoteCursorManager._nextWidgetId (cursorManager (snd run)))) /\
  List.length (cursorWidgets (snd run))
    = (List.length (cursorWidgets w) + List.length specs)%nat.
Proof.
  induction specs as [|[[id color] label] specs IH]; intros w Hw; cbv zeta.
  - cbn. repeat split; [exact Hw | lia].
  - cbn [addCursors].
    rewrite (bind_normal _ _ _ _ _ (addCursor_run w id color label)).
    cbv zeta. set (w1 := mkWorld _ _ _ _ _ _ _).
    assert (Hw1 : map RemoteCursorWidget._id (cursorWidgets w1)
                  = map widgetIdOf
                      (seq 0 (RemoteCursorManager._nextWidgetId (cursorManager w1)))).
    { subst w1. cbn [cursorWidgets cursorManager
                     RemoteCursorManager._nextWidgetId].
      rewrite map_app, seq_S, map_app, Hw. reflexivity. }
    destruct (IH w1 Hw1) as (H1 & H2 & H3). cbv zeta in H1, H2, H3.
    split; [exact H1|]. split; [exact H2|].
    rewrite H3. subst w1. cbn [cursorWidgets List.length].
    rewrite length_app. cbn [List.length]. lia.
Qed.

(** X21. The widgets that a cursor manager creates carry pairwise different
    widget ids: however many cursors are added to a new manager, under
    whichever userland ids, no two widgets share their
    ["monaco-remote-cursor-<n>"]. *)
Theorem X21_widget_ids_are_distinct
  (specs : list (string * string * option string)) (m : string)
  (tooltips : option bool) (tooltipDuration : option Z) :
  let run := addCursors specs
               (newWorld m (RemoteCursorManager.new_ tooltips tooltipDuration)) in
  fst run = Normal tt /\
  List.length (cursorWidgets (snd run)) = List.length specs /\
  List.NoDup (map RemoteCursorWidget._id (cursorWidgets (snd run))).
Proof.
  intros run.
  destruct (addCursors_ids specs
              (newWorld m (RemoteCursorManager.new_ tooltips tooltipDuration))
              eq_refl) as (H1 & H2 & H3).
  cbv zeta in H1, H2, H3. fold run in H1, H2, H3.
  split; [exact H1|]. split; [exact H3|].
  rewrite H2. apply Finite.Injective_map_NoDup.
  - intros a b. apply widgetIdOf_inj.
  - apply seq_NoDup.
Qed.

(** ** The class names of the widget's nodes *)

Lemma append_assoc (a b c : string) : (a +:+ b) +:+ c = a +:+ (b +:+ c).
Proof.
  induction a as [|ch a IH]; [reflexivity|].
  change (String ch ((a +:+ b) +:+ c) = String ch (a +:+ (b +:+ c))).
  now rewrite IH.
Qed.

Lemma keptClassNames_app (xs ys : list (option string)) :
  keptClassNames (xs ++ ys) = keptClassNames xs ++ keptClassNames ys.
Proof.
  induction xs as [|[name|] xs IH]; cbn [app keptClassNames keptClassName];
    [reflexivity| |exact IH].
  destruct (0 <? String.length name)%nat; [cbn [app]; now rewrite IH | exact IH].
Qed.

Lemma keptClassNames_nonempty (xs : list (option string)) :
  Forall (fun name => name <> EmptyString) (keptClassNames xs).
Proof.
  induction xs as [|[name|] xs IH]; cbn [keptClassNames keptClassName];
    [constructor| |exact IH].
  destruct (Nat.ltb_spec 0 (String.length name)); [|exact IH].
  constructor; [|exact IH]. intros ->. cbn in *. lia.
Qed.

Lemma join_empty (l : list string) :
  Forall (fun name => name <> EmptyString) l ->
  join " " l = EmptyString -> l = [].
Proof.
  intros Hl Hj. destruct l as [|a [|b l]]; [reflexivity| |].
  - inversion Hl; subst. cbn in Hj. contradiction.
  - inversion Hl as [|? ? Ha _]; subst. cbn [join] in Hj.
    destruct a; [contradiction | discriminate].
Qed.

Lemma besides_nonempty (a b : string) :
  a <> EmptyString -> b <> EmptyString -> besides a b = a +:+ " " +:+ b.
Proof. destruct a, b; intros; try contradiction; reflexivity. Qed.

Lemma besides_empty_r (a : string) : besides a EmptyString = a.
Proof. now destruct a. Qed.

Lemma join_app (l1 l2 : list string) :
  Forall (fun name => name <> EmptyString) l1 ->
  Forall (fun name => name <> EmptyString) l2 ->
  join " " (l1 ++ l2) = besides (join " " l1) (join " " l2).
Proof.
  intros H1 H2. induction l1 as [|a l1 IH]; [reflexivity|].
  inversion H1 as [|? ? Ha H1']; subst.
  destruct l1 as [|a' l1].
  - cbn [app]. destruct l2 as [|b l2].
    + cbn [join]. now rewrite besides_empty_r.
    + change (join " " (a :: b :: l2)) with (a +:+ " " +:+ join " " (b :: l2)).
      change (join " " [a]) with a.
      rewrite besides_nonempty; [reflexivity | exact Ha |].
      intros E. apply join_empty in E; [discriminate | exact H2].
  - change (join " " ((a :: a' :: l1) ++ l2))
      with (a +:+ " " +:+ join " " ((a' :: l1) ++ l2)).
    change (join " " (a :: a' :: l1)) with (a +:+ " " +:+ join " " (a' :: l1)).
    rewrite (IH H1').
    set (J1 := join " " (a' :: l1)). set (J2 := join " " l2).
    assert (HJ1 : J1 <> EmptyString)
      by (intros E; apply join_empty in E; [discriminate | exact H1']).
    destruct (String.eqb_spec J2 EmptyString) as [->|HJ2].
    + now rewrite !besides_empty_r.
    + rewrite (besides_nonempty J1 J2 HJ1 HJ2).
      rewrite besides_nonempty; [|destruct a; [contradiction|discriminate]|exact HJ2].
      now rewrite !append_assoc.
Qed.

(** X19. [classNames] joins the names that are given and not empty with
    single spaces.  A missing or empty name adds nothing, not even a
    space, and the class names of two lists put one after the other are
    the class names of the first and of the second, with one space between
    them when both have some. *)
Theorem X19_classNames_skips_missing_names (xs ys : list (option string)) :
  classNames (xs ++ ys) = besides (classNames xs) (classNames ys) /\
  classNames (xs ++ None :: ys) = classNames (xs ++ ys) /\
  classNames (xs ++ Some EmptyString :: ys) = classNames (xs ++ ys) /\
  (classNames xs = EmptyString <-> Forall (fun n => keptClassName n = false) xs).
Proof.
  unfold classNames. split; [|split; [|split]].
  - rewrite keptClassNames_app.
    apply join_app; apply keptClassNames_nonempty.
  - now rewrite !keptClassNames_app.
  - now rewrite !keptClassNames_app.
  - split.
    + intros H. apply join_empty in H; [|apply keptClassNames_nonempty].
      induction xs as [|[name|] xs IH]; constructor.
      * cbn [keptClassNames] in H.
        destruct (keptClassName (Some name)); [discriminate | reflexivity].
      * apply IH. cbn [keptClassNames] in H.
        destruct (keptClassName (Some name)); [discriminate | exact H].
      * reflexivity.
      * apply IH. exact H.
    + intros H. induction H as [|n xs Hn _ IH]; [reflexivity|].
      cbn [keptClassNames]. rewrite Hn. exact IH.
Qed.

(** ** Validation of positions, and setting an offset *)

Lemma typeof_number (v : Value) :
  String.eqb (typeof v) "number" = true <-> exists n, v = Number n.
Proof.
  split.
  - destruct v; cbn; try discriminate. intros _. eexists; reflexivity.
  - intros [n ->]. reflexivity.
Qed.

(** X20. [assertPosition] rejects [undefined] and [null] with the error of
    [assertDefined], and accepts an object exactly when its [lineNumber]
    and its [column] are both numbers; every [IPosition] passes. *)
Theorem X20_assertPosition_accepts_numeric_pairs {S : Type} (name : string)
  (s : S) :
  Validation.assertPosition Undefined name s
    = (Throw (Err (name +:+ " must be a defined but was: ")), s) /\
  Validation.assertPosition Null name s
    = (Throw (Err (name +:+ " must be a defined but was: ")), s) /\
  (forall props,
     Validation.assertPosition (Object props) name s = (Normal tt, s) <->
     exists l c, lookupProp props "lineNumber" = Number l /\
                 lookupProp props "column" = Number c) /\
  (forall props,
     Validation.assertPosition (Object props) name s = (Normal tt, s) \/
     Validation.assertPosition (Object props) name s
       = (Throw (Err (name +:+
            " must be an Object like {lineNumber: number, column: number}: ")),
          s)) /\
  (forall p, Validation.assertPosition (positionValue p) name s = (Normal tt, s)).
Proof.
  split; [reflexivity|]. split; [reflexivity|]. split; [|split].
  - intros props.
    unfold Validation.assertPosition, Validation.assertDefined, bind, ret.
    cbn [getProp].
    destruct (String.eqb (typeof (lookupProp props "lineNumber")) "number")
      eqn:Hl;
      destruct (String.eqb (typeof (lookupProp props "column")) "number")
        eqn:Hc; cbn [negb orb].
    + split; [intros _|reflexivity].
      apply typeof_number in Hl as [l Hl]. apply typeof_number in Hc as [c Hc].
      now exists l, c.
    + split; [discriminate|]. intros (l & c & _ & Hc').
      assert (String.eqb (typeof (lookupProp props "column")) "number" = true)
        by (apply typeof_number; now exists c).
      congruence.
    + split; [discriminate|]. intros (l & c & Hl' & _).
      assert (String.eqb (typeof (lookupProp props "lineNumber")) "number" = true)
        by (apply typeof_number; now exists l).
      congruence.
    + split; [discriminate|]. intros (l & c & Hl' & _).
      assert (String.eqb (typeof (lookupProp props "lineNumber")) "number" = true)
        by (apply typeof_number; now exists l).
      congruence.
  - intros props.
    unfold Validation.assertPosition, Validation.assertDefined, bind, ret.
    destruct (negb _ || negb _); [right | left]; reflexivity.
  - intros p. reflexivity.
Qed.

(** X24. [setOffset] with an offset of the buffer stores that offset and
    the position of that offset: afterwards the widget is positioned, its
    stored offset is the given one, [getPosition] of the handle returns the
    position, and stored position and offset agree.  This holds for any
    widget, whatever it held before. *)
Theorem X24_setOffset_then_read (m : string) (w : RemoteCursorWidget.t) (o : Z) :
  0 <= o <= strlen m ->
  let w' := snd (RemoteCursorWidget.setOffset m o w) in
  fst (RemoteCursorWidget.setOffset m o w) = Normal tt /\
  RemoteCursorWidget._offset w' = o /\
  RemoteCursor.getPosition w' = (Normal (getPositionAt m o), w') /\
  consistent m w' /\
  snd (RemoteCursorWidget.setOffset m o w') = w'.
Proof.
  intros Ho w'.
  assert (Hw' : w' = RemoteCursorWidget.set_position_offset
                       (RemoteCursorWidget.PosObject
                          (RemoteCursorWidget.mkWidgetPosition (getPositionAt m o)))
                       (getOffsetAt m (getPositionAt m o)) w)
    by reflexivity.
  split; [reflexivity|]. split; [|split; [|split]].
  - rewrite Hw'. cbn. apply offset_roundtrip. exact Ho.
  - rewrite Hw'. reflexivity.
  - intros p Hp. rewrite Hw' in *. cbn in Hp. injection Hp as <-. reflexivity.
  - rewrite Hw'. reflexivity.
Qed.

Lemma X24_on_freshCursor :
  RemoteCursorWidget._offset
    (snd (RemoteCursorWidget.setOffset twentyChars 7 freshCursor)) = 7.
Proof.
  apply (X24_setOffset_then_read twentyChars freshCursor 7).
  vm_compute. split; discriminate.
Defined.
